(** * otodoki2web: preference analysis, personalization and search strategies

    A shallow embedding of the backend services
      - [app/services/preference_analyzer.py]
      - [app/services/personalization.py]
      - [app/services/search_strategies/user_preference_search.py]
      - [app/services/search_strategies/__init__.py]
    followed by the properties proved about them.

    Conventions of the embedding.
    - Python [int] is [Z].  The scores of [_score_track] are Python floats
      that only ever hold sums of integers ([10.0 + count],
      [15.0 + count * 2.0], [-5.0], [-10.0]).  [binary64._score_track] is
      the method with the float operations as Python performs them;
      [PersonalizationService._score_track] is the method in exact integers,
      which the sort of [personalize_tracks] compares.  The two agree for
      counts up to 2^51 in magnitude ([_score_track_exact]); a count the
      analyzer produces is at most the number of rows read
      ([_score_track_bounds]).
    - [Optional[str]] is [option string]; Python truthiness of such a value
      ([if track.genre:]) is [truthy].
    - Awaited calls are sequential; a coroutine is a computation in the
      monad [M] (world passing with exceptions).  The world records what the
      code did (store reads, analyzer entries, log records) and holds the
      source of randomness.
    - Raised values are instances of Python's [Exception]; interpreter
      signals deriving from [BaseException] only (task cancellation,
      interpreter exit) are not part of the model. *)

From Stdlib Require Import ZArith Lia Permutation Sorted QArith DecimalString.
From stdpp Require Import base tactics option list gmap strings.

Open Scope string_scope.
Open Scope list_scope.
Open Scope Z_scope.

(** ** Exceptions, events and the world *)

Inductive ExcClass :=
| ImportError
| ModuleNotFoundError    (* subclass of ImportError *)
| AttributeError
| TypeError
| ValueError
| IndexError
| SyntaxError
| OverflowError
| SQLAlchemyError.

Record PyExc := mkExc { exc_class : ExcClass; exc_msg : string }.

(** [isinstance(exc, (ImportError, AttributeError))] *)
Definition is_ImportError_or_AttributeError (e : PyExc) : bool :=
  match exc_class e with
  | ImportError | ModuleNotFoundError | AttributeError => true
  | _ => false
  end.

Inductive Outcome (A : Type) :=
| Returns (a : A)
| Raises (e : PyExc).
Arguments Returns {A} a.
Arguments Raises {A} e.

(** Modelled from the spec: [app.db.models.EvaluationStatus] is not among
    the sources; an evaluation has the status [LIKE] or [DISLIKE]. *)
Inductive EvaluationStatus := LIKE | DISLIKE.

(** [select(TrackCache).join(Evaluation, ...).where(user_id == ...).where(status == ...)] *)
Record Query := mkQuery { q_user_id : string; q_status : EvaluationStatus }.

Inductive LogLevel := INFO | WARNING | ERROR.

Inductive Event :=
| EvAnalyze (user_id : string) (min_likes : Z)   (* entry of analyze_preferences *)
| EvExecute (q : Query)                        (* session.execute(q) *)
| EvLog (lvl : LogLevel).                      (* logger.info / warning / error *)

(** [rng] is the tape of raw draws the [random] module will hand out. *)
Record World := mkWorld { trace : list Event; rng : list Z }.

Definition M (A : Type) : Type := World -> Outcome A * World.

Definition ret {A} (a : A) : M A := fun w => (Returns a, w).

Definition raise {A} (e : PyExc) : M A := fun w => (Raises e, w).

Definition bind {A B} (c : M A) (k : A -> M B) : M B :=
  fun w =>
    match c w with
    | (Returns a, w') => k a w'
    | (Raises e, w') => (Raises e, w')
    end.

Notation "x <- c ;; k" := (bind c (fun x => k))
  (at level 20, c at level 99, k at level 200, only parsing).

(** [try: body  except Exception as e: handler(e)] *)
Definition try_except {A} (body : M A) (handler : PyExc -> M A) : M A :=
  fun w =>
    match body w with
    | (Returns a, w') => (Returns a, w')
    | (Raises e, w') => handler e w'
    end.

Definition emit (ev : Event) : M unit :=
  fun w => (Returns tt, mkWorld (trace w ++ [ev]) (rng w)).

Definition log (lvl : LogLevel) : M unit := emit (EvLog lvl).

(** A list comprehension whose element expression may raise. *)
Fixpoint mapM {A B} (f : A -> M B) (l : list A) : M (list B) :=
  match l with
  | [] => ret []
  | x :: l' => y <- f x ;; ys <- mapM f l' ;; ret (y :: ys)
  end.

(** ** The [random] module

    [random.random()] returns [k / 2^53] for a 53-bit integer [k]; the model
    keeps the numerator.  [random.choice(seq)] returns [seq[i]] for a drawn
    index [i] below [len(seq)] and raises [IndexError] on an empty sequence.
    Both consume one raw draw from the tape (0 once the tape is exhausted). *)

Definition two53 : Z := 9007199254740992.

Definition draw : M Z :=
  fun w =>
    match rng w with
    | [] => (Returns 0, w)
    | r :: rs => (Returns r, mkWorld (trace w) rs)
    end.

Definition random_random : M Z := r <- draw ;; ret (r mod two53).

Definition random_choice {A} (seq : list A) : M A :=
  match seq with
  | [] => raise (mkExc IndexError "Cannot choose from an empty sequence")
  | x :: _ =>
      r <- draw ;;
      ret (nth (Z.to_nat (r mod Z.of_nat (length seq))) seq x)
  end.

(** The binary64 literal [0.7] is [6305039478318694 / 2^53]. *)
Definition float_0_7 : Z := 6305039478318694.

(** ** Python built-ins used by the services *)

(** Truthiness of an [Optional[str]]: [None] and the empty string are falsy. *)
Definition truthy (o : option string) : bool :=
  match o with
  | Some s => negb (String.eqb s EmptyString)
  | None => false
  end.

(** [sorted(l, key=key, reverse=True)] and [l.sort(key=key, reverse=True)]:
    descending by key, and stable (Python keeps the original order of
    elements with equal keys also when [reverse=True]).  The element [x]
    being inserted stood before everything already in [l], so it stops in
    front of the first element whose key is not greater. *)
Fixpoint insert_desc {A} (key : A -> Z) (x : A) (l : list A) : list A :=
  match l with
  | [] => [x]
  | y :: l' => if key x <? key y then y :: insert_desc key x l' else x :: l
  end.

Definition sorted_reverse {A} (key : A -> Z) (l : list A) : list A :=
  foldr (insert_desc key) [] l.

(** [dict(pairs)]: later pairs overwrite earlier ones. *)
Definition py_dict (pairs : list (string * Z)) : gmap string Z :=
  foldl (fun d kv => <[kv.1 := kv.2]> d) ∅ pairs.

(** [collections.Counter]: a dict of counts, which keeps its keys in the
    order of first insertion; modelled as the list of its items. *)
Fixpoint counter_incr (x : string) (c : list (string * Z)) : list (string * Z) :=
  match c with
  | [] => [(x, 1)]
  | (k, n) :: c' =>
      if String.eqb k x then (k, n + 1) :: c' else (k, n) :: counter_incr x c'
  end.

Definition Counter (xs : list string) : list (string * Z) :=
  foldl (fun c x => counter_incr x c) [] xs.

(** [Counter.most_common()]:
    [sorted(self.items(), key=itemgetter(1), reverse=True)] *)
Definition most_common (c : list (string * Z)) : list (string * Z) :=
  sorted_reverse snd c.

(** ** Data model *)

(** Modelled from the spec: [app.db.models.TrackCache], the persisted
    catalogue record, is not among the sources.  The spec lists its fields
    ([external_id], [title], [artist], [primary_genre], ...); the ones the
    analyzer and the tests read are kept, [artist] and [primary_genre] as
    values that may be empty or absent. *)
Record TrackCache := mkTrackCache {
  tc_external_id : string;
  tc_title : string;
  tc_artist : option string;
  tc_primary_genre : option string
}.

(** Modelled from the spec: [app.models.track.Track], the request-time DTO,
    is not among the sources.  The spec lists [id], [title], [artist],
    [genre], [album] and two URLs; the scoring reads [artist] and [genre],
    which may be empty or absent. *)
Record Track := mkTrack {
  track_id : string;
  title : string;
  artist : option string;
  genre : option string;
  album : option string
}.

(** Modelled from the spec: [app.db.models.User] is not among the sources;
    the service reads only its identifier, as [str(user.id)]. *)
Record User := mkUser { user_pk : string }.

(** The store handle (SQLAlchemy's [AsyncSession], an external
    collaborator).  [session_rows q] is what [session.execute(q)] followed by
    [.scalars().all()] yields: the rows, or a raised error. *)
Record AsyncSession := mkSession {
  session_rows : Query -> Outcome (list TrackCache)
}.

Definition execute (session : AsyncSession) (q : Query) : M (list TrackCache) :=
  _ <- emit (EvExecute q) ;;
  fun w => (session_rows session q, w).

Record UserPreferences := mkUserPreferences {
  liked_genres : list (string * Z);
  liked_artists : list (string * Z);
  disliked_genres : list (string * Z);
  disliked_artists : list (string * Z);
  total_likes : Z;
  total_dislikes : Z
}.

Definition get_top_genres (self : UserPreferences) (limit : nat) : list string :=
  map fst (take limit (liked_genres self)).

Definition get_top_artists (self : UserPreferences) (limit : nat) : list string :=
  map fst (take limit (liked_artists self)).

(** ** preference_analyzer.py *)

Module PreferenceAnalyzer.

(** [[f(track) for track in tracks if f(track)]] *)
Definition nonempty_values {A} (f : A -> option string) (tracks : list A)
  : list string :=
  map (fun t => default EmptyString (f t)) (List.filter (fun t => truthy (f t)) tracks).

Definition _count_genres (tracks : list TrackCache) : list (string * Z) :=
  let genres := nonempty_values tc_primary_genre tracks in
  let counter := Counter genres in
  most_common counter.

Definition _count_artists (tracks : list TrackCache) : list (string * Z) :=
  let artists := nonempty_values tc_artist tracks in
  let counter := Counter artists in
  most_common counter.

Section Analyzer.

(** The aggregation methods the analyzer reaches through [self]; reading a
    row's attributes may fail, so they are computations that may raise. *)
Variable count_genres : list TrackCache -> M (list (string * Z)).
Variable count_artists : list TrackCache -> M (list (string * Z)).

Definition analyze_preferences_with (session : AsyncSession)
  (user_id : string) (min_likes : Z) : M (option UserPreferences) :=
  _ <- emit (EvAnalyze user_id min_likes) ;;
  try_except
    (liked_tracks <- execute session (mkQuery user_id LIKE) ;;
     disliked_tracks <- execute session (mkQuery user_id DISLIKE) ;;
     if Z.of_nat (length liked_tracks) <? min_likes then
       _ <- log INFO ;;
       ret None
     else
       liked_genres <- count_genres liked_tracks ;;
       liked_artists <- count_artists liked_tracks ;;
       disliked_genres <- count_genres disliked_tracks ;;
       disliked_artists <- count_artists disliked_tracks ;;
       let preferences :=
         mkUserPreferences liked_genres liked_artists
                           disliked_genres disliked_artists
                           (Z.of_nat (length liked_tracks))
                           (Z.of_nat (length disliked_tracks)) in
       _ <- log INFO ;;
       ret (Some preferences))
    (fun e =>
       _ <- log ERROR ;;
       ret None).

End Analyzer.

(** The analyzer with its own two aggregation methods. *)
Definition analyze_preferences (session : AsyncSession)
  (user_id : string) (min_likes : Z) : M (option UserPreferences) :=
  analyze_preferences_with
    (fun tracks => ret (_count_genres tracks))
    (fun tracks => ret (_count_artists tracks))
    session user_id min_likes.

End PreferenceAnalyzer.

(** ** personalization.py *)

Module PersonalizationService.

(** The score in exact integers; [binary64._score_track] below is the same
    method in Python's float arithmetic. *)
Definition _score_track (track : Track) (preferences : UserPreferences) : Z :=
  let score := 0 in
  (* genre matching *)
  let score :=
    if truthy (genre track) then
      let track_genre := default EmptyString (genre track) in
      let genre_dict := py_dict (liked_genres preferences) in
      let score :=
        match genre_dict !! track_genre with
        | Some count => score + (10 + count)
        | None => score
        end in
      let disliked_genre_dict := py_dict (disliked_genres preferences) in
      match disliked_genre_dict !! track_genre with
      | Some _ => score - 5
      | None => score
      end
    else score in
  (* artist matching *)
  let score :=
    if truthy (artist track) then
      let track_artist := default EmptyString (artist track) in
      let artist_dict := py_dict (liked_artists preferences) in
      let score :=
        match artist_dict !! track_artist with
        | Some count => score + (15 + count * 2)
        | None => score
        end in
      let disliked_artist_dict := py_dict (disliked_artists preferences) in
      match disliked_artist_dict !! track_artist with
      | Some _ => score - 10
      | None => score
      end
    else score in
  score.

Section Service.

(** The two collaborators the method reaches through [self]:
    [self.analyzer.analyze_preferences] and [self._score_track].  Either may
    raise; the method is written once for any pair of them. *)
Variable analyze : string -> Z -> M (option UserPreferences).
Variable score_of : Track -> UserPreferences -> M Z.

Definition personalize_tracks_with
  (tracks : list Track) (user : User) (min_likes : Z) : M (list Track) :=
  match tracks with
  | [] => ret tracks
  | _ :: _ =>
      try_except
        (preferences <- analyze (user_pk user) min_likes ;;
         match preferences with
         | None =>
             _ <- log INFO ;;
             ret tracks
         | Some preferences =>
             scored_tracks <-
               mapM (fun track =>
                       s <- score_of track preferences ;;
                       ret (track, s)) tracks ;;
             let scored_tracks := sorted_reverse snd scored_tracks in
             let personalized := map fst scored_tracks in
             _ <- log INFO ;;
             ret personalized
         end)
        (fun e =>
           _ <- log ERROR ;;
           ret tracks)
  end.

End Service.

(** The service as constructed by [PersonalizationService(session)]. *)
Definition personalize_tracks (session : AsyncSession)
  (tracks : list Track) (user : User) (min_likes : Z) : M (list Track) :=
  personalize_tracks_with
    (PreferenceAnalyzer.analyze_preferences session)
    (fun track preferences => ret (_score_track track preferences))
    tracks user min_likes.

End PersonalizationService.

(** ** The scores as Python computes them

    [_score_track] returns a [float].  Every float it handles has an
    integral value or is infinite: it starts from [0.0] and combines integer
    constants with counts converted from [int].  [binary64] gives these
    floats and the three operations the method uses, rounding as IEEE 754
    binary64 does; the sign of a zero is not kept, as no operation used here
    and no comparison of the sort tells the two zeros apart.
    [PersonalizationService._score_track] above is the same method in exact
    integers; the two agree as long as the counts stay within the range in
    which binary64 is exact (lemma [_score_track_exact]). *)

Module binary64.

Inductive float :=
| finite (value : Z)
| inf (negative : bool)
| nan.

(** The integral float nearest to the integer [x], ties to the even
    significand: from [2^53] on an integer keeps its 53 leading bits. *)
Definition round (x : Z) : Z :=
  let a := Z.abs x in
  let e := Z.max 0 (Z.log2 a - 52) in
  let q := a / 2 ^ e in
  let r := a mod 2 ^ e in
  let q := if 2 * r <? 2 ^ e then q
           else if 2 ^ e <? 2 * r then q + 1
           else q + q mod 2 in
  Z.sgn x * (q * 2 ^ e).

(** [sys.float_info.max] *)
Definition max_float : Z := 2 ^ 1024 - 2 ^ 971.

(** The float of an exact integral result: rounded, infinite beyond the
    finite range. *)
Definition of_exact (x : Z) : float :=
  let r := round x in
  if Z.abs r <=? max_float then finite r else inf (r <? 0).

(** An [int] operand of a float operator is converted first; the conversion
    raises [OverflowError] where the rounded value is not finite. *)
Definition of_int (n : Z) : M float :=
  match of_exact n with
  | finite r => ret (finite r)
  | _ => raise (mkExc OverflowError "int too large to convert to float")
  end.

Definition add (a b : float) : float :=
  match a, b with
  | finite x, finite y => of_exact (x + y)
  | finite _, inf s | inf s, finite _ => inf s
  | inf s, inf s' => if Bool.eqb s s' then inf s else nan
  | _, _ => nan
  end.

Definition sub (a b : float) : float :=
  match a, b with
  | finite x, finite y => of_exact (x - y)
  | finite _, inf s => inf (negb s)
  | inf s, finite _ => inf s
  | inf s, inf s' => if Bool.eqb s s' then nan else inf s
  | _, _ => nan
  end.

Definition mul (a b : float) : float :=
  match a, b with
  | finite x, finite y => of_exact (x * y)
  | finite x, inf s | inf s, finite x =>
      if x =? 0 then nan else inf (xorb s (x <? 0))
  | inf s, inf s' => inf (xorb s s')
  | _, _ => nan
  end.

(** [PersonalizationService._score_track], operation by operation. *)
Definition _score_track (track : Track) (preferences : UserPreferences) : M float :=
  let score := finite 0 in
  (* genre matching *)
  score <-
    (if truthy (genre track) then
       let track_genre := default EmptyString (genre track) in
       let genre_dict := py_dict (liked_genres preferences) in
       score <-
         match genre_dict !! track_genre with
         | Some count =>
             count <- of_int count ;;
             ret (add score (add (finite 10) count))
         | None => ret score
         end ;;
       let disliked_genre_dict := py_dict (disliked_genres preferences) in
       match disliked_genre_dict !! track_genre with
       | Some _ => ret (sub score (finite 5))
       | None => ret score
       end
     else ret score) ;;
  (* artist matching *)
  score <-
    (if truthy (artist track) then
       let track_artist := default EmptyString (artist track) in
       let artist_dict := py_dict (liked_artists preferences) in
       score <-
         match artist_dict !! track_artist with
         | Some count =>
             count <- of_int count ;;
             ret (add score (add (finite 15) (mul count (finite 2))))
         | None => ret score
         end ;;
       let disliked_artist_dict := py_dict (disliked_artists preferences) in
       match disliked_artist_dict !! track_artist with
       | Some _ => ret (sub score (finite 10))
       | None => ret score
       end
     else ret score) ;;
  ret score.

End binary64.

(** The counts of the liked tables lie within the range in which every
    float [_score_track] forms is exact. *)
Definition exact_counts (preferences : UserPreferences) : Prop :=
  forall value count,
    In (value, count) (liked_genres preferences ++ liked_artists preferences) ->
    Z.abs count <= 2 ^ 51.

(** ** search_strategies/user_preference_search.py *)

Module UserPreferenceSearchStrategy.

Record t := mk {
  session : option AsyncSession;
  user_id : option string;
  _preferences : option UserPreferences;
  _preferences_loaded : bool
}.

Definition __init__ (session : option AsyncSession) (user_id : option string) : t :=
  mk session user_id None false.

(** The search parameters are a Python dict from strings to strings. *)
Definition _fallback_params : M (gmap string string) :=
  let default_terms := ["pop"; "rock"; "jazz"; "electronic"; "indie"] in
  term <- random_choice default_terms ;;
  ret {[ "term" := term; "entity" := "song" ]}.

(** [PreferenceAnalyzer(None)] would fail on its first [execute]. *)
Definition null_session : AsyncSession :=
  mkSession (fun _ =>
    Raises (mkExc AttributeError "'NoneType' object has no attribute 'execute'")).

Definition _generate_preference_based_params (self : t) : M (gmap string string) :=
  match _preferences self with
  | None => _fallback_params
  | Some preferences =>
      r <- random_random ;;
      let use_genre := r <? float_0_7 in
      let by_artist : M (gmap string string) :=
        let top_artists := get_top_artists preferences 3 in
        match top_artists with
        | _ :: _ =>
            artist <- random_choice top_artists ;;
            _ <- log INFO ;;
            ret {[ "term" := artist; "entity" := "song";
                   "attribute" := "artistTerm" ]}
        | [] => _fallback_params
        end in
      if use_genre then
        let top_genres := get_top_genres preferences 3 in
        match top_genres with
        | _ :: _ =>
            genre <- random_choice top_genres ;;
            _ <- log INFO ;;
            ret {[ "term" := genre; "entity" := "song";
                   "attribute" := "genreIndex" ]}
        | [] => by_artist
        end
      else by_artist
  end.

Section Strategy.

(** [PreferenceAnalyzer(session).analyze_preferences], the one collaborator
    of the strategy. *)
Variable analyze : AsyncSession -> string -> Z -> M (option UserPreferences).

Definition _load_preferences_with (self : t) : M t :=
  try_except
    (preferences <-
       analyze (default null_session (session self))
               (default EmptyString (user_id self))
               3 ;;
     ret (mk (session self) (user_id self) preferences (_preferences_loaded self)))
    (fun e =>
       _ <- log ERROR ;;
       ret (mk (session self) (user_id self) None (_preferences_loaded self))).

(** Returns the parameters together with the instance as the call left it. *)
Definition generate_params_with (self : t) : M (gmap string string * t) :=
  if negb (bool_decide (is_Some (session self))) || negb (truthy (user_id self))
  then
    _ <- log WARNING ;;
    params <- _fallback_params ;;
    ret (params, self)
  else
    self <-
      (if negb (_preferences_loaded self) then
         self <- _load_preferences_with self ;;
         ret (mk (session self) (user_id self) (_preferences self) true)
       else ret self) ;;
    match _preferences self with
    | None =>
        _ <- log INFO ;;
        params <- _fallback_params ;;
        ret (params, self)
    | Some _ =>
        params <- _generate_preference_based_params self ;;
        ret (params, self)
    end.

(** [n] consecutive [generate_params] calls on one instance: the instance
    after the last call and the parameters returned, oldest first. *)
Fixpoint invoke_n_with (n : nat) (self : t) : M (list (gmap string string) * t) :=
  match n with
  | O => ret ([], self)
  | S n' =>
      r <- generate_params_with self ;;
      rest <- invoke_n_with n' r.2 ;;
      ret (r.1 :: rest.1, rest.2)
  end.

End Strategy.

Definition _load_preferences : t -> M t :=
  _load_preferences_with PreferenceAnalyzer.analyze_preferences.

Definition generate_params : t -> M (gmap string string * t) :=
  generate_params_with PreferenceAnalyzer.analyze_preferences.

Definition invoke_n : nat -> t -> M (list (gmap string string) * t) :=
  invoke_n_with PreferenceAnalyzer.analyze_preferences.

End UserPreferenceSearchStrategy.

(** ** search_strategies/__init__.py *)

Module search_strategies.

(** A value bound in a module's namespace, as far as [get_strategy] looks
    at it.  [BaseSearchStrategy] ([search_strategies/base.py]) is not among
    the sources; only the two tests made against it are kept. *)
Record PyObject := mkObj {
  obj_name : string;
  obj_isclass : bool;             (* inspect.isclass(obj) *)
  obj_is_strategy : bool;         (* issubclass(obj, BaseSearchStrategy) *)
  obj_is_base : bool;             (* obj is BaseSearchStrategy *)
  obj_call : option PyExc         (* what obj() raises, if it raises *)
}.

(** [importlib.import_module(path)]: the values of the module's namespace
    in definition order, or the error raised while loading it. *)
Definition Importer : Type := string -> Outcome (list PyObject).

(** The keyword arguments of a call, split by name: the two names the
    preference strategy declares, and every other name given. *)
Record Kwargs := mkKwargs {
  kw_session : option (option AsyncSession);
  kw_user_id : option (option string);
  kw_other : list string
}.

Inductive Strategy :=
| ChartKeyword
| UserPreference (s : UserPreferenceSearchStrategy.t)
| Discovered (class_name : string).

(** Modelled from the spec: [chart_keyword.ChartKeywordSearchStrategy] is
    not among the sources.  The spec describes the chart/keyword strategies
    as simple external strategies with a fixed constructor; importing the
    module and calling the constructor without arguments succeed. *)
Definition ChartKeywordSearchStrategy : Outcome Strategy := Returns ChartKeyword.

(** [UserPreferenceSearchStrategy] called with the unpacked [kwargs]:
    [__init__] declares [session] and [user_id], both defaulting to [None];
    any other keyword is a [TypeError]. *)
Definition construct_user_preference (kwargs : Kwargs) : Outcome Strategy :=
  match kw_other kwargs with
  | [] =>
      Returns (UserPreference
        (UserPreferenceSearchStrategy.__init__
           (default None (kw_session kwargs))
           (default None (kw_user_id kwargs))))
  | name :: _ =>
      Raises (mkExc TypeError
        ("UserPreferenceSearchStrategy.__init__() got an unexpected keyword argument '"
         +:+ name +:+ "'"))
  end.

Definition qualifies (obj : PyObject) : bool :=
  obj_isclass obj && obj_is_strategy obj && negb (obj_is_base obj).

Definition could_not_load (strategy_name : string) : PyExc :=
  mkExc ImportError
    ("Could not load search strategy '" +:+ strategy_name +:+
     "'. Ensure the module exists and defines a valid strategy class.").

Definition get_strategy (import_module : Importer)
  (strategy_name : string) (kwargs : Kwargs) : Outcome Strategy :=
  let body : Outcome Strategy :=
    if String.eqb strategy_name "chart_keyword" then
      ChartKeywordSearchStrategy
    else if String.eqb strategy_name "user_preference_search" then
      construct_user_preference kwargs
    else
      let module_path := "app.services.search_strategies." +:+ strategy_name in
      match import_module module_path with
      | Raises e => Raises e
      | Returns strategy_module =>
          match List.find qualifies strategy_module with
          | Some obj =>
              match obj_call obj with
              | None => Returns (Discovered (obj_name obj))
              | Some e => Raises e
              end
          | None =>
              Raises (mkExc ImportError
                ("No BaseSearchStrategy subclass found in module '" +:+
                 strategy_name +:+ "'."))
          end
      end in
  match body with
  | Returns s => Returns s
  | Raises exc =>
      if is_ImportError_or_AttributeError exc
      then Raises (could_not_load strategy_name)
      else Raises exc
  end.

End search_strategies.

(** * Vocabulary of the statements *)

(** [l] is in descending order of [key]. *)
Definition descending {A} (key : A -> Z) (l : list A) : Prop :=
  StronglySorted (fun a b => key b <= key a) l.

(** The elements of [l] whose key is [s], in the order they have in [l]. *)
Definition with_key {A} (key : A -> Z) (s : Z) (l : list A) : list A :=
  List.filter (fun a => key a =? s) l.

(** How often the string [x] occurs in [xs]. *)
Definition occurrences (x : string) (xs : list string) : Z :=
  Z.of_nat (length (List.filter (String.eqb x) xs)).

(** The distinct strings of [xs] in the order of their first occurrence. *)
Fixpoint first_seen (xs : list string) : list string :=
  match xs with
  | [] => []
  | x :: xs' => x :: List.filter (fun y => negb (String.eqb x y)) (first_seen xs')
  end.

(** How many of [tracks] carry the value [x] in the field [f]. *)
Definition carrying {A} (f : A -> option string) (x : string) (tracks : list A) : Z :=
  Z.of_nat (length (List.filter
    (fun t => match f t with Some y => String.eqb x y | None => false end) tracks)).

(** [table] is the frequency table of the field [f] over [tracks]: its
    entries are exactly the non-empty values with their positive number of
    carriers, no value is listed twice, counts descend, and the values that
    share a count [n] stand in the order in which the scan of [tracks]
    first met them. *)
Definition frequency_table {A} (f : A -> option string) (tracks : list A)
  (table : list (string * Z)) : Prop :=
  (forall g n, In (g, n) table <-> g <> EmptyString /\ 0 < n /\ n = carrying f g tracks)
  /\ List.NoDup (map fst table)
  /\ descending snd table
  /\ (forall n,
        map fst (with_key snd n table)
        = List.filter (fun g => carrying f g tracks =? n)
            (first_seen (PreferenceAnalyzer.nonempty_values f tracks))).

(** One additive clause of the score.  The clause applies when the track's
    field is non-empty and listed in [table]; it then contributes [bonus] of
    a count listed for it, and contributes nothing otherwise. *)
Definition clause (field : option string) (table : list (string * Z))
  (bonus : Z -> Z) (contribution : Z) : Prop :=
  (truthy field = true
   /\ exists count, In (default EmptyString field, count) table
                   /\ contribution = bonus count)
  \/ ((truthy field = false \/ forall count, ~ In (default EmptyString field, count) table)
      /\ contribution = 0).

(** The preferences of the worked example. *)
Definition example_preferences : UserPreferences :=
  mkUserPreferences
    [("Rock", 2); ("Pop", 1)]
    [("Rock Band", 2)]
    [("Jazz", 1)]
    []
    3 1.

(** The analyzer entries and the store reads recorded in a trace. *)
Definition analyzer_entries (tr : list Event) : list (string * Z) :=
  flat_map (fun ev => match ev with EvAnalyze u m => [(u, m)] | _ => [] end) tr.

Definition store_reads (tr : list Event) : list Query :=
  flat_map (fun ev => match ev with EvExecute q => [q] | _ => [] end) tr.

(** The value the next [random.random()] call returns, as a numerator
    over [2^53]. *)
Definition next_random (w : World) : Z := hd 0 (rng w) mod two53.

(** The three shapes of search parameters. *)
Definition default_terms : list string :=
  ["pop"; "rock"; "jazz"; "electronic"; "indie"].

Definition fallback_shaped (params : gmap string string) : Prop :=
  exists term, In term default_terms
    /\ params = {[ "term" := term; "entity" := "song" ]}.

Definition genre_shaped (p : UserPreferences) (params : gmap string string) : Prop :=
  exists g, In g (get_top_genres p 3)
    /\ params = {[ "term" := g; "entity" := "song"; "attribute" := "genreIndex" ]}.

Definition artist_shaped (p : UserPreferences) (params : gmap string string) : Prop :=
  exists a, In a (get_top_artists p 3)
    /\ params = {[ "term" := a; "entity" := "song"; "attribute" := "artistTerm" ]}.

(** ** Sample data

    The rows and evaluations of the repository's test fixtures
    ([tests/test_personalization.py]): the user likes two Rock tracks and a
    Pop track and dislikes a Jazz track. *)

Definition rock_song_1 : TrackCache :=
  mkTrackCache "1001" "Rock Song 1" (Some "Rock Band") (Some "Rock").
Definition pop_song_1 : TrackCache :=
  mkTrackCache "1002" "Pop Song 1" (Some "Pop Artist") (Some "Pop").
Definition rock_song_2 : TrackCache :=
  mkTrackCache "1003" "Rock Song 2" (Some "Rock Band") (Some "Rock").
Definition jazz_song : TrackCache :=
  mkTrackCache "1004" "Jazz Song" (Some "Jazz Artist") (Some "Jazz").

Definition test_user : User := mkUser "test-user".

Definition test_session : AsyncSession :=
  mkSession (fun q =>
    if String.eqb (q_user_id q) "test-user" then
      match q_status q with
      | LIKE => Returns [rock_song_1; pop_song_1; rock_song_2]
      | DISLIKE => Returns [jazz_song]
      end
    else Returns []).

(** A store whose reads fail. *)
Definition broken_session : AsyncSession :=
  mkSession (fun _ => Raises (mkExc SQLAlchemyError "connection refused")).

Definition new_rock_song : Track :=
  mkTrack "2001" "New Rock Song" (Some "Rock Band") (Some "Rock") (Some "New Album").
Definition new_jazz_song : Track :=
  mkTrack "2002" "New Jazz Song" (Some "Jazz Artist") (Some "Jazz") (Some "New Jazz Album").
Definition new_pop_song : Track :=
  mkTrack "2003" "New Pop Song" (Some "Pop Artist") (Some "Pop") (Some "New Pop Album").

Definition candidate_tracks : list Track :=
  [new_jazz_song; new_pop_song; new_rock_song].

(** A user whose liked rows carry a genre but no artist. *)
Definition untitled_rock : TrackCache :=
  mkTrackCache "3001" "Untitled" None (Some "Rock").

Definition genres_only_session : AsyncSession :=
  mkSession (fun q =>
    match q_status q with
    | LIKE => Returns [untitled_rock; untitled_rock; untitled_rock]
    | DISLIKE => Returns []
    end).

(** A world with an empty trace and the given tape of draws. *)
Definition fresh_world (tape : list Z) : World := mkWorld [] tape.

(** An installation without any extension module, one whose module
    [lyrics_search] does not parse, and calls without or with a keyword the
    preference strategy does not declare. *)
Definition no_modules : search_strategies.Importer :=
  fun path => Raises (mkExc ModuleNotFoundError ("No module named '" +:+ path +:+ "'")).

Definition unparsable_module : search_strategies.Importer :=
  fun path =>
    if String.eqb path "app.services.search_strategies.lyrics_search"
    then Raises (mkExc SyntaxError "invalid syntax")
    else no_modules path.

Definition no_kwargs : search_strategies.Kwargs :=
  search_strategies.mkKwargs None None [].

Definition kwargs_with_limit : search_strategies.Kwargs :=
  search_strategies.mkKwargs None (Some (Some "test-user")) ["limit"].

(** The world in which the analyzer starts to aggregate: it has entered
    and has made its two reads. *)
Definition after_reads (w : World) (user_id : string) (min_likes : Z) : World :=
  mkWorld (((trace w ++ [EvAnalyze user_id min_likes])
              ++ [EvExecute (mkQuery user_id LIKE)])
             ++ [EvExecute (mkQuery user_id DISLIKE)])
          (rng w).

(** * The rest of the code

    The remaining functions of the cited files, the listing of the registry,
    and the callers of the services in [app/api/deps.py] and [app/main.py]. *)

(** ** search_strategies/__init__.py: [list_strategies]

    [pkgutil.iter_modules(package.__path__)] yields, for every entry of the
    package directory, its name and whether it is a package. *)
Definition list_strategies (iter_modules : list (string * bool)) : list string :=
  foldl (fun available_strategies entry =>
           if negb entry.2 && negb (String.eqb entry.1 "base")
           then available_strategies ++ [entry.1]
           else available_strategies)
        [] iter_modules.

(** ** HTTP errors

    [fastapi.HTTPException], and what a route or dependency does: it
    returns, raises an [HTTPException], or lets another exception through. *)
Record HTTPException := mkHTTP {
  status_code : Z;
  detail : string;
  headers : option (list (string * string))
}.

Inductive Reply (A : Type) :=
| Done (a : A)
| HTTPError (h : HTTPException)
| OtherError (e : PyExc).
Arguments Done {A} a.
Arguments HTTPError {A} h.
Arguments OtherError {A} e.

(** ** api/deps.py *)

Module deps.

Section Deps.

(** The collaborators, none of them among the sources:
    [uuid.UUID(s)], which raises [ValueError] on a malformed string ([None]
    here); [app.core.security.decode_access_token], which returns the claims
    of the token or raises [TokenError] ([None] here);
    [app.db.crud.UserCRUD.get_by_id], a store read that may raise.  The
    [logger.debug] records are not modelled. *)
Variable UUIDt : Type.
Variable UUID : string -> option UUIDt.
Variable decode_access_token : string -> option (gmap string string).
Variable get_by_id : AsyncSession -> UUIDt -> Outcome (option User).

Definition unauthorized (detail : string) : HTTPException :=
  mkHTTP 401 detail (Some [("WWW-Authenticate", "Bearer")]).

Definition _get_user_from_token (token : string) (session : AsyncSession)
  : Reply User :=
  match decode_access_token token with
  | None => HTTPError (unauthorized "Could not validate credentials")
  | Some payload =>
      match payload !! "sub" with
      | None => HTTPError (unauthorized "Invalid token payload")
      | Some user_id =>
          match UUID user_id with
          | None => HTTPError (unauthorized "Invalid token subject")
          | Some user_uuid =>
              match get_by_id session user_uuid with
              | Raises e => OtherError e
              | Returns None => HTTPError (unauthorized "User not found")
              | Returns (Some user) => Done user
              end
          end
      end
  end.

Definition get_current_user (token : option string) (session : AsyncSession)
  : Reply User :=
  if negb (truthy token) then HTTPError (unauthorized "Not authenticated")
  else _get_user_from_token (default EmptyString token) session.

(** [query_params] are those of the request. *)
Definition get_current_active_user (query_params : gmap string string)
  (token : option string) (session : AsyncSession) : Reply User :=
  let raw_token := if truthy token then token else query_params !! "access_token" in
  if negb (truthy raw_token) then HTTPError (unauthorized "Not authenticated")
  else _get_user_from_token (default EmptyString raw_token) session.

Definition get_optional_user (token : option string) (session : AsyncSession)
  : Reply (option User) :=
  if negb (truthy token) then Done None
  else
    match _get_user_from_token (default EmptyString token) session with
    | Done user => Done (Some user)
    | HTTPError _ => Done None
    | OtherError e => OtherError e
    end.

End Deps.

End deps.

(** ** main.py

    The query parameters [excludeIds] and [ORIGINS] are taken apart character
    by character, so these texts are sequences of code points. *)

(** [str.isspace] of one character. *)
Definition isspace (c : N) : bool :=
  ((9 <=? c) && (c <=? 13) || (28 <=? c) && (c <=? 32)
   || (c =? 133) || (c =? 160) || (c =? 5760)
   || (8192 <=? c) && (c <=? 8202)
   || (c =? 8232) || (c =? 8233) || (c =? 8239) || (c =? 8287)
   || (c =? 12288))%N.

Fixpoint lstrip (s : list N) : list N :=
  match s with
  | [] => []
  | c :: s' => if isspace c then lstrip s' else s
  end.

Definition rstrip (s : list N) : list N := rev (lstrip (rev s)).

(** [s.strip()] *)
Definition strip (s : list N) : list N := rstrip (lstrip s).

(** [s.split(sep)] for a one-character separator. *)
Fixpoint split (sep : N) (s : list N) : list (list N) :=
  match s with
  | [] => [[]]
  | c :: s' =>
      if (c =? sep)%N then [] :: split sep s'
      else match split sep s' with
           | piece :: pieces => (c :: piece) :: pieces
           | [] => [[c]]
           end
  end.

(** [sep.join(pieces)] *)
Fixpoint join (sep : N) (pieces : list (list N)) : list N :=
  match pieces with
  | [] => []
  | [piece] => piece
  | piece :: pieces' => piece ++ sep :: join sep pieces'
  end.

Definition comma : N := 44.

Module main.

(** [origins = [origin.strip() for origin in origins_str.split(",")]] *)
Definition origins (origins_str : list N) : list (list N) :=
  map strip (split comma origins_str).

(** The limit of a request: [limit] or the configured default, brought
    between 1 and the configured maximum. *)
Definition validated_limit (limit : option Z) (default_limit max_limit : Z) : Z :=
  let validated_limit :=
    match limit with Some limit => limit | None => default_limit end in
  Z.max 1 (Z.min validated_limit max_limit).

(** The list of ids to exclude, from the [excludeIds] parameter. *)
Definition exclude_ids (excludeIds : option (list N)) : list (list N) :=
  match excludeIds with
  | None | Some [] => []
  | Some excludeIds =>
      map strip
        (List.filter (fun id_str => negb (Nat.eqb (length (strip id_str)) 0))
                     (split comma excludeIds))
  end.

(** [int(x)] of a finite float: truncation towards zero. *)
Definition int_of (x : Q) : Z := Z.quot (Qnum x) (Z.pos (Qden x)).

(** [str(n)] of an [int]. *)
Definition str_of_int (n : Z) : string := NilZero.string_of_int (Z.to_int n).

Section Suggestions.

(** [SuggestionsResponse] ([app.models.suggestions]) is not among the
    sources; the route reads and writes its [data] and passes the rest along. *)
Variable Meta : Type.

Record SuggestionsResponse := mkResponse { data : list Track; meta : Meta }.

(** The collaborators, none of them among the sources:
    [check_rate_limit()], which answers whether the request may pass and
    after how many seconds to retry; the two limits of [SuggestionsConfig];
    [SuggestionsService(queue_manager, get_worker()).get_suggestions]; and,
    as for the other services, the personalization the route builds from the
    session. *)
Variable check_rate_limit : M (bool * Q).
Variable default_limit : Z.
Variable max_limit : Z.
Variable get_suggestions : Z -> list (list N) -> M SuggestionsResponse.
Variable personalize_tracks :
  AsyncSession -> list Track -> User -> Z -> M (list Track).

Definition get_track_suggestions_with
  (limit : option Z) (excludeIds : option (list N))
  (user : option User) (session : AsyncSession)
  : World -> Reply SuggestionsResponse * World :=
  fun w =>
    match check_rate_limit w with
    | (Raises e, w) => (OtherError e, w)
    | (Returns (is_allowed, retry_after), w) =>
        if negb is_allowed then
          (HTTPError
             (mkHTTP 429 "Rate limit exceeded"
                (Some [("Retry-After", str_of_int (int_of retry_after + 1))])),
           w)
        else
          let body : M SuggestionsResponse :=
            let validated_limit := validated_limit limit default_limit max_limit in
            let exclude_ids := exclude_ids excludeIds in
            response <- get_suggestions validated_limit exclude_ids ;;
            match user with
            | Some user =>
                try_except
                  (personalized_tracks <-
                     personalize_tracks session (data response) user 3 ;;
                   let response := mkResponse personalized_tracks (meta response) in
                   _ <- log INFO ;;
                   ret response)
                  (fun e =>
                     _ <- log WARNING ;;
                     ret response)
            | None => ret response
            end in
          match body w with
          | (Returns response, w) => (Done response, w)
          | (Raises e, w) =>
              (HTTPError (mkHTTP 500 "Internal server error" None),
               mkWorld (trace w ++ [EvLog ERROR]) (rng w))
          end
    end.

End Suggestions.

(** The route with the personalization service it constructs. *)
Definition get_track_suggestions (Meta : Type)
  (check_rate_limit : M (bool * Q)) (default_limit max_limit : Z)
  (get_suggestions : Z -> list (list N) -> M (SuggestionsResponse Meta)) :=
  get_track_suggestions_with Meta check_rate_limit default_limit max_limit
    get_suggestions PersonalizationService.personalize_tracks.

End main.

(** Search parameters the upstream catalogue search can use: a non-empty
    term, the entity "song", and no attribute or one of the two attributes
    the strategy knows. *)
Definition usable_params (params : gmap string string) : Prop :=
  (exists term, params !! "term" = Some term /\ term <> EmptyString)
  /\ params !! "entity" = Some "song"
  /\ (params !! "attribute" = None
      \/ params !! "attribute" = Some "genreIndex"
      \/ params !! "attribute" = Some "artistTerm")
  /\ dom params ⊆ ({[ "term"; "entity"; "attribute" ]} : gset string).

(** * Stable descending sort *)

Section StableSort.
Context {A : Type} (key : A -> Z).

Lemma insert_desc_perm x l : Permutation (x :: l) (insert_desc key x l).
Proof.
  induction l as [|y l IH]; simpl; [reflexivity|].
  destruct (key x <? key y); [|reflexivity].
  rewrite perm_swap. now apply perm_skip.
Qed.

Lemma sorted_reverse_perm l : Permutation l (sorted_reverse key l).
Proof.
  induction l as [|x l IH]; simpl; [reflexivity|].
  rewrite <- insert_desc_perm. now apply perm_skip.
Qed.

Lemma insert_desc_descending x l :
  descending key l -> descending key (insert_desc key x l).
Proof.
  unfold descending. induction l as [|y l IH]; simpl; intros Hs.
  - repeat constructor.
  - apply StronglySorted_inv in Hs as [Hl Hy].
    destruct (key x <? key y) eqn:E.
    + apply Z.ltb_lt in E. constructor; [now apply IH|].
      rewrite <- insert_desc_perm. constructor; [lia|assumption].
    + apply Z.ltb_ge in E. constructor.
      * now constructor.
      * constructor; [lia|].
        eapply Forall_impl; [exact Hy|]. simpl. intros; lia.
Qed.

Lemma sorted_reverse_descending l : descending key (sorted_reverse key l).
Proof.
  induction l as [|x l IH]; simpl.
  - constructor.
  - now apply insert_desc_descending.
Qed.

Lemma insert_desc_with_key s x l :
  with_key key s (insert_desc key x l) = with_key key s (x :: l).
Proof.
  unfold with_key. induction l as [|y l IH]; simpl; [reflexivity|].
  destruct (key x <? key y) eqn:E; [|reflexivity].
  apply Z.ltb_lt in E. simpl. rewrite IH. simpl.
  destruct (key x =? s) eqn:Ex, (key y =? s) eqn:Ey; try reflexivity.
  apply Z.eqb_eq in Ex, Ey. lia.
Qed.

Lemma sorted_reverse_stable s l :
  with_key key s (sorted_reverse key l) = with_key key s l.
Proof.
  induction l as [|x l IH]; simpl; [reflexivity|].
  rewrite insert_desc_with_key. unfold with_key in *. simpl. now rewrite IH.
Qed.

(** A descending list is determined by its classes of equal keys: there is
    one stable descending arrangement of a list, so every stable sort
    computes [sorted_reverse]. *)
Lemma descending_stable_unique l1 l2 :
  descending key l1 -> descending key l2 ->
  (forall s, with_key key s l1 = with_key key s l2) ->
  l1 = l2.
Proof.
  unfold descending. revert l2.
  induction l1 as [|x l1 IH]; intros [|y l2] H1 H2 Heq.
  - reflexivity.
  - specialize (Heq (key y)). unfold with_key in Heq. simpl in Heq.
    rewrite Z.eqb_refl in Heq. discriminate.
  - specialize (Heq (key x)). unfold with_key in Heq. simpl in Heq.
    rewrite Z.eqb_refl in Heq. discriminate.
  - apply StronglySorted_inv in H1 as [H1 Hx].
    apply StronglySorted_inv in H2 as [H2 Hy].
    assert (Hk : key x = key y).
    { pose proof (Heq (key x)) as Ex. pose proof (Heq (key y)) as Ey.
      unfold with_key in Ex, Ey. simpl in Ex, Ey.
      rewrite Z.eqb_refl in Ex, Ey.
      destruct (Z.eq_dec (key x) (key y)) as [|Hne]; [assumption|].
      destruct (key y =? key x) eqn:E1; [apply Z.eqb_eq in E1; lia|].
      destruct (key x =? key y) eqn:E2; [apply Z.eqb_eq in E2; lia|].
      assert (Hin2 : In x l2).
      { eapply (proj1 (filter_In _ _ _)). rewrite <- Ex. now left. }
      assert (Hin1 : In y l1).
      { eapply (proj1 (filter_In _ _ _)). rewrite Ey. now left. }
      rewrite List.Forall_forall in Hx, Hy.
      specialize (Hx _ Hin1). specialize (Hy _ Hin2). simpl in *. lia. }
    pose proof (Heq (key x)) as Ex. unfold with_key in Ex. simpl in Ex.
    rewrite Z.eqb_refl in Ex. rewrite <- Hk, Z.eqb_refl in Ex.
    injection Ex as -> Ex. f_equal. apply IH; try assumption.
    intros s. specialize (Heq s). unfold with_key in *. simpl in Heq.
    destruct (key y =? s); [now injection Heq|assumption].
Qed.

(** Hence whatever stable descending sort the interpreter runs, its result
    is the one computed by [sorted_reverse]. *)
Corollary sorted_reverse_characterised l l' :
  descending key l' ->
  (forall s, with_key key s l' = with_key key s l) ->
  l' = sorted_reverse key l.
Proof.
  intros Hd Hs. apply descending_stable_unique;
    [exact Hd|apply sorted_reverse_descending|].
  intros s. now rewrite sorted_reverse_stable.
Qed.

End StableSort.

(** * Running computations *)

Ltac run :=
  unfold try_except, bind, ret, raise, log, emit, execute in *; simpl in *.

(** Closes a path whose premises name an outcome the run did not have. *)
Ltac path_done :=
  intros; try congruence; try discriminate;
  try (match goal with
       | H : (_, _) = (Returns (Some _), _) |- _ => inversion H; subst
       end; congruence).

Lemma mapM_pure {A B} (g : A -> B) l w :
  mapM (fun x => ret (g x)) l w = (Returns (map g l), w).
Proof.
  induction l as [|x l IH]; simpl; [reflexivity|].
  unfold bind, ret in *. simpl. now rewrite IH.
Qed.

Lemma mapM_decorate_pure {A} (g : A -> Z) l w :
  mapM (fun x => s <- ret (g x) ;; ret (x, s)) l w
  = (Returns (map (fun x => (x, g x)) l), w).
Proof. exact (mapM_pure (fun x => (x, g x)) l w). Qed.

Lemma mapM_decorate_fst {A} (f : A -> M Z) l w ps w' :
  mapM (fun x => s <- f x ;; ret (x, s)) l w = (Returns ps, w') ->
  map fst ps = l.
Proof.
  revert w ps w'. induction l as [|x l IH]; simpl; intros w ps w' H.
  - unfold ret in H. now inversion H.
  - unfold bind, ret in H.
    destruct (f x w) as [[s|e] w1]; [|discriminate].
    destruct (mapM _ l w1) as [[ys|e] w2] eqn:E; [|discriminate].
    inversion H; subst. simpl. f_equal. eapply IH. exact E.
Qed.

Lemma insert_desc_decorate {A} (g : A -> Z) x l :
  insert_desc snd (x, g x) (map (fun y => (y, g y)) l)
  = map (fun y => (y, g y)) (insert_desc g x l).
Proof.
  induction l as [|y l IH]; simpl; [reflexivity|].
  destruct (g x <? g y); simpl; [now rewrite IH|reflexivity].
Qed.

(** Sorting the (track, score) pairs by their second component and
    dropping the scores is sorting the tracks by score. *)
Lemma sorted_reverse_decorate {A} (g : A -> Z) l :
  map fst (sorted_reverse snd (map (fun x => (x, g x)) l)) = sorted_reverse g l.
Proof.
  assert (H : sorted_reverse snd (map (fun x => (x, g x)) l)
              = map (fun x => (x, g x)) (sorted_reverse g l)).
  { induction l as [|x l IH]; simpl; [reflexivity|].
    rewrite IH. apply insert_desc_decorate. }
  rewrite H, map_map. simpl. apply map_id.
Qed.

(** * The personalization service *)

Section ServiceFacts.
Import PersonalizationService.
Variable analyze : string -> Z -> M (option UserPreferences).
Variable score_of : Track -> UserPreferences -> M Z.

Lemma personalize_tracks_with_nonempty tracks user min_likes :
  tracks <> [] ->
  personalize_tracks_with analyze score_of tracks user min_likes
  = try_except
      (preferences <- analyze (user_pk user) min_likes ;;
       match preferences with
       | None => _ <- log INFO ;; ret tracks
       | Some preferences =>
           scored_tracks <-
             mapM (fun track => s <- score_of track preferences ;; ret (track, s))
                  tracks ;;
           _ <- log INFO ;;
           ret (map fst (sorted_reverse snd scored_tracks))
       end)
      (fun e => _ <- log ERROR ;; ret tracks).
Proof. destruct tracks; [congruence|reflexivity]. Qed.

(** What [personalize_tracks] returns, path by path. *)
Lemma personalize_tracks_with_paths tracks user min_likes w :
  exists out w',
    personalize_tracks_with analyze score_of tracks user min_likes w
      = (Returns out, w')
    /\ (tracks = [] -> out = tracks /\ w' = w)
    /\ (forall w1, analyze (user_pk user) min_likes w = (Returns None, w1) ->
        out = tracks)
    /\ (forall e w1, analyze (user_pk user) min_likes w = (Raises e, w1) ->
        out = tracks)
    /\ (forall p w1 e w2,
        analyze (user_pk user) min_likes w = (Returns (Some p), w1) ->
        mapM (fun t => s <- score_of t p ;; ret (t, s)) tracks w1 = (Raises e, w2) ->
        out = tracks)
    /\ (forall p w1 ps w2,
        analyze (user_pk user) min_likes w = (Returns (Some p), w1) ->
        mapM (fun t => s <- score_of t p ;; ret (t, s)) tracks w1 = (Returns ps, w2) ->
        out = map fst (sorted_reverse snd ps)).
Proof.
  destruct tracks as [|t0 ts] eqn:Et.
  - simpl. exists [], w. unfold ret. repeat split; intros; try reflexivity.
    match goal with H : (Returns [], _) = (Returns _, _) |- _ =>
      inversion H; subst end. reflexivity.
  - assert (Hne : tracks <> []) by (rewrite Et; discriminate).
    rewrite <- Et. clear Et. rewrite (personalize_tracks_with_nonempty _ _ _ Hne).
    unfold try_except, bind at 1.
    destruct (analyze (user_pk user) min_likes w) as [[[p|]|e] w1] eqn:Ea.
    + unfold bind at 1.
      destruct (mapM _ tracks w1) as [[ps|e] w2] eqn:Em;
        run; (eexists _, _; split; [reflexivity|]); repeat split; path_done.
    + run. eexists _, _. split; [reflexivity|]. repeat split; path_done.
    + run. eexists _, _. split; [reflexivity|]. repeat split; path_done.
Qed.

Lemma personalize_tracks_with_perm tracks user min_likes w :
  exists out w',
    personalize_tracks_with analyze score_of tracks user min_likes w
      = (Returns out, w')
    /\ Permutation tracks out.
Proof.
  destruct (personalize_tracks_with_paths tracks user min_likes w)
    as (out & w' & Hrun & Hnil & Hnone & Hraise & Hscore & Hsort).
  exists out, w'. split; [exact Hrun|].
  destruct (analyze (user_pk user) min_likes w) as [[[p|]|e] w1] eqn:Ea.
  - destruct (mapM (fun t => s <- score_of t p ;; ret (t, s)) tracks w1)
      as [[ps|e] w2] eqn:Em.
    + rewrite (Hsort _ _ _ _ eq_refl Em).
      rewrite <- (mapM_decorate_fst _ _ _ _ _ Em) at 1.
      apply Permutation_map, sorted_reverse_perm.
    + now rewrite (Hscore _ _ _ _ eq_refl Em).
  - now rewrite (Hnone _ eq_refl).
  - now rewrite (Hraise _ _ eq_refl).
Qed.

End ServiceFacts.

(** * The preference analyzer *)

Lemma try_except_degrades {A} (body : M A) (fallback : A) lvl w :
  exists r w',
    try_except body (fun e => _ <- log lvl ;; ret fallback) w = (Returns r, w')
    /\ (forall e w1, body w = (Raises e, w1) -> r = fallback)
    /\ (forall a w1, body w = (Returns a, w1) -> r = a /\ w' = w1).
Proof.
  unfold try_except. destruct (body w) as [[a|e] w1]; run;
    eexists _, _; (split; [reflexivity|]); split; intros; try discriminate.
  - now inversion H.
  - reflexivity.
Qed.

Section AnalyzerFacts.
Import PreferenceAnalyzer.
Variable count_genres : list TrackCache -> M (list (string * Z)).
Variable count_artists : list TrackCache -> M (list (string * Z)).

(** The analyzer always returns; a failed read yields the absent profile;
    a present profile is only returned when both reads and all four
    aggregations have returned, and then it holds what they returned. *)
Lemma analyze_preferences_with_degrades session user_id min_likes w :
  exists r w',
    analyze_preferences_with count_genres count_artists
      session user_id min_likes w = (Returns r, w')
    /\ (forall e, session_rows session (mkQuery user_id LIKE) = Raises e ->
        r = None)
    /\ (forall e, session_rows session (mkQuery user_id DISLIKE) = Raises e ->
        r = None)
    /\ (forall p, r = Some p ->
        exists liked disliked w3 w4 w5 w6,
          session_rows session (mkQuery user_id LIKE) = Returns liked
          /\ session_rows session (mkQuery user_id DISLIKE) = Returns disliked
          /\ min_likes <= Z.of_nat (length liked)
          /\ count_genres liked (after_reads w user_id min_likes)
             = (Returns (liked_genres p), w3)
          /\ count_artists liked w3 = (Returns (liked_artists p), w4)
          /\ count_genres disliked w4 = (Returns (disliked_genres p), w5)
          /\ count_artists disliked w5 = (Returns (disliked_artists p), w6)
          /\ total_likes p = Z.of_nat (length liked)
          /\ total_dislikes p = Z.of_nat (length disliked)).
Proof.
  unfold analyze_preferences_with. run.
  destruct (session_rows session (mkQuery user_id LIKE)) as [liked|e1] eqn:El;
    [|eexists _, _; split; [reflexivity|]; repeat split; path_done].
  destruct (session_rows session (mkQuery user_id DISLIKE)) as [disliked|e2] eqn:Ed;
    [|eexists _, _; split; [reflexivity|]; repeat split; path_done].
  destruct (Z.of_nat (length liked) <? min_likes) eqn:Elt;
    [eexists _, _; split; [reflexivity|]; repeat split; path_done|].
  apply Z.ltb_ge in Elt.
  destruct (count_genres liked _) as [[lg|e] w3] eqn:E1;
    [|eexists _, _; split; [reflexivity|]; repeat split; path_done].
  destruct (count_artists liked w3) as [[la|e] w4] eqn:E2;
    [|eexists _, _; split; [reflexivity|]; repeat split; path_done].
  destruct (count_genres disliked w4) as [[dg|e] w5] eqn:E3;
    [|eexists _, _; split; [reflexivity|]; repeat split; path_done].
  destruct (count_artists disliked w5) as [[da|e] w6] eqn:E4;
    [|eexists _, _; split; [reflexivity|]; repeat split; path_done].
  eexists _, _; split; [reflexivity|]. repeat split; path_done.
  inversion H; subst; simpl.
  eexists liked, disliked, w3, w4, w5, w6. repeat split; eauto.
Qed.

End AnalyzerFacts.

(** The analyzer with its own aggregation, when both reads succeed. *)
Lemma analyze_preferences_reads_ok session user_id min_likes liked disliked w :
  session_rows session (mkQuery user_id LIKE) = Returns liked ->
  session_rows session (mkQuery user_id DISLIKE) = Returns disliked ->
  PreferenceAnalyzer.analyze_preferences session user_id min_likes w
  = (Returns
       (if Z.of_nat (length liked) <? min_likes then None
        else Some (mkUserPreferences
                     (PreferenceAnalyzer._count_genres liked)
                     (PreferenceAnalyzer._count_artists liked)
                     (PreferenceAnalyzer._count_genres disliked)
                     (PreferenceAnalyzer._count_artists disliked)
                     (Z.of_nat (length liked))
                     (Z.of_nat (length disliked)))),
     mkWorld (trace w ++ [EvAnalyze user_id min_likes]
                      ++ [EvExecute (mkQuery user_id LIKE)]
                      ++ [EvExecute (mkQuery user_id DISLIKE)]
                      ++ [EvLog INFO])
             (rng w)).
Proof.
  intros Hl Hd.
  unfold PreferenceAnalyzer.analyze_preferences,
    PreferenceAnalyzer.analyze_preferences_with. run.
  rewrite Hl, Hd.
  destruct (Z.of_nat (length liked) <? min_likes);
    simpl; rewrite <- !app_assoc; reflexivity.
Qed.

(** * Counting *)

Lemma occurrences_snoc k xs x :
  occurrences k (xs ++ [x])
  = occurrences k xs + (if String.eqb k x then 1 else 0).
Proof.
  unfold occurrences. rewrite List.filter_app, List.length_app. simpl.
  destruct (String.eqb k x); simpl; lia.
Qed.

Lemma occurrences_nonneg k xs : 0 <= occurrences k xs.
Proof. unfold occurrences. lia. Qed.

Lemma occurrences_pos k xs : In k xs <-> 0 < occurrences k xs.
Proof.
  unfold occurrences. induction xs as [|x xs IH]; simpl.
  - split; [tauto|lia].
  - destruct (String.eqb k x) eqn:E; simpl.
    + apply String.eqb_eq in E. split; [lia|auto].
    + apply String.eqb_neq in E. rewrite <- IH.
      split; [intros [?|?]; congruence|auto].
Qed.

Lemma first_seen_In y xs : In y (first_seen xs) <-> In y xs.
Proof.
  induction xs as [|x xs IH]; simpl; [tauto|].
  rewrite filter_In, IH.
  destruct (String.eqb x y) eqn:E.
  - apply String.eqb_eq in E. tauto.
  - simpl. tauto.
Qed.

Lemma first_seen_NoDup xs : List.NoDup (first_seen xs).
Proof.
  induction xs as [|x xs IH]; simpl; constructor.
  - rewrite filter_In, String.eqb_refl. simpl. intros [_ ?]. discriminate.
  - now apply List.NoDup_filter.
Qed.

Lemma first_seen_snoc xs x :
  first_seen (xs ++ [x])
  = if in_dec String.string_dec x xs then first_seen xs else first_seen xs ++ [x].
Proof.
  induction xs as [|y xs IH]; simpl.
  - reflexivity.
  - rewrite IH. destruct (String.string_dec y x) as [->|Hne].
    + destruct (in_dec String.string_dec x xs); [reflexivity|].
      rewrite List.filter_app. simpl. rewrite String.eqb_refl. simpl.
      now rewrite app_nil_r.
    + destruct (in_dec String.string_dec x xs); [reflexivity|].
      rewrite List.filter_app. simpl.
      apply String.eqb_neq in Hne. now rewrite Hne.
Qed.

Lemma counter_incr_fresh (f : string -> Z) ks x :
  ~ In x ks ->
  counter_incr x (map (fun k => (k, f k)) ks)
  = map (fun k => (k, f k)) ks ++ [(x, 1)].
Proof.
  induction ks as [|a ks IH]; simpl; intros Hx; [reflexivity|].
  destruct (String.eqb a x) eqn:E.
  - apply String.eqb_eq in E. tauto.
  - rewrite IH; tauto.
Qed.

Lemma counter_incr_seen (f : string -> Z) ks x :
  In x ks -> List.NoDup ks ->
  counter_incr x (map (fun k => (k, f k)) ks)
  = map (fun k => (k, f k + (if String.eqb k x then 1 else 0))) ks.
Proof.
  induction ks as [|a ks IH]; simpl; intros Hin Hnd; [tauto|].
  apply List.NoDup_cons_iff in Hnd as [Ha Hnd].
  destruct (String.eqb a x) eqn:E.
  - apply String.eqb_eq in E. subst a. f_equal.
    apply map_ext_in. intros k Hk.
    destruct (String.eqb k x) eqn:E'.
    + apply String.eqb_eq in E'. congruence.
    + now rewrite Z.add_0_r.
  - rewrite Z.add_0_r. f_equal. apply IH; [|assumption].
    destruct Hin as [->|?]; [|assumption].
    now rewrite String.eqb_refl in E.
Qed.

(** The items of a [Counter]: every distinct string with its number of
    occurrences, in the order of first occurrence. *)
Lemma Counter_items xs :
  Counter xs = map (fun k => (k, occurrences k xs)) (first_seen xs).
Proof.
  unfold Counter. induction xs as [|x xs IH] using rev_ind; [reflexivity|].
  rewrite foldl_snoc, IH, first_seen_snoc.
  destruct (in_dec String.string_dec x xs) as [Hin|Hnin].
  - rewrite counter_incr_seen;
      [|now apply first_seen_In|apply first_seen_NoDup].
    apply map_ext. intros k. now rewrite occurrences_snoc.
  - rewrite counter_incr_fresh by now rewrite first_seen_In.
    rewrite map_app. simpl. f_equal.
    + apply map_ext_in. intros k Hk. rewrite occurrences_snoc.
      destruct (String.eqb k x) eqn:E; [|now rewrite Z.add_0_r].
      apply String.eqb_eq in E. subst k. exfalso. apply Hnin.
      now apply (proj1 (first_seen_In x xs)).
    + rewrite occurrences_snoc, String.eqb_refl.
      assert (Hz : occurrences x xs = 0).
      { pose proof (occurrences_nonneg x xs) as Hge.
        destruct (Z.eq_dec (occurrences x xs) 0) as [|Hnz]; [assumption|].
        exfalso. apply Hnin, occurrences_pos. lia. }
      now rewrite Hz.
Qed.

Section FrequencyTables.
Import PreferenceAnalyzer.
Context {A : Type} (f : A -> option string).

Lemma nonempty_values_cons t tracks :
  nonempty_values f (t :: tracks)
  = if truthy (f t) then default EmptyString (f t) :: nonempty_values f tracks
    else nonempty_values f tracks.
Proof. unfold nonempty_values. simpl. now destruct (truthy (f t)). Qed.

Lemma nonempty_values_nonempty g tracks :
  In g (nonempty_values f tracks) -> g <> EmptyString.
Proof.
  induction tracks as [|t tracks IH]; [intros []|].
  rewrite nonempty_values_cons.
  destruct (f t) as [s|] eqn:E; simpl; [|assumption].
  destruct (String.eqb s EmptyString) eqn:Es; simpl; [assumption|].
  apply String.eqb_neq in Es. intros [<-|H]; auto.
Qed.

Lemma occurrences_carrying g tracks :
  g <> EmptyString -> occurrences g (nonempty_values f tracks) = carrying f g tracks.
Proof.
  intros Hg. unfold occurrences, carrying.
  induction tracks as [|t tracks IH]; [reflexivity|].
  rewrite nonempty_values_cons. simpl.
  destruct (f t) as [s|] eqn:E; simpl; [|assumption].
  destruct (String.eqb s EmptyString) eqn:Es; simpl.
  - apply String.eqb_eq in Es. subst s.
    apply String.eqb_neq in Hg. now rewrite Hg.
  - destruct (String.eqb g s); simpl; lia.
Qed.

(** A track whose field is empty or absent leaves the values unchanged. *)
Lemma nonempty_values_skip l1 t l2 :
  truthy (f t) = false ->
  nonempty_values f (l1 ++ t :: l2) = nonempty_values f (l1 ++ l2).
Proof.
  intros Ht. unfold nonempty_values.
  rewrite !List.filter_app. simpl. now rewrite Ht.
Qed.

Lemma with_key_counts (h : string -> Z) n ks :
  map fst (with_key snd n (map (fun k => (k, h k)) ks))
  = List.filter (fun k => h k =? n) ks.
Proof.
  unfold with_key. induction ks as [|k ks IH]; simpl; [reflexivity|].
  destruct (h k =? n); simpl; now rewrite IH.
Qed.

Lemma most_common_Counter_frequency_table tracks :
  frequency_table f tracks (most_common (Counter (nonempty_values f tracks))).
Proof.
  unfold most_common. set (vals := nonempty_values f tracks).
  pose proof (sorted_reverse_perm snd (Counter vals)) as Hperm.
  split; [|split; [|split]].
  - intros g n. split.
    + intros Hin. apply (Permutation_in _ (Permutation_sym Hperm)) in Hin.
      rewrite Counter_items in Hin. apply in_map_iff in Hin as (k & Hk & Hin).
      inversion Hk; subst. rewrite first_seen_In in Hin.
      assert (Hg : g <> EmptyString) by now apply (nonempty_values_nonempty _ tracks).
      split; [exact Hg|]. split; [now apply occurrences_pos|].
      now apply occurrences_carrying.
    + intros (Hg & Hn & ->). apply (Permutation_in _ Hperm).
      rewrite Counter_items. apply in_map_iff. exists g. split.
      * f_equal. now apply occurrences_carrying.
      * rewrite first_seen_In, occurrences_pos.
        unfold vals. rewrite occurrences_carrying; assumption.
  - apply (Permutation_NoDup (l := map fst (Counter vals))).
    + now apply Permutation_map.
    + rewrite Counter_items, map_map. simpl. rewrite map_id.
      apply first_seen_NoDup.
  - apply sorted_reverse_descending.
  - intros n.
    rewrite sorted_reverse_stable, Counter_items, with_key_counts.
    apply List.filter_ext_in. intros g Hg. rewrite first_seen_In in Hg.
    unfold vals. rewrite occurrences_carrying; [reflexivity|].
    now apply (nonempty_values_nonempty _ tracks).
Qed.

End FrequencyTables.

(** * Scores *)

Lemma py_dict_snoc l k v : py_dict (l ++ [(k, v)]) = <[k := v]> (py_dict l).
Proof. unfold py_dict. now rewrite foldl_snoc. Qed.

Lemma py_dict_lookup_Some l k v : py_dict l !! k = Some v -> In (k, v) l.
Proof.
  induction l as [|[k' v'] l IH] using rev_ind.
  - unfold py_dict. simpl. rewrite lookup_empty. discriminate.
  - rewrite py_dict_snoc, in_app_iff. simpl.
    destruct (decide (k' = k)) as [->|Hne].
    + rewrite lookup_insert_eq. intros [= ->]. auto.
    + rewrite lookup_insert_ne by assumption. auto.
Qed.

Lemma py_dict_lookup_None l k : py_dict l !! k = None -> forall v, ~ In (k, v) l.
Proof.
  induction l as [|[k' v'] l IH] using rev_ind.
  - intros _ v [].
  - rewrite py_dict_snoc. intros H v. rewrite in_app_iff. simpl.
    destruct (decide (k' = k)) as [->|Hne].
    + rewrite lookup_insert_eq in H. discriminate.
    + rewrite lookup_insert_ne in H by assumption.
      intros [Hin|[Heq|[]]]; [now apply (IH H v)|congruence].
Qed.

(** With distinct keys the dict returns the one count listed. *)
Lemma py_dict_lookup_unique l k v :
  List.NoDup (map fst l) -> In (k, v) l -> py_dict l !! k = Some v.
Proof.
  intros Hnd Hin.
  destruct (py_dict l !! k) as [v'|] eqn:E.
  - apply py_dict_lookup_Some in E. f_equal.
    clear -Hnd Hin E. induction l as [|[k0 v0] l IH]; [destruct Hin|].
    simpl in Hnd. apply List.NoDup_cons_iff in Hnd as [Hk Hnd].
    destruct Hin as [Hin|Hin], E as [E|E].
    + congruence.
    + inversion Hin; subst. exfalso. apply Hk.
      apply in_map_iff. now exists (k, v').
    + inversion E; subst. exfalso. apply Hk.
      apply in_map_iff. now exists (k, v).
    + now apply IH.
  - exfalso. exact (py_dict_lookup_None _ _ E v Hin).
Qed.

Lemma clause_of_lookup field table bonus :
  clause field table bonus
    (if truthy field then
       match py_dict table !! default EmptyString field with
       | Some count => bonus count
       | None => 0
       end
     else 0).
Proof.
  unfold clause. destruct (truthy field) eqn:Et; [|right; auto].
  destruct (py_dict table !! default EmptyString field) as [c|] eqn:E.
  - left. split; [reflexivity|]. exists c. split; [|reflexivity].
    now apply py_dict_lookup_Some.
  - right. split; [|reflexivity]. right. now apply py_dict_lookup_None.
Qed.

Lemma _score_track_sum track p :
  PersonalizationService._score_track track p
  = 0
    + (if truthy (genre track) then
         match py_dict (liked_genres p) !! default EmptyString (genre track) with
         | Some count => 10 + count
         | None => 0
         end
       else 0)
    + (if truthy (genre track) then
         match py_dict (disliked_genres p) !! default EmptyString (genre track) with
         | Some count => -5
         | None => 0
         end
       else 0)
    + (if truthy (artist track) then
         match py_dict (liked_artists p) !! default EmptyString (artist track) with
         | Some count => 15 + 2 * count
         | None => 0
         end
       else 0)
    + (if truthy (artist track) then
         match py_dict (disliked_artists p) !! default EmptyString (artist track) with
         | Some count => -10
         | None => 0
         end
       else 0).
Proof.
  unfold PersonalizationService._score_track.
  destruct (truthy (genre track)), (truthy (artist track));
    repeat match goal with
           | |- context [match ?d !! ?k with _ => _ end] => destruct (d !! k)
           end; lia.
Qed.

(** Scores stay small: with counts between 0 and [N] a score lies between
    -15 and [25 + 3 * N], so for any realistic number of rows the float
    arithmetic of the source is exact and the integer model is faithful. *)
Lemma _score_track_bounds track p N :
  0 <= N ->
  (forall k c, In (k, c) (liked_genres p) -> 0 <= c <= N) ->
  (forall k c, In (k, c) (liked_artists p) -> 0 <= c <= N) ->
  -15 <= PersonalizationService._score_track track p <= 25 + 3 * N.
Proof.
  intros HN Hg Ha. rewrite _score_track_sum.
  destruct (truthy (genre track)), (truthy (artist track));
    repeat match goal with
           | |- context [match ?d !! ?k with _ => _ end] =>
               let E := fresh "E" in destruct (d !! k) eqn:E
           end;
    repeat match goal with
           | E : py_dict (liked_genres p) !! _ = Some _ |- _ =>
               apply py_dict_lookup_Some, Hg in E
           | E : py_dict (liked_artists p) !! _ = Some _ |- _ =>
               apply py_dict_lookup_Some, Ha in E
           end; lia.
Qed.

(** On a frequency table the dict holds, for every non-empty value, its
    number of carriers, and nothing for a value no track carries. *)
Lemma py_dict_frequency_table {A} (f : A -> option string) tracks table g :
  frequency_table f tracks table -> g <> EmptyString ->
  py_dict table !! g
  = if 0 <? carrying f g tracks then Some (carrying f g tracks) else None.
Proof.
  intros (Hmem & Hnd & _ & _) Hg.
  destruct (0 <? carrying f g tracks) eqn:E.
  - apply Z.ltb_lt in E. apply py_dict_lookup_unique; [exact Hnd|].
    apply Hmem. auto.
  - apply Z.ltb_ge in E.
    destruct (py_dict table !! g) as [n|] eqn:El; [|reflexivity].
    apply py_dict_lookup_Some, Hmem in El. lia.
Qed.

Lemma descending_app_inv {A} (key : A -> Z) l1 y l2 :
  descending key (l1 ++ y :: l2) -> forall x, In x l2 -> key x <= key y.
Proof.
  unfold descending. induction l1 as [|a l1 IH]; simpl; intros Hs x Hx.
  - apply StronglySorted_inv in Hs as [_ Hy].
    rewrite List.Forall_forall in Hy. now apply Hy.
  - apply StronglySorted_inv in Hs as [Hs _]. now apply IH.
Qed.

(** With a scorer that cannot raise, a present profile always leads to the
    sorted list. *)
Lemma personalize_tracks_with_sorted
  (analyze : string -> Z -> M (option UserPreferences))
  (g : Track -> UserPreferences -> Z) tracks user min_likes w p w1 :
  analyze (user_pk user) min_likes w = (Returns (Some p), w1) ->
  exists w',
    PersonalizationService.personalize_tracks_with analyze
      (fun t q => ret (g t q)) tracks user min_likes w
    = (Returns (sorted_reverse (fun t => g t p) tracks), w').
Proof.
  intros Ha.
  destruct (personalize_tracks_with_paths analyze (fun t q => ret (g t q))
              tracks user min_likes w)
    as (out & w' & Hrun & _ & _ & _ & _ & Hsort).
  exists w'. rewrite Hrun. f_equal. f_equal.
  rewrite (Hsort p w1 _ w1 Ha (mapM_decorate_pure (fun t => g t p) tracks w1)).
  apply sorted_reverse_decorate.
Qed.

(** * The preference search strategy *)

Lemma random_choice_In {A} (seq : list A) w :
  seq <> [] ->
  exists x w', random_choice seq w = (Returns x, w')
    /\ In x seq /\ trace w' = trace w.
Proof.
  intros Hne. destruct seq as [|x0 seq0]; [congruence|].
  unfold random_choice. cbv beta iota.
  set (seq := x0 :: seq0).
  assert (Hlen : (0 < length seq)%nat) by (simpl; lia).
  assert (Hnth : forall r, In (nth (Z.to_nat (r mod Z.of_nat (length seq))) seq x0) seq).
  { intros r. apply nth_In.
    pose proof (Z.mod_pos_bound r (Z.of_nat (length seq))). lia. }
  unfold bind, draw, ret.
  destruct (rng w) as [|r rs]; eexists _, _; split; try reflexivity;
    split; try reflexivity; apply Hnth.
Qed.

Lemma random_random_next w :
  exists w', random_random w = (Returns (next_random w), w')
    /\ trace w' = trace w.
Proof.
  unfold random_random, next_random, bind, draw, ret.
  destruct (rng w) as [|r rs]; eexists; split; reflexivity.
Qed.

Lemma _fallback_params_shape w :
  exists params w',
    UserPreferenceSearchStrategy._fallback_params w = (Returns params, w')
    /\ fallback_shaped params /\ trace w' = trace w.
Proof.
  unfold UserPreferenceSearchStrategy._fallback_params.
  destruct (random_choice_In default_terms w) as (term & w' & Hc & Hin & Ht);
    [discriminate|].
  unfold bind. unfold default_terms in Hc. rewrite Hc. unfold ret.
  eexists _, _. split; [reflexivity|]. split; [|exact Ht].
  exists term. split; [exact Hin|reflexivity].
Qed.

Lemma trace_log_entries lvl tr :
  analyzer_entries (tr ++ [EvLog lvl]) = analyzer_entries tr
  /\ store_reads (tr ++ [EvLog lvl]) = store_reads tr.
Proof.
  unfold analyzer_entries, store_reads.
  rewrite !flat_map_app. simpl. now rewrite !app_nil_r.
Qed.

Lemma map_fst_take_nil {B} (l : list (string * B)) n :
  l <> [] -> map fst (take (S n) l) <> [].
Proof. destruct l; [congruence|discriminate]. Qed.

(** The three exits of [_generate_preference_based_params] on a present
    profile, by the draw and the two tables. *)
Lemma _generate_preference_based_params_shape self p w :
  UserPreferenceSearchStrategy._preferences self = Some p ->
  exists params w',
    UserPreferenceSearchStrategy._generate_preference_based_params self w
      = (Returns params, w')
    /\ analyzer_entries (trace w') = analyzer_entries (trace w)
    /\ store_reads (trace w') = store_reads (trace w)
    /\ (next_random w < float_0_7 -> liked_genres p <> [] ->
        genre_shaped p params)
    /\ (float_0_7 <= next_random w \/ liked_genres p = [] ->
        liked_artists p <> [] -> artist_shaped p params)
    /\ (float_0_7 <= next_random w \/ liked_genres p = [] ->
        liked_artists p = [] -> fallback_shaped params).
Proof.
  intros Hp. unfold UserPreferenceSearchStrategy._generate_preference_based_params.
  rewrite Hp. unfold bind at 1.
  destruct (random_random_next w) as (w1 & Hr & Ht1). rewrite Hr.
  assert (Hartist :
    exists params w',
      (let top_artists := get_top_artists p 3 in
       match top_artists with
       | [] => UserPreferenceSearchStrategy._fallback_params
       | _ :: _ =>
           artist <- random_choice top_artists ;;
           _ <- log INFO ;;
           ret {[ "term" := artist; "entity" := "song";
                  "attribute" := "artistTerm" ]}
       end) w1 = (Returns params, w')
      /\ analyzer_entries (trace w') = analyzer_entries (trace w)
      /\ store_reads (trace w') = store_reads (trace w)
      /\ (liked_artists p <> [] -> artist_shaped p params)
      /\ (liked_artists p = [] -> fallback_shaped params)).
  { simpl. destruct (get_top_artists p 3) as [|a0 rest] eqn:Ea.
    - destruct (_fallback_params_shape w1) as (params & w' & Hf & Hs & Ht).
      exists params, w'. rewrite Hf, Ht, Ht1. repeat split; auto.
      intros Hne. exfalso. revert Ea. unfold get_top_artists.
      now apply map_fst_take_nil.
    - destruct (random_choice_In (a0 :: rest) w1) as (a & w2 & Hc & Hin & Ht);
        [discriminate|].
      unfold bind. rewrite Hc. run. eexists _, _. split; [reflexivity|].
      simpl. rewrite Ht, Ht1.
      destruct (trace_log_entries INFO (trace w)) as [-> ->].
      repeat split; auto.
      + intros _. exists a. rewrite Ea. auto.
      + intros Hnil. unfold get_top_artists in Ea. rewrite Hnil in Ea.
        discriminate. }
  destruct Hartist as (pa & wa & Hrun & Hae & Hsr & Hshape & Hfb).
  cbv zeta in Hrun.
  destruct (next_random w <? float_0_7) eqn:Elt.
  - apply Z.ltb_lt in Elt.
    destruct (get_top_genres p 3) as [|g0 rest] eqn:Eg.
    + exists pa, wa. rewrite Hrun. repeat split; auto.
      intros _ Hne. exfalso. revert Eg. unfold get_top_genres.
      now apply map_fst_take_nil.
    + destruct (random_choice_In (g0 :: rest) w1) as (g & w2 & Hc & Hin & Ht);
        [discriminate|].
      unfold bind. rewrite Hc. run. eexists _, _. split; [reflexivity|].
      simpl. rewrite Ht, Ht1.
      destruct (trace_log_entries INFO (trace w)) as [-> ->].
      assert (Hne : liked_genres p <> []).
      { intros Hnil. unfold get_top_genres in Eg. rewrite Hnil in Eg.
        discriminate. }
      repeat split; auto.
      * intros _ _. exists g. rewrite Eg. auto.
      * intros [?|?]; [lia|congruence].
      * intros [?|?]; [lia|congruence].
  - apply Z.ltb_ge in Elt.
    exists pa, wa. rewrite Hrun. repeat split; auto. intros; lia.
Qed.

Section StrategyFacts.
Import UserPreferenceSearchStrategy.
Variable analyze : AsyncSession -> string -> Z -> M (option UserPreferences).

Lemma guard_anonymous self :
  negb (bool_decide (is_Some (session self))) || negb (truthy (user_id self)) = true
  <-> session self = None \/ truthy (user_id self) = false.
Proof.
  destruct (session self) as [s|], (truthy (user_id self)); simpl;
    try (rewrite bool_decide_eq_true_2 by eauto); simpl;
    try (rewrite bool_decide_eq_false_2 by (intros [? ?]; discriminate)); simpl;
    split; auto; intros [?|?]; discriminate.
Qed.

Lemma guard_identified self :
  session self <> None -> truthy (user_id self) = true ->
  negb (bool_decide (is_Some (session self))) || negb (truthy (user_id self)) = false.
Proof.
  intros Hs Hu. apply not_true_is_false. rewrite guard_anonymous.
  intros [?|?]; congruence.
Qed.

(** Without a store handle or a user id the call answers at once. *)
Lemma generate_params_with_anonymous self w :
  session self = None \/ truthy (user_id self) = false ->
  exists params w',
    generate_params_with analyze self w = (Returns (params, self), w')
    /\ fallback_shaped params
    /\ analyzer_entries (trace w') = analyzer_entries (trace w)
    /\ store_reads (trace w') = store_reads (trace w).
Proof.
  intros Hg. apply guard_anonymous in Hg.
  unfold generate_params_with. rewrite Hg.
  unfold bind at 1. unfold log, emit at 1. cbv beta iota.
  destruct (_fallback_params_shape (mkWorld (trace w ++ [EvLog WARNING]) (rng w)))
    as (params & w' & Hf & Hs & Ht).
  unfold bind. rewrite Hf. unfold ret. exists params, w'.
  split; [reflexivity|]. split; [exact Hs|]. rewrite Ht. simpl.
  apply trace_log_entries.
Qed.

(** Once the profile is loaded, a call does not involve the analyzer. *)
Lemma generate_params_with_cached_indep
  (analyze' : AsyncSession -> string -> Z -> M (option UserPreferences)) self w :
  _preferences_loaded self = true ->
  generate_params_with analyze self w = generate_params_with analyze' self w.
Proof. intros Hl. unfold generate_params_with. now rewrite Hl. Qed.

Lemma generate_params_with_cached self w :
  session self <> None -> truthy (user_id self) = true ->
  _preferences_loaded self = true ->
  exists params w',
    generate_params_with analyze self w = (Returns (params, self), w')
    /\ analyzer_entries (trace w') = analyzer_entries (trace w)
    /\ store_reads (trace w') = store_reads (trace w)
    /\ (_preferences self = None -> fallback_shaped params)
    /\ (forall p, _preferences self = Some p ->
        (next_random w < float_0_7 -> liked_genres p <> [] ->
         genre_shaped p params)
        /\ (float_0_7 <= next_random w \/ liked_genres p = [] ->
            liked_artists p <> [] -> artist_shaped p params)
        /\ (float_0_7 <= next_random w \/ liked_genres p = [] ->
            liked_artists p = [] -> fallback_shaped params)).
Proof.
  intros Hs Hu Hl. unfold generate_params_with.
  rewrite (guard_identified _ Hs Hu), Hl. simpl negb. cbv iota.
  unfold bind at 1. unfold ret at 1. cbv beta iota.
  destruct (_preferences self) as [p|] eqn:Ep.
  - destruct (_generate_preference_based_params_shape self p w Ep)
      as (params & w' & Hrun & Hae & Hsr & Hshapes).
    unfold bind. rewrite Hrun. unfold ret. exists params, w'.
    split; [reflexivity|]. split; [exact Hae|]. split; [exact Hsr|].
    split; [discriminate|]. intros q [= <-]. exact Hshapes.
  - unfold bind at 1. unfold log, emit at 1. cbv beta iota.
    destruct (_fallback_params_shape (mkWorld (trace w ++ [EvLog INFO]) (rng w)))
      as (params & w' & Hf & Hsh & Ht).
    unfold bind. rewrite Hf. unfold ret. exists params, w'.
    split; [reflexivity|]. rewrite Ht. simpl.
    destruct (trace_log_entries INFO (trace w)) as [-> ->].
    repeat split; auto; discriminate.
Qed.

(** The first call on an identified instance runs the analyzer with
    [min_likes = 3], stores what it returned (absent if it raised), marks the
    instance as loaded and goes on as a call on the loaded instance. *)
Lemma generate_params_with_first self sess uid w :
  session self = Some sess -> user_id self = Some uid -> uid <> EmptyString ->
  _preferences_loaded self = false ->
  generate_params_with analyze self w
  = generate_params_with analyze
      (mk (Some sess) (Some uid)
          (match fst (analyze sess uid 3 w) with
           | Returns preferences => preferences
           | Raises _ => None
           end)
          true)
      (match analyze sess uid 3 w with
       | (Returns _, w1) => w1
       | (Raises _, w1) => mkWorld (trace w1 ++ [EvLog ERROR]) (rng w1)
       end).
Proof.
  intros Hs Hu Hne Hl.
  assert (Ht : truthy (Some uid) = true).
  { simpl. apply String.eqb_neq in Hne. now rewrite Hne. }
  unfold generate_params_with at 1.
  rewrite guard_identified by (rewrite ?Hs, ?Hu; auto; discriminate).
  rewrite Hl. simpl negb. cbv iota.
  unfold generate_params_with.
  assert (Hg' : forall prefs,
    negb (bool_decide (is_Some (session (mk (Some sess) (Some uid) prefs true))))
    || negb (truthy (user_id (mk (Some sess) (Some uid) prefs true))) = false).
  { intros prefs. apply guard_identified; simpl; [discriminate|exact Ht]. }
  rewrite Hg'. simpl negb. cbv iota.
  unfold _load_preferences_with, try_except, bind. rewrite Hs, Hu. simpl.
  destruct (analyze sess uid 3 w) as [[prefs|e] w1]; reflexivity.
Qed.

(** Any number of further calls on a loaded instance. *)
Lemma invoke_n_with_cached n self w :
  session self <> None -> truthy (user_id self) = true ->
  _preferences_loaded self = true ->
  exists ps w',
    invoke_n_with analyze n self w = (Returns (ps, self), w')
    /\ length ps = n
    /\ analyzer_entries (trace w') = analyzer_entries (trace w)
    /\ store_reads (trace w') = store_reads (trace w)
    /\ (_preferences self = None -> List.Forall fallback_shaped ps).
Proof.
  intros Hs Hu Hl. revert w. induction n as [|n IH]; intros w.
  - exists [], w. unfold invoke_n_with, ret. repeat split; auto.
  - destruct (generate_params_with_cached self w Hs Hu Hl)
      as (params & w1 & Hrun & Hae & Hsr & Hnone & _).
    destruct (IH w1) as (ps & w' & Hrest & Hlen & Hae' & Hsr' & Hfb).
    exists (params :: ps), w'. simpl. unfold bind. rewrite Hrun. simpl.
    rewrite Hrest. unfold ret. simpl.
    repeat split; auto; try congruence.
Qed.

End StrategyFacts.

(** What the analyzer leaves in the trace: one entry, and no draw taken. *)
Lemma analyze_preferences_entry session user_id min_likes w :
  exists r w1,
    PreferenceAnalyzer.analyze_preferences session user_id min_likes w
      = (Returns r, w1)
    /\ analyzer_entries (trace w1)
       = analyzer_entries (trace w) ++ [(user_id, min_likes)]
    /\ rng w1 = rng w
    /\ (forall e, session_rows session (mkQuery user_id LIKE) = Raises e ->
        r = None)
    /\ (forall e, session_rows session (mkQuery user_id DISLIKE) = Raises e ->
        r = None).
Proof.
  unfold PreferenceAnalyzer.analyze_preferences,
    PreferenceAnalyzer.analyze_preferences_with. run.
  destruct (session_rows session (mkQuery user_id LIKE)) as [liked|e1];
    [destruct (session_rows session (mkQuery user_id DISLIKE)) as [disliked|e2];
     [destruct (Z.of_nat (length liked) <? min_likes)|]|];
    eexists _, _; (split; [reflexivity|]); simpl;
    unfold analyzer_entries; rewrite !flat_map_app; simpl;
    rewrite ?app_nil_r; repeat split; path_done.
Qed.

(** * Properties of the personalization service *)

(** C1.  For every list of tracks and every user, [personalize_tracks]
    returns a permutation of the input list.  On every degraded path (empty
    input, absent preference profile, an exception raised by the analyzer or
    while scoring) it returns the original list itself; an empty input is
    returned with the world untouched, whatever the analyzer is, so the
    analyzer is not invoked. *)
Theorem C1_personalize_permutation
  (analyze : string -> Z -> M (option UserPreferences))
  (score_of : Track -> UserPreferences -> M Z)
  (session : AsyncSession)
  (tracks : list Track) (user : User) (min_likes : Z) (w : World) :
  (exists out w',
     PersonalizationService.personalize_tracks_with analyze score_of
       tracks user min_likes w = (Returns out, w')
     /\ Permutation tracks out
     /\ (tracks = [] -> out = tracks /\ w' = w)
     /\ (forall w1,
         analyze (user_pk user) min_likes w = (Returns None, w1) ->
         out = tracks)
     /\ (forall e w1,
         analyze (user_pk user) min_likes w = (Raises e, w1) ->
         out = tracks)
     /\ (forall p w1 e w2,
         analyze (user_pk user) min_likes w = (Returns (Some p), w1) ->
         mapM (fun t => s <- score_of t p ;; ret (t, s)) tracks w1
           = (Raises e, w2) ->
         out = tracks))
  /\ (exists out w',
        PersonalizationService.personalize_tracks session tracks user min_likes w
          = (Returns out, w')
        /\ Permutation tracks out)
  /\ PersonalizationService.personalize_tracks session [] user min_likes w
     = (Returns [], w).
Proof.
  split; [|split].
  - destruct (personalize_tracks_with_paths analyze score_of tracks user min_likes w)
      as (out & w' & Hrun & Hnil & Hnone & Hraise & Hscore & _).
    destruct (personalize_tracks_with_perm analyze score_of tracks user min_likes w)
      as (out' & w'' & Hrun' & Hperm).
    rewrite Hrun in Hrun'. inversion Hrun'; subst out' w''.
    exists out, w'. repeat split; auto; now apply Hnil.
  - apply personalize_tracks_with_perm.
  - reflexivity.
Qed.

(** * binary64 within its exact range *)

Lemma round_exact x : Z.abs x < 2 ^ 53 -> binary64.round x = x.
Proof.
  intros Hx. unfold binary64.round.
  assert (He : Z.max 0 (Z.log2 (Z.abs x) - 52) = 0).
  { destruct (Z.eq_dec (Z.abs x) 0) as [->|Hne]; [reflexivity|].
    assert (Z.log2 (Z.abs x) < 53) by (apply Z.log2_lt_pow2; lia).
    lia. }
  rewrite He, Z.pow_0_r, Z.div_1_r, Z.mod_1_r, Z.mul_1_r. cbv zeta.
  change (2 * 0 <? 1) with true. cbv iota.
  destruct x; reflexivity.
Qed.

Lemma of_exact_exact x :
  Z.abs x < 2 ^ 53 -> binary64.of_exact x = binary64.finite x.
Proof.
  intros Hx. unfold binary64.of_exact. rewrite (round_exact x Hx). cbv zeta.
  assert (Hmax : 2 ^ 53 <= binary64.max_float) by (vm_compute; discriminate).
  rewrite (proj2 (Z.leb_le _ _)) by lia. reflexivity.
Qed.

Lemma of_int_exact n w :
  Z.abs n < 2 ^ 53 -> binary64.of_int n w = (Returns (binary64.finite n), w).
Proof.
  intros Hn. unfold binary64.of_int. now rewrite (of_exact_exact n Hn).
Qed.

Lemma exact_counts_lookup p :
  exact_counts p ->
  (forall k count, py_dict (liked_genres p) !! k = Some count ->
                   Z.abs count <= 2 ^ 51)
  /\ (forall k count, py_dict (liked_artists p) !! k = Some count ->
                      Z.abs count <= 2 ^ 51).
Proof.
  intros Hp. split; intros k count Hk; apply py_dict_lookup_Some in Hk;
    apply (Hp k count); apply in_app_iff; auto.
Qed.

(** Within the exact range the float the method returns is the integer of
    the exact computation. *)
Lemma _score_track_exact track p w :
  exact_counts p ->
  binary64._score_track track p w
  = (Returns (binary64.finite (PersonalizationService._score_track track p)), w).
Proof.
  intros Hp. destruct (exact_counts_lookup p Hp) as [Hg Ha].
  unfold binary64._score_track, PersonalizationService._score_track.
  destruct (truthy (genre track)), (truthy (artist track)); cbv zeta;
    repeat match goal with
    | |- context [py_dict (liked_genres p) !! ?k] =>
        let c := fresh "c" in let E := fresh "E" in
        destruct (py_dict (liked_genres p) !! k) as [c|] eqn:E;
        [pose proof (Hg _ _ E)|]
    | |- context [py_dict (liked_artists p) !! ?k] =>
        let c := fresh "c" in let E := fresh "E" in
        destruct (py_dict (liked_artists p) !! k) as [c|] eqn:E;
        [pose proof (Ha _ _ E)|]
    | |- context [py_dict ?t !! ?k] => destruct (py_dict t !! k)
    end;
    change (2 ^ 51) with 2251799813685248 in *;
    unfold bind, ret;
    repeat (rewrite of_int_exact by (change (2 ^ 53) with 9007199254740992; lia));
    repeat (cbn [binary64.add binary64.sub binary64.mul];
            rewrite of_exact_exact by (change (2 ^ 53) with 9007199254740992; lia));
    reflexivity.
Qed.

Lemma exact_counts_example : exact_counts example_preferences.
Proof.
  intros value count Hin. simpl in Hin.
  repeat destruct Hin as [[= <- <-]|Hin]; try contradiction;
    vm_compute; discriminate.
Qed.

(** C2.  The score of a track is the sum, from 0.0, of four independent
    clauses: [10.0 + count] for a non-empty genre listed among the liked
    genres, a flat [-5.0] for one listed among the disliked genres,
    [15.0 + count * 2.0] for a non-empty artist listed among the liked
    artists, a flat [-10.0] for one listed among the disliked artists.  The
    method computes in binary64: for preferences whose liked counts do not
    exceed [2^51] in magnitude every float it forms is exact and the float
    it returns is that sum; beyond [2^53] it returns the rounded float, as
    for a liked count of [2^53 + 1].  Under the preferences of the worked
    example a Rock track by Rock Band scores 31.0, a Jazz track by Jazz
    Artist scores -5.0, every score is the exact integer, and in any
    personalized list no such Jazz track stands before such a Rock track. *)
Theorem C2_score_clauses :
  (forall track preferences w,
     exact_counts preferences ->
     exists genre_liked genre_disliked artist_liked artist_disliked,
       binary64._score_track track preferences w
       = (Returns (binary64.finite
            (0 + genre_liked + genre_disliked + artist_liked + artist_disliked)),
          w)
       /\ clause (genre track) (liked_genres preferences)
            (fun count => 10 + count) genre_liked
       /\ clause (genre track) (disliked_genres preferences)
            (fun _ => -5) genre_disliked
       /\ clause (artist track) (liked_artists preferences)
            (fun count => 15 + 2 * count) artist_liked
       /\ clause (artist track) (disliked_artists preferences)
            (fun _ => -10) artist_disliked)
  /\ (forall rock w,
        genre rock = Some "Rock" -> artist rock = Some "Rock Band" ->
        binary64._score_track rock example_preferences w
        = (Returns (binary64.finite 31), w))
  /\ (forall jazz w,
        genre jazz = Some "Jazz" -> artist jazz = Some "Jazz Artist" ->
        binary64._score_track jazz example_preferences w
        = (Returns (binary64.finite (-5)), w))
  /\ (forall track w,
        binary64._score_track track example_preferences w
        = (Returns (binary64.finite
             (PersonalizationService._score_track track example_preferences)),
           w))
  /\ (forall analyze rock jazz tracks user min_likes w w1,
        genre rock = Some "Rock" -> artist rock = Some "Rock Band" ->
        genre jazz = Some "Jazz" -> artist jazz = Some "Jazz Artist" ->
        analyze (user_pk user) min_likes w
          = (Returns (Some example_preferences), w1) ->
        exists out w',
          PersonalizationService.personalize_tracks_with analyze
            (fun t q => ret (PersonalizationService._score_track t q))
            tracks user min_likes w = (Returns out, w')
          /\ Permutation tracks out
          /\ forall before after,
               out = before ++ jazz :: after -> ~ In rock after)
  /\ PersonalizationService.personalize_tracks_with
       (fun _ _ => ret (Some example_preferences))
       (fun t q => ret (PersonalizationService._score_track t q))
       [new_jazz_song; new_rock_song] test_user 3 (fresh_world [])
     = (Returns [new_rock_song; new_jazz_song], mkWorld [EvLog INFO] [])
  /\ (forall w,
        binary64._score_track
          (mkTrack "2001" "New Rock Song" None (Some "Rock") None)
          (mkUserPreferences [("Rock", 2 ^ 53 + 1)] [] [] [] 3 0) w
        = (Returns (binary64.finite 9007199254741002), w)).
Proof.
  assert (Hrock : forall rock,
    genre rock = Some "Rock" -> artist rock = Some "Rock Band" ->
    PersonalizationService._score_track rock example_preferences = 31).
  { intros rock Hg Ha. unfold PersonalizationService._score_track.
    rewrite Hg, Ha. reflexivity. }
  assert (Hjazz : forall jazz,
    genre jazz = Some "Jazz" -> artist jazz = Some "Jazz Artist" ->
    PersonalizationService._score_track jazz example_preferences = -5).
  { intros jazz Hg Ha. unfold PersonalizationService._score_track.
    rewrite Hg, Ha. reflexivity. }
  split; [|split; [|split; [|split; [|split; [|split]]]]].
  - intros track p w Hp. rewrite (_score_track_exact track p w Hp).
    rewrite _score_track_sum.
    eexists _, _, _, _. split; [reflexivity|].
    split; [|split; [|split]].
    + apply (clause_of_lookup _ _ (fun count => 10 + count)).
    + apply (clause_of_lookup _ _ (fun _ => -5)).
    + apply (clause_of_lookup _ _ (fun count => 15 + 2 * count)).
    + apply (clause_of_lookup _ _ (fun _ => -10)).
  - intros rock w Hg Ha.
    rewrite (_score_track_exact rock _ w exact_counts_example).
    now rewrite (Hrock rock Hg Ha).
  - intros jazz w Hg Ha.
    rewrite (_score_track_exact jazz _ w exact_counts_example).
    now rewrite (Hjazz jazz Hg Ha).
  - intros track w. apply _score_track_exact, exact_counts_example.
  - intros analyze rock jazz tracks user min_likes w w1 Hrg Hra Hjg Hja Han.
    destruct (personalize_tracks_with_sorted analyze
                PersonalizationService._score_track
                tracks user min_likes w example_preferences w1 Han)
      as (w' & Hrun).
    eexists _, w'. split; [exact Hrun|]. split; [apply sorted_reverse_perm|].
    intros before after Hout Hin.
    pose proof (sorted_reverse_descending
                  (fun t => PersonalizationService._score_track t example_preferences)
                  tracks) as Hd.
    rewrite Hout in Hd.
    pose proof (descending_app_inv _ _ _ _ Hd rock Hin) as Hle.
    simpl in Hle. rewrite (Hrock rock Hrg Hra), (Hjazz jazz Hjg Hja) in Hle.
    lia.
  - reflexivity.
  - intros w. vm_compute. reflexivity.
Qed.

(** C3.  When the analyzer yields a profile, [personalize_tracks] returns
    the tracks in descending order of their score, and for every score value
    the tracks having that score stand in the output in the order they had
    in the input. *)
Theorem C3_stable_descending_sort
  (session : AsyncSession) (tracks : list Track) (user : User)
  (min_likes : Z) (w w1 : World) (p : UserPreferences) :
  PreferenceAnalyzer.analyze_preferences session (user_pk user) min_likes w
    = (Returns (Some p), w1) ->
  exists out w',
    PersonalizationService.personalize_tracks session tracks user min_likes w
      = (Returns out, w')
    /\ Permutation tracks out
    /\ descending (fun t => PersonalizationService._score_track t p) out
    /\ (forall s,
        with_key (fun t => PersonalizationService._score_track t p) s out
        = with_key (fun t => PersonalizationService._score_track t p) s tracks).
Proof.
  intros Ha.
  destruct (personalize_tracks_with_sorted
              (PreferenceAnalyzer.analyze_preferences session)
              PersonalizationService._score_track
              tracks user min_likes w p w1 Ha) as (w' & Hrun).
  eexists _, w'. split; [exact Hrun|]. split; [|split].
  - apply sorted_reverse_perm.
  - apply sorted_reverse_descending.
  - intros s. apply sorted_reverse_stable.
Qed.

Lemma C3_stable_descending_sort_witness :
  exists out w',
    PersonalizationService.personalize_tracks test_session
      (candidate_tracks ++ candidate_tracks) test_user 3 (fresh_world [])
      = (Returns out, w')
    /\ Permutation (candidate_tracks ++ candidate_tracks) out
    /\ descending
         (fun t => PersonalizationService._score_track t
            (mkUserPreferences
               [("Rock", 2); ("Pop", 1)] [("Rock Band", 2); ("Pop Artist", 1)]
               [("Jazz", 1)] [("Jazz Artist", 1)] 3 1)) out
    /\ (forall s,
        with_key
          (fun t => PersonalizationService._score_track t
             (mkUserPreferences
                [("Rock", 2); ("Pop", 1)] [("Rock Band", 2); ("Pop Artist", 1)]
                [("Jazz", 1)] [("Jazz Artist", 1)] 3 1)) s out
        = with_key
            (fun t => PersonalizationService._score_track t
               (mkUserPreferences
                  [("Rock", 2); ("Pop", 1)] [("Rock Band", 2); ("Pop Artist", 1)]
                  [("Jazz", 1)] [("Jazz Artist", 1)] 3 1)) s
            (candidate_tracks ++ candidate_tracks)).
Proof.
  apply (C3_stable_descending_sort test_session
           (candidate_tracks ++ candidate_tracks) test_user 3 (fresh_world [])
           (mkWorld [EvAnalyze "test-user" 3;
                     EvExecute (mkQuery "test-user" LIKE);
                     EvExecute (mkQuery "test-user" DISLIKE);
                     EvLog INFO] [])).
  reflexivity.
Defined.

(** * Properties of the preference analyzer *)

(** C4.  When both reads succeed, the analyzer returns the absent profile
    exactly when the number of liked tracks is below [min_likes], whatever
    the disliked tracks are; otherwise the profile it returns has
    [total_likes] and [total_dislikes] equal to the two numbers of rows. *)
Theorem C4_threshold_and_totals
  (session : AsyncSession) (user_id : string) (min_likes : Z)
  (liked disliked : list TrackCache) (w : World) :
  session_rows session (mkQuery user_id LIKE) = Returns liked ->
  session_rows session (mkQuery user_id DISLIKE) = Returns disliked ->
  exists r w',
    PreferenceAnalyzer.analyze_preferences session user_id min_likes w
      = (Returns r, w')
    /\ (r = None <-> Z.of_nat (length liked) < min_likes)
    /\ (min_likes <= Z.of_nat (length liked) ->
        exists p, r = Some p
          /\ total_likes p = Z.of_nat (length liked)
          /\ total_dislikes p = Z.of_nat (length disliked)).
Proof.
  intros Hl Hd.
  rewrite (analyze_preferences_reads_ok _ _ _ _ _ _ Hl Hd).
  eexists _, _. split; [reflexivity|].
  destruct (Z.of_nat (length liked) <? min_likes) eqn:E.
  - apply Z.ltb_lt in E. split; [tauto|]. intros; lia.
  - apply Z.ltb_ge in E. split.
    + split; [discriminate|lia].
    + intros _. eexists. split; [reflexivity|]. split; reflexivity.
Qed.

Lemma C4_threshold_and_totals_witness :
  exists r w',
    PreferenceAnalyzer.analyze_preferences test_session "test-user" 3
      (fresh_world []) = (Returns r, w')
    /\ (r = None <-> Z.of_nat (length [rock_song_1; pop_song_1; rock_song_2]) < 3)
    /\ (3 <= Z.of_nat (length [rock_song_1; pop_song_1; rock_song_2]) ->
        exists p, r = Some p
          /\ total_likes p = Z.of_nat (length [rock_song_1; pop_song_1; rock_song_2])
          /\ total_dislikes p = Z.of_nat (length [jazz_song])).
Proof.
  apply (C4_threshold_and_totals test_session "test-user" 3
           [rock_song_1; pop_song_1; rock_song_2] [jazz_song] (fresh_world []));
    reflexivity.
Defined.

(** C5.  Each table built by [_count_genres] and [_count_artists] is the
    frequency table of its field: it lists exactly the non-empty values with
    the number of tracks carrying them, each value once, in descending order
    of count, values of equal count in the order in which the scan first met
    them.  A track whose field is empty or absent changes no table.  The
    four tables of a returned profile are these tables of the liked and the
    disliked rows. *)
Theorem C5_frequency_tables (tracks : list TrackCache) :
  frequency_table tc_primary_genre tracks (PreferenceAnalyzer._count_genres tracks)
  /\ frequency_table tc_artist tracks (PreferenceAnalyzer._count_artists tracks)
  /\ (forall before t after,
        truthy (tc_primary_genre t) = false ->
        PreferenceAnalyzer._count_genres (before ++ t :: after)
        = PreferenceAnalyzer._count_genres (before ++ after))
  /\ (forall before t after,
        truthy (tc_artist t) = false ->
        PreferenceAnalyzer._count_artists (before ++ t :: after)
        = PreferenceAnalyzer._count_artists (before ++ after))
  /\ (forall session user_id min_likes liked disliked w p w',
        session_rows session (mkQuery user_id LIKE) = Returns liked ->
        session_rows session (mkQuery user_id DISLIKE) = Returns disliked ->
        PreferenceAnalyzer.analyze_preferences session user_id min_likes w
          = (Returns (Some p), w') ->
        frequency_table tc_primary_genre liked (liked_genres p)
        /\ frequency_table tc_artist liked (liked_artists p)
        /\ frequency_table tc_primary_genre disliked (disliked_genres p)
        /\ frequency_table tc_artist disliked (disliked_artists p)).
Proof.
  split; [|split; [|split; [|split]]].
  - apply most_common_Counter_frequency_table.
  - apply most_common_Counter_frequency_table.
  - intros before t after Ht. unfold PreferenceAnalyzer._count_genres.
    now rewrite nonempty_values_skip.
  - intros before t after Ht. unfold PreferenceAnalyzer._count_artists.
    now rewrite nonempty_values_skip.
  - intros session user_id min_likes liked disliked w p w' Hl Hd Hrun.
    rewrite (analyze_preferences_reads_ok _ _ _ _ _ _ Hl Hd) in Hrun.
    destruct (Z.of_nat (length liked) <? min_likes); [discriminate|].
    inversion Hrun; subst; simpl.
    split; [|split; [|split]]; apply most_common_Counter_frequency_table.
Qed.

(** C10.  For a threshold [min_likes <= 0] and successful reads the
    analyzer always returns a present profile; for a user without any
    evaluation that profile has four empty tables and both totals 0. *)
Theorem C10_nonpositive_threshold
  (session : AsyncSession) (user_id : string) (min_likes : Z)
  (liked disliked : list TrackCache) (w : World) :
  min_likes <= 0 ->
  session_rows session (mkQuery user_id LIKE) = Returns liked ->
  session_rows session (mkQuery user_id DISLIKE) = Returns disliked ->
  exists p w',
    PreferenceAnalyzer.analyze_preferences session user_id min_likes w
      = (Returns (Some p), w')
    /\ total_likes p = Z.of_nat (length liked)
    /\ total_dislikes p = Z.of_nat (length disliked)
    /\ (liked = [] -> disliked = [] ->
        p = mkUserPreferences [] [] [] [] 0 0).
Proof.
  intros Hm Hl Hd.
  rewrite (analyze_preferences_reads_ok _ _ _ _ _ _ Hl Hd).
  destruct (Z.of_nat (length liked) <? min_likes) eqn:E;
    [apply Z.ltb_lt in E; lia|].
  eexists _, _. split; [reflexivity|]. simpl. repeat split.
  intros -> ->. reflexivity.
Qed.

Lemma C10_nonpositive_threshold_witness :
  exists p w',
    PreferenceAnalyzer.analyze_preferences test_session "nobody" 0
      (fresh_world []) = (Returns (Some p), w')
    /\ total_likes p = Z.of_nat (length (@nil TrackCache))
    /\ total_dislikes p = Z.of_nat (length (@nil TrackCache))
    /\ (@nil TrackCache = [] -> @nil TrackCache = [] ->
        p = mkUserPreferences [] [] [] [] 0 0).
Proof.
  apply (C10_nonpositive_threshold test_session "nobody" 0 [] [] (fresh_world []));
    [lia|reflexivity|reflexivity].
Defined.

(** * Failures degrade *)

(** C6.  Nothing raised inside the pipeline reaches the caller.  The
    analyzer always returns: a failed read gives the absent profile, and a
    present profile is returned only when both reads and all four
    aggregations returned.  [personalize_tracks] always returns: when the
    analyzer or the scoring of any track raises, it returns the original
    list. *)
Theorem C6_failures_degrade :
  (forall count_genres count_artists session user_id min_likes w,
     exists r w',
       PreferenceAnalyzer.analyze_preferences_with count_genres count_artists
         session user_id min_likes w = (Returns r, w')
       /\ (forall e, session_rows session (mkQuery user_id LIKE) = Raises e ->
           r = None)
       /\ (forall e, session_rows session (mkQuery user_id DISLIKE) = Raises e ->
           r = None)
       /\ (forall p, r = Some p ->
           exists liked disliked w3 w4 w5 w6,
             session_rows session (mkQuery user_id LIKE) = Returns liked
             /\ session_rows session (mkQuery user_id DISLIKE) = Returns disliked
             /\ min_likes <= Z.of_nat (length liked)
             /\ count_genres liked (after_reads w user_id min_likes)
                = (Returns (liked_genres p), w3)
             /\ count_artists liked w3 = (Returns (liked_artists p), w4)
             /\ count_genres disliked w4 = (Returns (disliked_genres p), w5)
             /\ count_artists disliked w5 = (Returns (disliked_artists p), w6)
             /\ total_likes p = Z.of_nat (length liked)
             /\ total_dislikes p = Z.of_nat (length disliked)))
  /\ (forall analyze score_of tracks user min_likes w,
        exists out w',
          PersonalizationService.personalize_tracks_with analyze score_of
            tracks user min_likes w = (Returns out, w')
          /\ (forall e w1,
              analyze (user_pk user) min_likes w = (Raises e, w1) ->
              out = tracks)
          /\ (forall p w1 e w2,
              analyze (user_pk user) min_likes w = (Returns (Some p), w1) ->
              mapM (fun t => s <- score_of t p ;; ret (t, s)) tracks w1
                = (Raises e, w2) ->
              out = tracks))
  /\ (forall session tracks user min_likes w,
        exists out w',
          PersonalizationService.personalize_tracks session tracks user min_likes w
            = (Returns out, w')
          /\ (forall e,
              session_rows session (mkQuery (user_pk user) LIKE) = Raises e ->
              out = tracks)
          /\ (forall e,
              session_rows session (mkQuery (user_pk user) DISLIKE) = Raises e ->
              out = tracks)).
Proof.
  split; [|split].
  - intros. apply analyze_preferences_with_degrades.
  - intros analyze score_of tracks user min_likes w.
    destruct (personalize_tracks_with_paths analyze score_of tracks user min_likes w)
      as (out & w' & Hrun & _ & _ & Hraise & Hscore & _).
    exists out, w'. auto.
  - intros session tracks user min_likes w.
    destruct (personalize_tracks_with_paths
                (PreferenceAnalyzer.analyze_preferences session)
                (fun t q => ret (PersonalizationService._score_track t q))
                tracks user min_likes w)
      as (out & w' & Hrun & _ & Hnone & _).
    destruct (analyze_preferences_entry session (user_pk user) min_likes w)
      as (r & w1 & Ha & _ & _ & Hlike & Hdislike).
    exists out, w'. split; [exact Hrun|].
    split; intros e He; apply (Hnone w1); rewrite Ha; f_equal; f_equal;
      eauto.
Qed.

(** * Properties of the preference search strategy *)

Lemma fallback_shaped_lookup params :
  fallback_shaped params ->
  params !! "entity" = Some "song" /\ params !! "attribute" = None.
Proof. intros (term & _ & ->). split; reflexivity. Qed.

Lemma genre_shaped_lookup p params :
  genre_shaped p params ->
  params !! "entity" = Some "song" /\ params !! "attribute" = Some "genreIndex".
Proof. intros (g & _ & ->). split; reflexivity. Qed.

Lemma artist_shaped_lookup p params :
  artist_shaped p params ->
  params !! "entity" = Some "song" /\ params !! "attribute" = Some "artistTerm".
Proof. intros (a & _ & ->). split; reflexivity. Qed.

Lemma truthy_Some o : truthy o = true -> exists s, o = Some s /\ s <> EmptyString.
Proof.
  destruct o as [s|]; [|discriminate]. simpl.
  destruct (String.eqb s EmptyString) eqn:E; [discriminate|].
  apply String.eqb_neq in E. eauto.
Qed.

(** A call on an identified instance, loaded or not, ends as a call on the
    loaded instance with the same next draw. *)
Lemma generate_params_identified self w :
  UserPreferenceSearchStrategy.session self <> None ->
  truthy (UserPreferenceSearchStrategy.user_id self) = true ->
  exists self' w1,
    UserPreferenceSearchStrategy.generate_params self w
      = UserPreferenceSearchStrategy.generate_params self' w1
    /\ UserPreferenceSearchStrategy.session self' = UserPreferenceSearchStrategy.session self
    /\ UserPreferenceSearchStrategy.user_id self' = UserPreferenceSearchStrategy.user_id self
    /\ UserPreferenceSearchStrategy._preferences_loaded self' = true
    /\ rng w1 = rng w
    /\ (UserPreferenceSearchStrategy._preferences_loaded self = true ->
        self' = self /\ w1 = w)
    /\ (UserPreferenceSearchStrategy._preferences_loaded self = false ->
        forall sess uid,
          UserPreferenceSearchStrategy.session self = Some sess ->
          UserPreferenceSearchStrategy.user_id self = Some uid ->
          PreferenceAnalyzer.analyze_preferences sess uid 3 w
            = (Returns (UserPreferenceSearchStrategy._preferences self'), w1)).
Proof.
  intros Hs Hu.
  destruct (UserPreferenceSearchStrategy._preferences_loaded self) eqn:Hl.
  - exists self, w. repeat split; auto; discriminate.
  - destruct (UserPreferenceSearchStrategy.session self) as [sess|] eqn:Es;
      [|congruence].
    destruct (truthy_Some _ Hu) as (uid & Eu & Hne).
    unfold UserPreferenceSearchStrategy.generate_params.
    rewrite (generate_params_with_first _ self sess uid w Es Eu Hne Hl).
    destruct (analyze_preferences_entry sess uid 3 w)
      as (r & w1 & Ha & _ & Hrng & _).
    rewrite Ha. simpl.
    eexists _, _. split; [reflexivity|]. simpl.
    repeat split; auto; try discriminate.
    intros _ sess' uid' [= <-] Eu'. rewrite Eu in Eu'. injection Eu' as <-.
    exact Ha.
Qed.

(** C7.  [generate_params] always returns.  Without a store handle or
    without a user id it leaves the instance as it is and the parameters are
    fallback-shaped: a term of the fixed vocabulary, entity "song", no
    attribute.  With both, the profile the call goes by is the one the
    instance holds when it is already loaded, and otherwise the one the
    analyzer returns for the user with threshold 3; the instance holds it
    afterwards.  An absent profile gives fallback-shaped parameters.  A
    present profile with a liked artist gives one of the top three liked
    genres with attribute "genreIndex" exactly when there is a liked genre
    and the draw of [random.random()] is below the binary64 value of 0.7
    ([float_0_7] out of the [2^53] equally likely draws, less than [2^-53]
    from 7/10), and one of the top three liked artists with attribute
    "artistTerm" otherwise.  A present profile with a liked genre and no
    liked artist gives a top genre on the draws below the threshold, but on
    the draws at or above it the method returns fallback parameters, a term
    that is neither a liked genre nor a liked artist: the artist branch does
    not go back to the genres as the genre branch goes on to the artists.
    The last clause runs the method on such a profile. *)
Theorem C7_generate_params_shapes
  (self : UserPreferenceSearchStrategy.t) (w : World) :
  (exists params self' w',
     UserPreferenceSearchStrategy.generate_params self w
       = (Returns (params, self'), w')
     /\ (UserPreferenceSearchStrategy.session self = None
         \/ truthy (UserPreferenceSearchStrategy.user_id self) = false ->
         self' = self
         /\ fallback_shaped params
         /\ params !! "entity" = Some "song"
         /\ params !! "attribute" = None)
     /\ (forall sess uid,
         UserPreferenceSearchStrategy.session self = Some sess ->
         UserPreferenceSearchStrategy.user_id self = Some uid ->
         uid <> EmptyString ->
         (UserPreferenceSearchStrategy._preferences_loaded self = true ->
          UserPreferenceSearchStrategy._preferences self'
          = UserPreferenceSearchStrategy._preferences self)
         /\ (UserPreferenceSearchStrategy._preferences_loaded self = false ->
             fst (PreferenceAnalyzer.analyze_preferences sess uid 3 w)
             = Returns (UserPreferenceSearchStrategy._preferences self'))
         /\ (UserPreferenceSearchStrategy._preferences self' = None ->
             fallback_shaped params
             /\ params !! "entity" = Some "song"
             /\ params !! "attribute" = None)
         /\ (forall p,
             UserPreferenceSearchStrategy._preferences self' = Some p ->
             params !! "entity" = Some "song"
             /\ (liked_artists p <> [] ->
                 (genre_shaped p params \/ artist_shaped p params)
                 /\ (genre_shaped p params
                     <-> liked_genres p <> [] /\ next_random w < float_0_7)
                 /\ (artist_shaped p params
                     <-> liked_genres p = [] \/ float_0_7 <= next_random w))
             /\ (liked_genres p <> [] -> liked_artists p = [] ->
                 (next_random w < float_0_7 -> genre_shaped p params)
                 /\ (float_0_7 <= next_random w ->
                     fallback_shaped params
                     /\ ~ genre_shaped p params
                     /\ ~ artist_shaped p params)))))
  /\ 0 <= next_random w < two53
  /\ 0 <= 7 * two53 - 10 * float_0_7 < 10
  /\ fst (UserPreferenceSearchStrategy.generate_params
            (UserPreferenceSearchStrategy.__init__
               (Some genres_only_session) (Some "test-user"))
            (fresh_world [float_0_7; 0]))
     = Returns ({[ "term" := "pop"; "entity" := "song" ]},
                UserPreferenceSearchStrategy.mk
                  (Some genres_only_session) (Some "test-user")
                  (Some (mkUserPreferences [("Rock", 3)] [] [] [] 3 0)) true).
Proof.
  split; [|split; [|split; [vm_compute; split; [discriminate|reflexivity]|]]].
  2:{ unfold next_random. apply Z.mod_pos_bound. reflexivity. }
  2:{ vm_compute. reflexivity. }
  destruct (UserPreferenceSearchStrategy.session self) as [sess|] eqn:Es;
    [destruct (truthy (UserPreferenceSearchStrategy.user_id self)) eqn:Eu|].
  - assert (Hs : UserPreferenceSearchStrategy.session self <> None)
      by (rewrite Es; discriminate).
    destruct (generate_params_identified self w Hs Eu)
      as (self1 & w1 & Heq & Hs1 & Hu1 & Hl1 & Hrng & Hkeep & Hload).
    assert (Hs1' : UserPreferenceSearchStrategy.session self1 <> None)
      by (rewrite Hs1; exact Hs).
    assert (Hu1' : truthy (UserPreferenceSearchStrategy.user_id self1) = true)
      by (rewrite Hu1; exact Eu).
    destruct (generate_params_with_cached PreferenceAnalyzer.analyze_preferences
                self1 w1 Hs1' Hu1' Hl1)
      as (params & w' & Hrun & _ & _ & Hnone & Hsome).
    assert (Hnext : next_random w1 = next_random w)
      by (unfold next_random; now rewrite Hrng).
    rewrite Hnext in Hsome.
    exists params, self1, w'. rewrite Heq. split; [exact Hrun|]. split.
    + intros [?|?]; discriminate.
    + intros sess' uid' Hs' Hu' Hne'.
      split. { intros Hl. destruct (Hkeep Hl) as [-> _]. reflexivity. }
      split.
      { intros Hl. rewrite <- Es in Hs'.
        rewrite (Hload Hl sess' uid' Hs' Hu'). reflexivity. }
      split.
      { intros Hp. pose proof (Hnone Hp) as Hf. split; [exact Hf|].
        now apply fallback_shaped_lookup. }
      intros p Hp. destruct (Hsome p Hp) as (Hgen & Hart & Hfb).
      assert (Hg : liked_genres p = [] \/ liked_genres p <> [])
        by (destruct (liked_genres p); [left; reflexivity|right; discriminate]).
      assert (Ha : liked_artists p = [] \/ liked_artists p <> [])
        by (destruct (liked_artists p); [left; reflexivity|right; discriminate]).
      assert (Hex1 : genre_shaped p params -> artist_shaped p params -> False).
      { intros H1 H2. apply genre_shaped_lookup in H1 as [_ H1].
        apply artist_shaped_lookup in H2 as [_ H2]. congruence. }
      assert (Hex2 : genre_shaped p params -> fallback_shaped params -> False).
      { intros H1 H2. apply genre_shaped_lookup in H1 as [_ H1].
        apply fallback_shaped_lookup in H2 as [_ H2]. congruence. }
      assert (Hex3 : artist_shaped p params -> fallback_shaped params -> False).
      { intros H1 H2. apply artist_shaped_lookup in H1 as [_ H1].
        apply fallback_shaped_lookup in H2 as [_ H2]. congruence. }
      assert (Hord : next_random w < float_0_7 -> float_0_7 <= next_random w -> False)
        by lia.
      assert (Hcases :
        genre_shaped p params \/ artist_shaped p params \/ fallback_shaped params).
      { destruct (Z.lt_ge_cases (next_random w) float_0_7) as [Hlt|Hge];
          destruct Hg as [Hg|Hg], Ha as [Ha|Ha]; tauto. }
      split.
      { destruct Hcases as [H1|[H1|H1]].
        - now apply genre_shaped_lookup in H1.
        - now apply artist_shaped_lookup in H1.
        - now apply fallback_shaped_lookup in H1. }
      destruct (Z.lt_ge_cases (next_random w) float_0_7) as [Hlt|Hge];
        destruct Hg as [Hg|Hg], Ha as [Ha|Ha]; tauto.
  - destruct (generate_params_with_anonymous PreferenceAnalyzer.analyze_preferences
                self w (or_intror Eu)) as (params & w' & Hrun & Hf & _).
    exists params, self, w'. split; [exact Hrun|]. split.
    + intros _. split; [reflexivity|]. split; [exact Hf|].
      now apply fallback_shaped_lookup.
    + intros sess' uid' _ Hu' Hne'. rewrite Hu' in Eu. simpl in Eu.
      apply String.eqb_neq in Hne'. rewrite Hne' in Eu. discriminate.
  - destruct (generate_params_with_anonymous PreferenceAnalyzer.analyze_preferences
                self w (or_introl Es)) as (params & w' & Hrun & Hf & _).
    exists params, self, w'. split; [exact Hrun|]. split.
    + intros _. split; [reflexivity|]. split; [exact Hf|].
      now apply fallback_shaped_lookup.
    + intros sess' uid' Hs'. discriminate.
Qed.

(** C8.  On an instance built with a store handle and a non-empty user id,
    the first [generate_params] call enters the analyzer once, with
    [min_likes = 3], keeps what it returned and marks the instance as
    loaded; however many calls follow on that instance, they leave the
    instance as it is, enter the analyzer no more and read the store no
    more.  A failed read leaves the absent profile and fallback parameters
    on every call.  Whatever analyzer is plugged in, if it raises during the
    load the profile held is absent, and a loaded instance behaves the same
    with any analyzer. *)
Theorem C8_profile_loaded_once
  (sess : AsyncSession) (uid : string) (n : nat) (w : World) :
  uid <> EmptyString ->
  exists params1 self1 w1 rest w',
    UserPreferenceSearchStrategy.generate_params
      (UserPreferenceSearchStrategy.__init__ (Some sess) (Some uid)) w
      = (Returns (params1, self1), w1)
    /\ UserPreferenceSearchStrategy.invoke_n (S n)
         (UserPreferenceSearchStrategy.__init__ (Some sess) (Some uid)) w
       = (Returns (params1 :: rest, self1), w')
    /\ length rest = n
    /\ UserPreferenceSearchStrategy._preferences_loaded self1 = true
    /\ fst (PreferenceAnalyzer.analyze_preferences sess uid 3 w)
       = Returns (UserPreferenceSearchStrategy._preferences self1)
    /\ analyzer_entries (trace w1) = analyzer_entries (trace w) ++ [(uid, 3)]
    /\ analyzer_entries (trace w') = analyzer_entries (trace w1)
    /\ store_reads (trace w') = store_reads (trace w1)
    /\ (forall e,
        session_rows sess (mkQuery uid LIKE) = Raises e
        \/ session_rows sess (mkQuery uid DISLIKE) = Raises e ->
        UserPreferenceSearchStrategy._preferences self1 = None
        /\ List.Forall fallback_shaped (params1 :: rest))
    /\ (forall analyze e wa,
        analyze sess uid 3 w = (Raises e, wa) ->
        exists params s' w'',
          UserPreferenceSearchStrategy.generate_params_with analyze
            (UserPreferenceSearchStrategy.__init__ (Some sess) (Some uid)) w
            = (Returns (params, s'), w'')
          /\ UserPreferenceSearchStrategy._preferences s' = None
          /\ UserPreferenceSearchStrategy._preferences_loaded s' = true
          /\ fallback_shaped params)
    /\ (forall analyze analyze' wx,
        UserPreferenceSearchStrategy.generate_params_with analyze self1 wx
        = UserPreferenceSearchStrategy.generate_params_with analyze' self1 wx).
Proof.
  intros Hne.
  set (self0 := UserPreferenceSearchStrategy.__init__ (Some sess) (Some uid)).
  assert (Ht : truthy (Some uid) = true).
  { simpl. apply String.eqb_neq in Hne. now rewrite Hne. }
  destruct (analyze_preferences_entry sess uid 3 w)
    as (r & wA & Ha & Hentry & Hrng & Hlike & Hdislike).
  set (self1 := UserPreferenceSearchStrategy.mk (Some sess) (Some uid) r true).
  assert (Hfirst :
    UserPreferenceSearchStrategy.generate_params self0 w
    = UserPreferenceSearchStrategy.generate_params self1 wA).
  { unfold UserPreferenceSearchStrategy.generate_params.
    rewrite (generate_params_with_first _ self0 sess uid w eq_refl eq_refl Hne eq_refl).
    rewrite Ha. reflexivity. }
  assert (Hs1 : UserPreferenceSearchStrategy.session self1 <> None) by discriminate.
  destruct (generate_params_with_cached PreferenceAnalyzer.analyze_preferences
              self1 wA Hs1 Ht eq_refl)
    as (params1 & w1 & Hrun & Hae & Hsr & Hnone & _).
  destruct (invoke_n_with_cached PreferenceAnalyzer.analyze_preferences
              n self1 w1 Hs1 Ht eq_refl)
    as (rest & w' & Hrest & Hlen & Hae' & Hsr' & Hfb).
  exists params1, self1, w1, rest, w'.
  split; [rewrite Hfirst; exact Hrun|].
  split.
  { unfold UserPreferenceSearchStrategy.invoke_n. simpl.
    unfold bind at 1.
    change (UserPreferenceSearchStrategy.generate_params_with
              PreferenceAnalyzer.analyze_preferences self0 w)
      with (UserPreferenceSearchStrategy.generate_params self0 w).
    rewrite Hfirst.
    change (UserPreferenceSearchStrategy.generate_params self1 wA)
      with (UserPreferenceSearchStrategy.generate_params_with
              PreferenceAnalyzer.analyze_preferences self1 wA).
    rewrite Hrun. simpl. unfold bind. rewrite Hrest. reflexivity. }
  split; [exact Hlen|]. split; [reflexivity|].
  split; [rewrite Ha; reflexivity|].
  split; [rewrite Hae; exact Hentry|].
  split; [exact Hae'|]. split; [exact Hsr'|].
  split.
  { intros e He.
    assert (Hr : r = None) by (destruct He; eauto).
    split; [exact Hr|]. constructor; [apply Hnone; exact Hr|].
    apply Hfb. exact Hr. }
  split.
  { intros analyze e wa Hraise.
    rewrite (generate_params_with_first analyze self0 sess uid w
               eq_refl eq_refl Hne eq_refl).
    rewrite Hraise. simpl.
    match goal with
    | |- context [UserPreferenceSearchStrategy.generate_params_with analyze ?s ?wx] =>
        destruct (generate_params_with_cached analyze s wx)
          as (params & w'' & Hrun' & _ & _ & Hnone' & _);
          [discriminate|exact Ht|reflexivity|]
    end.
    eexists _, _, _. split; [exact Hrun'|]. auto. }
  intros analyze analyze' wx.
  now apply generate_params_with_cached_indep.
Qed.

Lemma C8_profile_loaded_once_witness :
  exists params1 self1 w1 rest w',
    UserPreferenceSearchStrategy.generate_params
      (UserPreferenceSearchStrategy.__init__ (Some test_session) (Some "test-user"))
      (fresh_world [0; 1; two53 - 1; 2])
      = (Returns (params1, self1), w1)
    /\ UserPreferenceSearchStrategy.invoke_n 3
         (UserPreferenceSearchStrategy.__init__ (Some test_session) (Some "test-user"))
         (fresh_world [0; 1; two53 - 1; 2])
       = (Returns (params1 :: rest, self1), w')
    /\ length rest = 2%nat
    /\ UserPreferenceSearchStrategy._preferences_loaded self1 = true
    /\ fst (PreferenceAnalyzer.analyze_preferences test_session "test-user" 3
              (fresh_world [0; 1; two53 - 1; 2]))
       = Returns (UserPreferenceSearchStrategy._preferences self1)
    /\ analyzer_entries (trace w1)
       = analyzer_entries (trace (fresh_world [0; 1; two53 - 1; 2]))
         ++ [("test-user", 3)]
    /\ analyzer_entries (trace w') = analyzer_entries (trace w1)
    /\ store_reads (trace w') = store_reads (trace w1)
    /\ (forall e,
        session_rows test_session (mkQuery "test-user" LIKE) = Raises e
        \/ session_rows test_session (mkQuery "test-user" DISLIKE) = Raises e ->
        UserPreferenceSearchStrategy._preferences self1 = None
        /\ List.Forall fallback_shaped (params1 :: rest))
    /\ (forall analyze e wa,
        analyze test_session "test-user" 3 (fresh_world [0; 1; two53 - 1; 2])
          = (Raises e, wa) ->
        exists params s' w'',
          UserPreferenceSearchStrategy.generate_params_with analyze
            (UserPreferenceSearchStrategy.__init__ (Some test_session) (Some "test-user"))
            (fresh_world [0; 1; two53 - 1; 2])
            = (Returns (params, s'), w'')
          /\ UserPreferenceSearchStrategy._preferences s' = None
          /\ UserPreferenceSearchStrategy._preferences_loaded s' = true
          /\ fallback_shaped params)
    /\ (forall analyze analyze' wx,
        UserPreferenceSearchStrategy.generate_params_with analyze self1 wx
        = UserPreferenceSearchStrategy.generate_params_with analyze' self1 wx).
Proof.
  apply (C8_profile_loaded_once test_session "test-user" 2
           (fresh_world [0; 1; two53 - 1; 2])).
  discriminate.
Defined.

(** * Properties of the strategy registry *)

(** C9, as the code has it.  [get_strategy "chart_keyword"] always
    succeeds, and [get_strategy "user_preference_search"] succeeds whenever
    the keywords given are among [session] and [user_id]; any other keyword
    is a [TypeError], which propagates.  For any other name, when the module
    cannot be imported because of an [ImportError] (a missing module
    included) or an [AttributeError], or holds no qualifying class, the call
    raises the [ImportError] "Could not load search strategy '<name>'. ...";
    an error of another class raised while loading the module propagates
    unchanged.  When the module loads and holds a qualifying class, the
    first such class is constructed without arguments: the call returns its
    instance, and an error raised by the constructor propagates unchanged
    unless it is an [ImportError] or an [AttributeError], which again becomes
    the "Could not load" error.  Every error the call raises is that
    [ImportError] or an error that is neither an [ImportError] nor an
    [AttributeError]. *)
Theorem C9_resolve
  (import_module : search_strategies.Importer)
  (strategy_name : string) (kwargs : search_strategies.Kwargs) :
  search_strategies.get_strategy import_module "chart_keyword" kwargs
    = Returns search_strategies.ChartKeyword
  /\ (search_strategies.kw_other kwargs = [] ->
      search_strategies.get_strategy import_module "user_preference_search" kwargs
      = Returns (search_strategies.UserPreference
          (UserPreferenceSearchStrategy.__init__
             (default None (search_strategies.kw_session kwargs))
             (default None (search_strategies.kw_user_id kwargs)))))
  /\ (search_strategies.kw_other kwargs <> [] ->
      exists e,
        search_strategies.get_strategy import_module "user_preference_search" kwargs
          = Raises e
        /\ exc_class e = TypeError)
  /\ (strategy_name <> "chart_keyword" ->
      strategy_name <> "user_preference_search" ->
      (forall e,
         import_module ("app.services.search_strategies." +:+ strategy_name)
           = Raises e ->
         is_ImportError_or_AttributeError e = true ->
         search_strategies.get_strategy import_module strategy_name kwargs
         = Raises (search_strategies.could_not_load strategy_name))
      /\ (forall e,
            import_module ("app.services.search_strategies." +:+ strategy_name)
              = Raises e ->
            is_ImportError_or_AttributeError e = false ->
            search_strategies.get_strategy import_module strategy_name kwargs
            = Raises e)
      /\ (forall strategy_module,
            import_module ("app.services.search_strategies." +:+ strategy_name)
              = Returns strategy_module ->
            List.find search_strategies.qualifies strategy_module = None ->
            search_strategies.get_strategy import_module strategy_name kwargs
            = Raises (search_strategies.could_not_load strategy_name))
      /\ (forall strategy_module obj,
            import_module ("app.services.search_strategies." +:+ strategy_name)
              = Returns strategy_module ->
            List.find search_strategies.qualifies strategy_module = Some obj ->
            (search_strategies.obj_call obj = None ->
             search_strategies.get_strategy import_module strategy_name kwargs
             = Returns (search_strategies.Discovered
                          (search_strategies.obj_name obj)))
            /\ (forall e,
                  search_strategies.obj_call obj = Some e ->
                  is_ImportError_or_AttributeError e = false ->
                  search_strategies.get_strategy import_module strategy_name kwargs
                  = Raises e)
            /\ (forall e,
                  search_strategies.obj_call obj = Some e ->
                  is_ImportError_or_AttributeError e = true ->
                  search_strategies.get_strategy import_module strategy_name kwargs
                  = Raises (search_strategies.could_not_load strategy_name))))
  /\ (forall e,
        search_strategies.get_strategy import_module strategy_name kwargs
          = Raises e ->
        e = search_strategies.could_not_load strategy_name
        \/ is_ImportError_or_AttributeError e = false)
  /\ exc_class (search_strategies.could_not_load strategy_name) = ImportError
  /\ exc_msg (search_strategies.could_not_load strategy_name)
     = "Could not load search strategy '" +:+ strategy_name +:+
       "'. Ensure the module exists and defines a valid strategy class.".
Proof.
  split; [reflexivity|].
  split.
  { intros Hk. unfold search_strategies.get_strategy,
      search_strategies.construct_user_preference. simpl. now rewrite Hk. }
  split.
  { intros Hk. unfold search_strategies.get_strategy,
      search_strategies.construct_user_preference. simpl.
    destruct (search_strategies.kw_other kwargs) as [|name rest]; [congruence|].
    simpl. eexists. split; reflexivity. }
  split.
  { intros Hc Hu. apply String.eqb_neq in Hc, Hu.
    unfold search_strategies.get_strategy. rewrite Hc, Hu.
    split; [|split; [|split]].
    - intros e He Hcls. rewrite He, Hcls. reflexivity.
    - intros e He Hcls. rewrite He, Hcls. reflexivity.
    - intros strategy_module Hm Hfind. rewrite Hm, Hfind. reflexivity.
    - intros strategy_module obj Hm Hfind. rewrite Hm, Hfind.
      split; [|split].
      + intros Hcall. rewrite Hcall. reflexivity.
      + intros e Hcall Hcls. rewrite Hcall, Hcls. reflexivity.
      + intros e Hcall Hcls. rewrite Hcall, Hcls. reflexivity. }
  split; [|split; reflexivity].
  intros e. unfold search_strategies.get_strategy.
  match goal with
  | |- match ?body with _ => _ end = _ -> _ => destruct body as [s|exc]
  end; [discriminate|].
  destruct (is_ImportError_or_AttributeError exc) eqn:Hcls;
    intros [= <-]; auto.
Qed.

(** C9 as stated does not hold: a keyword the preference strategy does not
    declare makes [get_strategy "user_preference_search"] raise a
    [TypeError], and a module that fails to load with an error other than
    [ImportError] and [AttributeError] makes [get_strategy] raise that error
    instead of the strategy-not-found one. *)
Lemma C9_resolve_counterexample :
  (exists e,
     search_strategies.get_strategy no_modules "user_preference_search"
       kwargs_with_limit = Raises e
     /\ exc_class e = TypeError)
  /\ ~ (exists s,
          search_strategies.get_strategy no_modules "user_preference_search"
            kwargs_with_limit = Returns s)
  /\ search_strategies.get_strategy unparsable_module "lyrics_search" no_kwargs
     = Raises (mkExc SyntaxError "invalid syntax")
  /\ search_strategies.get_strategy unparsable_module "lyrics_search" no_kwargs
     <> Raises (search_strategies.could_not_load "lyrics_search").
Proof.
  split; [eexists; split; reflexivity|].
  split; [intros [s Hs]; discriminate Hs|].
  split; [reflexivity|]. discriminate.
Qed.

(** * The repository's tests, replayed on the model *)

Example test_analyze_preferences_with_sufficient_data :
  fst (PreferenceAnalyzer.analyze_preferences test_session "test-user" 3
         (fresh_world []))
  = Returns (Some (mkUserPreferences
      [("Rock", 2); ("Pop", 1)] [("Rock Band", 2); ("Pop Artist", 1)]
      [("Jazz", 1)] [("Jazz Artist", 1)] 3 1)).
Proof. reflexivity. Qed.

Example test_analyze_preferences_insufficient_data :
  fst (PreferenceAnalyzer.analyze_preferences test_session "test-user" 10
         (fresh_world []))
  = Returns None.
Proof. reflexivity. Qed.

Example test_personalize_tracks_with_preferences :
  fst (PersonalizationService.personalize_tracks test_session
         candidate_tracks test_user 3 (fresh_world []))
  = Returns [new_rock_song; new_pop_song; new_jazz_song].
Proof. reflexivity. Qed.

Example test_personalize_without_preferences :
  fst (PersonalizationService.personalize_tracks test_session
         candidate_tracks test_user 100 (fresh_world []))
  = Returns candidate_tracks.
Proof. reflexivity. Qed.

Example personalize_on_broken_store :
  PersonalizationService.personalize_tracks broken_session
    candidate_tracks test_user 3 (fresh_world [])
  = (Returns candidate_tracks,
     mkWorld [EvAnalyze "test-user" 3;
              EvExecute (mkQuery "test-user" LIKE);
              EvLog ERROR; EvLog INFO] []).
Proof. reflexivity. Qed.

(** Equal counts keep the order of first occurrence. *)
Example count_genres_ties :
  PreferenceAnalyzer._count_genres
    [pop_song_1; jazz_song; rock_song_1; untitled_rock; jazz_song]
  = [("Jazz", 2); ("Rock", 2); ("Pop", 1)]
  /\ PreferenceAnalyzer._count_artists
       [pop_song_1; jazz_song; rock_song_1; untitled_rock; jazz_song]
     = [("Jazz Artist", 2); ("Pop Artist", 1); ("Rock Band", 1)].
Proof. split; reflexivity. Qed.

(** Three calls on one instance: one analyzer entry, two store reads. *)
Example strategy_three_calls :
  exists params self' w',
    UserPreferenceSearchStrategy.invoke_n 3
      (UserPreferenceSearchStrategy.__init__ (Some test_session) (Some "test-user"))
      (fresh_world [0; 1; two53 - 1; 0; float_0_7; 1])
    = (Returns (params, self'), w')
    /\ params
       = [ {[ "term" := "Pop"; "entity" := "song"; "attribute" := "genreIndex" ]};
           {[ "term" := "Rock Band"; "entity" := "song"; "attribute" := "artistTerm" ]};
           {[ "term" := "Pop Artist"; "entity" := "song"; "attribute" := "artistTerm" ]} ]
    /\ analyzer_entries (trace w') = [("test-user", 3)]
    /\ store_reads (trace w')
       = [mkQuery "test-user" LIKE; mkQuery "test-user" DISLIKE].
Proof. eexists _, _, _. split; [vm_compute; reflexivity|]. repeat split. Qed.

(** A profile with liked genres but no liked artist: the draws at or above
    the threshold end in the fallback parameters. *)
Example strategy_genres_only :
  fst (UserPreferenceSearchStrategy.generate_params
         (UserPreferenceSearchStrategy.__init__ (Some genres_only_session) (Some "u"))
         (fresh_world [float_0_7 - 1; 0]))
  = Returns ({[ "term" := "Rock"; "entity" := "song"; "attribute" := "genreIndex" ]},
             UserPreferenceSearchStrategy.mk (Some genres_only_session) (Some "u")
               (Some (mkUserPreferences [("Rock", 3)] [] [] [] 3 0)) true)
  /\ fst (UserPreferenceSearchStrategy.generate_params
            (UserPreferenceSearchStrategy.__init__ (Some genres_only_session) (Some "u"))
            (fresh_world [float_0_7; 0]))
     = Returns ({[ "term" := "pop"; "entity" := "song" ]},
                UserPreferenceSearchStrategy.mk (Some genres_only_session) (Some "u")
                  (Some (mkUserPreferences [("Rock", 3)] [] [] [] 3 0)) true).
Proof. split; vm_compute; reflexivity. Qed.

Example strategy_anonymous :
  fst (UserPreferenceSearchStrategy.generate_params
         (UserPreferenceSearchStrategy.__init__ None None) (fresh_world [7]))
  = Returns ({[ "term" := "jazz"; "entity" := "song" ]},
             UserPreferenceSearchStrategy.__init__ None None).
Proof. vm_compute. reflexivity. Qed.

(** * Further properties of the personalization service *)

Lemma descending_filter {A} (key : A -> Z) (P : A -> bool) l :
  descending key l -> descending key (List.filter P l).
Proof.
  unfold descending. induction l as [|x l IH]; simpl; intros Hs; [constructor|].
  apply StronglySorted_inv in Hs as [Hl Hx].
  destruct (P x); [|now apply IH].
  constructor; [now apply IH|].
  rewrite List.Forall_forall in *. intros y Hy.
  apply filter_In in Hy as [Hy _]. now apply Hx.
Qed.

Lemma with_key_filter {A} (key : A -> Z) (P : A -> bool) s l :
  with_key key s (List.filter P l) = List.filter P (with_key key s l).
Proof.
  unfold with_key. induction l as [|x l IH]; simpl; [reflexivity|].
  destruct (P x) eqn:EP, (key x =? s) eqn:Ek; simpl;
    rewrite ?EP, ?Ek, IH; reflexivity.
Qed.

Lemma sorted_reverse_fixed {A} (key : A -> Z) l :
  descending key l -> sorted_reverse key l = l.
Proof.
  intros Hd. symmetry. now apply sorted_reverse_characterised.
Qed.

Lemma sorted_reverse_filter {A} (key : A -> Z) (P : A -> bool) l :
  sorted_reverse key (List.filter P l) = List.filter P (sorted_reverse key l).
Proof.
  symmetry. apply sorted_reverse_characterised.
  - apply descending_filter, sorted_reverse_descending.
  - intros s. rewrite !with_key_filter. now rewrite sorted_reverse_stable.
Qed.

(** What the analyzer returns depends on the store alone. *)
Lemma analyze_preferences_result session user_id min_likes w w' :
  fst (PreferenceAnalyzer.analyze_preferences session user_id min_likes w)
  = fst (PreferenceAnalyzer.analyze_preferences session user_id min_likes w').
Proof.
  unfold PreferenceAnalyzer.analyze_preferences,
    PreferenceAnalyzer.analyze_preferences_with. run.
  destruct (session_rows session (mkQuery user_id LIKE)) as [liked|e1];
    [destruct (session_rows session (mkQuery user_id DISLIKE)) as [disliked|e2];
     [destruct (Z.of_nat (length liked) <? min_likes)|]|];
    reflexivity.
Qed.

(** The list the service returns, from what the analyzer returns. *)
Lemma personalize_tracks_result session tracks user min_likes w :
  exists w',
    PersonalizationService.personalize_tracks session tracks user min_likes w
    = (Returns
         (match fst (PreferenceAnalyzer.analyze_preferences session
                       (user_pk user) min_likes w) with
          | Returns (Some p) =>
              sorted_reverse (fun t => PersonalizationService._score_track t p) tracks
          | _ => tracks
          end), w').
Proof.
  destruct (PreferenceAnalyzer.analyze_preferences session (user_pk user) min_likes w)
    as [[[p|]|e] w1] eqn:Ea; simpl.
  - exact (personalize_tracks_with_sorted _ _ tracks user min_likes w p w1 Ea).
  - destruct (personalize_tracks_with_paths
                (PreferenceAnalyzer.analyze_preferences session)
                (fun t q => ret (PersonalizationService._score_track t q))
                tracks user min_likes w)
      as (out & w' & Hrun & _ & Hnone & _).
    exists w'. unfold PersonalizationService.personalize_tracks.
    rewrite Hrun. now rewrite (Hnone w1 Ea).
  - destruct (personalize_tracks_with_paths
                (PreferenceAnalyzer.analyze_preferences session)
                (fun t q => ret (PersonalizationService._score_track t q))
                tracks user min_likes w)
      as (out & w' & Hrun & _ & _ & Hraise & _).
    exists w'. unfold PersonalizationService.personalize_tracks.
    rewrite Hrun. now rewrite (Hraise e w1 Ea).
Qed.

(** X1.  Personalizing a list that [personalize_tracks] returned, for the
    same user and threshold against the same store, returns that list
    again. *)
Theorem X1_personalize_idempotent
  (session : AsyncSession) (tracks out : list Track) (user : User)
  (min_likes : Z) (w w' : World) :
  PersonalizationService.personalize_tracks session tracks user min_likes w
    = (Returns out, w') ->
  exists w'',
    PersonalizationService.personalize_tracks session out user min_likes w'
    = (Returns out, w'').
Proof.
  intros Hrun.
  destruct (personalize_tracks_result session tracks user min_likes w)
    as (w1 & H1).
  destruct (personalize_tracks_result session out user min_likes w')
    as (w2 & H2).
  exists w2. rewrite H2. f_equal. f_equal.
  rewrite (analyze_preferences_result session (user_pk user) min_likes w' w).
  rewrite H1 in Hrun. inversion Hrun as [[Hout Hw]].
  destruct (fst (PreferenceAnalyzer.analyze_preferences session
                   (user_pk user) min_likes w)) as [[p|]|e]; try reflexivity.
  apply sorted_reverse_fixed, sorted_reverse_descending.
Qed.

Lemma X1_personalize_idempotent_witness :
  exists w'',
    PersonalizationService.personalize_tracks test_session
      [new_rock_song; new_pop_song; new_jazz_song] test_user 3
      (mkWorld [EvAnalyze "test-user" 3;
                EvExecute (mkQuery "test-user" LIKE);
                EvExecute (mkQuery "test-user" DISLIKE);
                EvLog INFO; EvLog INFO] [])
    = (Returns [new_rock_song; new_pop_song; new_jazz_song], w'').
Proof.
  apply (X1_personalize_idempotent test_session candidate_tracks
           [new_rock_song; new_pop_song; new_jazz_song] test_user 3
           (fresh_world [])).
  reflexivity.
Defined.

(** X2.  When the analyzer yields a profile and the tracks already stand in
    descending order of score, in particular when they all score the same,
    [personalize_tracks] returns them as they are. *)
Theorem X2_personalize_ordered_unchanged
  (session : AsyncSession) (tracks : list Track) (user : User)
  (min_likes : Z) (w w1 : World) (p : UserPreferences) :
  PreferenceAnalyzer.analyze_preferences session (user_pk user) min_likes w
    = (Returns (Some p), w1) ->
  descending (fun t => PersonalizationService._score_track t p) tracks
  \/ (exists c, forall t, In t tracks -> PersonalizationService._score_track t p = c) ->
  exists w',
    PersonalizationService.personalize_tracks session tracks user min_likes w
    = (Returns tracks, w').
Proof.
  intros Ha Hord.
  destruct (personalize_tracks_result session tracks user min_likes w)
    as (w' & Hrun).
  exists w'. rewrite Hrun, Ha. simpl. f_equal. f_equal.
  apply sorted_reverse_fixed.
  destruct Hord as [Hd|[c Hc]]; [exact Hd|].
  clear -Hc. unfold descending. induction tracks as [|t ts IH]; constructor.
  - apply IH. intros t' Ht'. apply Hc. now right.
  - rewrite List.Forall_forall. intros t' Ht'.
    rewrite (Hc t (or_introl eq_refl)), (Hc t' (or_intror Ht')). lia.
Qed.

Lemma X2_personalize_ordered_unchanged_witness :
  exists w',
    PersonalizationService.personalize_tracks test_session
      [new_jazz_song; new_jazz_song] test_user 3 (fresh_world [])
    = (Returns [new_jazz_song; new_jazz_song], w').
Proof.
  apply (X2_personalize_ordered_unchanged test_session
           [new_jazz_song; new_jazz_song] test_user 3 (fresh_world [])
           (mkWorld [EvAnalyze "test-user" 3;
                     EvExecute (mkQuery "test-user" LIKE);
                     EvExecute (mkQuery "test-user" DISLIKE);
                     EvLog INFO] [])
           (mkUserPreferences
              [("Rock", 2); ("Pop", 1)] [("Rock Band", 2); ("Pop Artist", 1)]
              [("Jazz", 1)] [("Jazz Artist", 1)] 3 1)).
  - reflexivity.
  - right. exists (-15). intros t [<-|[<-|[]]]; reflexivity.
Defined.

(** X3.  Removing tracks commutes with personalization: personalizing the
    tracks that pass a test gives the personalized list with the other
    tracks removed. *)
Theorem X3_personalize_filter
  (session : AsyncSession) (keep : Track -> bool) (tracks out : list Track)
  (user : User) (min_likes : Z) (w w' : World) :
  PersonalizationService.personalize_tracks session tracks user min_likes w
    = (Returns out, w') ->
  exists w'',
    PersonalizationService.personalize_tracks session
      (List.filter keep tracks) user min_likes w
    = (Returns (List.filter keep out), w'').
Proof.
  intros Hrun.
  destruct (personalize_tracks_result session tracks user min_likes w)
    as (w1 & H1).
  destruct (personalize_tracks_result session (List.filter keep tracks)
              user min_likes w) as (w2 & H2).
  exists w2. rewrite H2. f_equal. f_equal.
  rewrite H1 in Hrun. inversion Hrun as [[Hout Hw]].
  destruct (fst (PreferenceAnalyzer.analyze_preferences session
                   (user_pk user) min_likes w)) as [[p|]|e]; try reflexivity.
  apply sorted_reverse_filter.
Qed.

Lemma X3_personalize_filter_witness :
  exists w'',
    PersonalizationService.personalize_tracks test_session
      (List.filter (fun t => negb (String.eqb (track_id t) "2003")) candidate_tracks)
      test_user 3 (fresh_world [])
    = (Returns (List.filter (fun t => negb (String.eqb (track_id t) "2003"))
                  [new_rock_song; new_pop_song; new_jazz_song]), w'').
Proof.
  apply (X3_personalize_filter test_session
           (fun t => negb (String.eqb (track_id t) "2003")) candidate_tracks
           [new_rock_song; new_pop_song; new_jazz_song] test_user 3
           (fresh_world [])
           (mkWorld [EvAnalyze "test-user" 3;
                     EvExecute (mkQuery "test-user" LIKE);
                     EvExecute (mkQuery "test-user" DISLIKE);
                     EvLog INFO; EvLog INFO] [])).
  reflexivity.
Defined.

(** * Further properties of the preference analyzer *)

Lemma carrying_le_length {A} (f : A -> option string) g (tracks : list A) :
  0 <= carrying f g tracks <= Z.of_nat (length tracks).
Proof.
  unfold carrying. split; [lia|]. apply inj_le, List.filter_length_le.
Qed.

Lemma carrying_Permutation {A} (f : A -> option string) g (l l' : list A) :
  Permutation l l' -> carrying f g l = carrying f g l'.
Proof.
  unfold carrying. intros H. f_equal.
  induction H; simpl; try congruence.
  - destruct (match f x with Some y => _ | None => _ end); simpl; congruence.
  - destruct (match f x with Some y0 => _ | None => _ end),
             (match f y with Some y0 => _ | None => _ end); reflexivity.
Qed.

Lemma counter_incr_sum x c :
  foldr Z.add 0 (map snd (counter_incr x c)) = foldr Z.add 0 (map snd c) + 1.
Proof.
  induction c as [|[k n] c IH]; simpl; [reflexivity|].
  destruct (String.eqb k x); simpl; [lia|]. rewrite IH. lia.
Qed.

Lemma Counter_sum xs :
  foldr Z.add 0 (map snd (Counter xs)) = Z.of_nat (length xs).
Proof.
  unfold Counter. induction xs as [|x xs IH] using rev_ind; [reflexivity|].
  rewrite foldl_snoc, counter_incr_sum, IH, List.length_app. simpl. lia.
Qed.

Lemma sum_Permutation (l l' : list Z) :
  Permutation l l' -> foldr Z.add 0 l = foldr Z.add 0 l'.
Proof. intros H. induction H; simpl; lia. Qed.

Lemma most_common_sum c :
  foldr Z.add 0 (map snd (most_common c)) = foldr Z.add 0 (map snd c).
Proof.
  symmetry. apply sum_Permutation, Permutation_map. unfold most_common.
  apply sorted_reverse_perm.
Qed.

Lemma nonempty_values_length {A} (f : A -> option string) (tracks : list A) :
  (length (PreferenceAnalyzer.nonempty_values f tracks) <= length tracks)%nat.
Proof.
  unfold PreferenceAnalyzer.nonempty_values. rewrite length_map.
  apply List.filter_length_le.
Qed.

(** The counts of a table add up to the number of tracks whose field is
    not empty. *)
Lemma count_table_sum {A} (f : A -> option string) (tracks : list A) :
  foldr Z.add 0
    (map snd (most_common (Counter (PreferenceAnalyzer.nonempty_values f tracks))))
  = Z.of_nat (length (List.filter (fun t => truthy (f t)) tracks)).
Proof.
  rewrite most_common_sum, Counter_sum.
  unfold PreferenceAnalyzer.nonempty_values. now rewrite length_map.
Qed.

Lemma frequency_table_entry {A} (f : A -> option string) tracks table g n :
  frequency_table f tracks table -> In (g, n) table ->
  g <> EmptyString /\ 1 <= n <= Z.of_nat (length tracks).
Proof.
  intros (Hmem & _) Hin. apply Hmem in Hin as (Hg & Hn & ->).
  pose proof (carrying_le_length f g tracks). split; [exact Hg|lia].
Qed.

(** X4.  In a profile the analyzer returns, every entry of a liked table
    names a non-empty value with a count between 1 and [total_likes], every
    entry of a disliked table one with a count between 1 and
    [total_dislikes]; the counts of each table add up to at most the
    corresponding total, and [total_likes] reaches the threshold. *)
Theorem X4_profile_counts
  (session : AsyncSession) (user_id : string) (min_likes : Z)
  (liked disliked : list TrackCache) (w w' : World) (p : UserPreferences) :
  session_rows session (mkQuery user_id LIKE) = Returns liked ->
  session_rows session (mkQuery user_id DISLIKE) = Returns disliked ->
  PreferenceAnalyzer.analyze_preferences session user_id min_likes w
    = (Returns (Some p), w') ->
  (forall g n,
     In (g, n) (liked_genres p) \/ In (g, n) (liked_artists p) ->
     g <> EmptyString /\ 1 <= n <= total_likes p)
  /\ (forall g n,
        In (g, n) (disliked_genres p) \/ In (g, n) (disliked_artists p) ->
        g <> EmptyString /\ 1 <= n <= total_dislikes p)
  /\ foldr Z.add 0 (map snd (liked_genres p)) <= total_likes p
  /\ foldr Z.add 0 (map snd (liked_artists p)) <= total_likes p
  /\ foldr Z.add 0 (map snd (disliked_genres p)) <= total_dislikes p
  /\ foldr Z.add 0 (map snd (disliked_artists p)) <= total_dislikes p
  /\ min_likes <= total_likes p.
Proof.
  intros Hl Hd Hrun.
  rewrite (analyze_preferences_reads_ok _ _ _ _ _ _ Hl Hd) in Hrun.
  destruct (Z.of_nat (length liked) <? min_likes) eqn:E; [discriminate|].
  apply Z.ltb_ge in E. inversion Hrun; subst; simpl. clear Hrun.
  split; [|split].
  - intros g n [Hin|Hin];
      eapply frequency_table_entry; try exact Hin;
      apply most_common_Counter_frequency_table.
  - intros g n [Hin|Hin];
      eapply frequency_table_entry; try exact Hin;
      apply most_common_Counter_frequency_table.
  - unfold PreferenceAnalyzer._count_genres, PreferenceAnalyzer._count_artists.
    rewrite !count_table_sum.
    repeat split; try exact E; apply inj_le, List.filter_length_le.
Qed.

Lemma X4_profile_counts_witness :
  (forall g n,
     In (g, n) [("Rock", 2); ("Pop", 1)]
     \/ In (g, n) [("Rock Band", 2); ("Pop Artist", 1)] ->
     g <> EmptyString /\ 1 <= n <= 3)
  /\ (forall g n,
        In (g, n) [("Jazz", 1)] \/ In (g, n) [("Jazz Artist", 1)] ->
        g <> EmptyString /\ 1 <= n <= 1)
  /\ foldr Z.add 0 (map snd [("Rock", 2); ("Pop", 1)]) <= 3
  /\ foldr Z.add 0 (map snd [("Rock Band", 2); ("Pop Artist", 1)]) <= 3
  /\ foldr Z.add 0 (map snd [("Jazz", 1)]) <= 1
  /\ foldr Z.add 0 (map snd [("Jazz Artist", 1)]) <= 1
  /\ 3 <= 3.
Proof.
  apply (X4_profile_counts test_session "test-user" 3
           [rock_song_1; pop_song_1; rock_song_2] [jazz_song] (fresh_world [])
           (mkWorld [EvAnalyze "test-user" 3;
                     EvExecute (mkQuery "test-user" LIKE);
                     EvExecute (mkQuery "test-user" DISLIKE);
                     EvLog INFO] [])
           (mkUserPreferences
              [("Rock", 2); ("Pop", 1)] [("Rock Band", 2); ("Pop Artist", 1)]
              [("Jazz", 1)] [("Jazz Artist", 1)] 3 1));
    reflexivity.
Defined.

Lemma _score_track_sign track p :
  (forall k c, In (k, c) (liked_genres p) -> 0 <= c) ->
  (forall k c, In (k, c) (liked_artists p) -> 0 <= c) ->
  (PersonalizationService._score_track track p < 0 ->
   (truthy (genre track) = true
    /\ exists n, In (default EmptyString (genre track), n) (disliked_genres p))
   \/ (truthy (artist track) = true
       /\ exists n, In (default EmptyString (artist track), n) (disliked_artists p)))
  /\ (0 < PersonalizationService._score_track track p ->
      (truthy (genre track) = true
       /\ exists n, In (default EmptyString (genre track), n) (liked_genres p))
      \/ (truthy (artist track) = true
          /\ exists n, In (default EmptyString (artist track), n) (liked_artists p))).
Proof.
  intros Hg Ha. rewrite _score_track_sum.
  destruct (truthy (genre track)), (truthy (artist track));
    repeat match goal with
           | |- context [match ?d !! ?k with _ => _ end] =>
               let E := fresh "E" in destruct (d !! k) eqn:E
           end;
    repeat match goal with
           | E : py_dict _ !! _ = Some _ |- _ => apply py_dict_lookup_Some in E
           end;
    repeat match goal with
           | E : In (_, _) (liked_genres p) |- _ =>
               pose proof (Hg _ _ E); revert E
           | E : In (_, _) (liked_artists p) |- _ =>
               pose proof (Ha _ _ E); revert E
           end; intros;
    split; intros Hs; try lia; eauto 6.
Qed.

(** X5.  Under a profile the analyzer returns, the score of any track lies
    between -15 and [25 + 3 * total_likes]; it is negative only for a track
    whose genre or artist is listed as disliked, positive only for one whose
    genre or artist is listed as liked, and 0 for a track with neither a
    genre nor an artist. *)
Theorem X5_score_range
  (session : AsyncSession) (user_id : string) (min_likes : Z)
  (liked disliked : list TrackCache) (w w' : World) (p : UserPreferences)
  (track : Track) :
  session_rows session (mkQuery user_id LIKE) = Returns liked ->
  session_rows session (mkQuery user_id DISLIKE) = Returns disliked ->
  PreferenceAnalyzer.analyze_preferences session user_id min_likes w
    = (Returns (Some p), w') ->
  -15 <= PersonalizationService._score_track track p <= 25 + 3 * total_likes p
  /\ (PersonalizationService._score_track track p < 0 ->
      (exists g n, genre track = Some g /\ In (g, n) (disliked_genres p))
      \/ (exists a n, artist track = Some a /\ In (a, n) (disliked_artists p)))
  /\ (0 < PersonalizationService._score_track track p ->
      (exists g n, genre track = Some g /\ In (g, n) (liked_genres p))
      \/ (exists a n, artist track = Some a /\ In (a, n) (liked_artists p)))
  /\ (truthy (genre track) = false -> truthy (artist track) = false ->
      PersonalizationService._score_track track p = 0).
Proof.
  intros Hl Hd Hrun.
  rewrite (analyze_preferences_reads_ok _ _ _ _ _ _ Hl Hd) in Hrun.
  destruct (Z.of_nat (length liked) <? min_likes) eqn:E; [discriminate|].
  inversion Hrun; subst; clear Hrun.
  set (p := mkUserPreferences _ _ _ _ _ _).
  assert (Hg : forall k c, In (k, c) (liked_genres p) ->
                           0 <= c <= Z.of_nat (length liked)).
  { intros k c Hin.
    destruct (frequency_table_entry tc_primary_genre liked _ k c
                (most_common_Counter_frequency_table _ liked) Hin). lia. }
  assert (Ha : forall k c, In (k, c) (liked_artists p) ->
                           0 <= c <= Z.of_nat (length liked)).
  { intros k c Hin.
    destruct (frequency_table_entry tc_artist liked _ k c
                (most_common_Counter_frequency_table _ liked) Hin). lia. }
  assert (Hfield : forall o x, truthy o = true -> default EmptyString o = x ->
                               o = Some x).
  { intros [s|] x Ht Hx; [simpl in Hx; congruence|discriminate]. }
  split; [|split; [|split]].
  - apply (_score_track_bounds track p (Z.of_nat (length liked)));
      [lia|exact Hg|exact Ha].
  - intros Hneg.
    destruct (_score_track_sign track p) as [Hs _];
      [intros k c Hin; apply Hg in Hin; lia
      |intros k c Hin; apply Ha in Hin; lia|].
    destruct (Hs Hneg) as [[Ht [n Hin]]|[Ht [n Hin]]]; [left|right];
      eexists _, n; (split; [apply Hfield; [exact Ht|reflexivity]|exact Hin]).
  - intros Hpos.
    destruct (_score_track_sign track p) as [_ Hs];
      [intros k c Hin; apply Hg in Hin; lia
      |intros k c Hin; apply Ha in Hin; lia|].
    destruct (Hs Hpos) as [[Ht [n Hin]]|[Ht [n Hin]]]; [left|right];
      eexists _, n; (split; [apply Hfield; [exact Ht|reflexivity]|exact Hin]).
  - intros Hng Hna. unfold PersonalizationService._score_track.
    now rewrite Hng, Hna.
Qed.

Lemma X5_score_range_witness :
  -15 <= PersonalizationService._score_track new_jazz_song
           (mkUserPreferences
              [("Rock", 2); ("Pop", 1)] [("Rock Band", 2); ("Pop Artist", 1)]
              [("Jazz", 1)] [("Jazz Artist", 1)] 3 1) <= 25 + 3 * 3
  /\ (PersonalizationService._score_track new_jazz_song
        (mkUserPreferences
           [("Rock", 2); ("Pop", 1)] [("Rock Band", 2); ("Pop Artist", 1)]
           [("Jazz", 1)] [("Jazz Artist", 1)] 3 1) < 0 ->
      (exists g n, genre new_jazz_song = Some g /\ In (g, n) [("Jazz", 1)])
      \/ (exists a n, artist new_jazz_song = Some a /\ In (a, n) [("Jazz Artist", 1)]))
  /\ (0 < PersonalizationService._score_track new_jazz_song
            (mkUserPreferences
               [("Rock", 2); ("Pop", 1)] [("Rock Band", 2); ("Pop Artist", 1)]
               [("Jazz", 1)] [("Jazz Artist", 1)] 3 1) ->
      (exists g n, genre new_jazz_song = Some g /\ In (g, n) [("Rock", 2); ("Pop", 1)])
      \/ (exists a n, artist new_jazz_song = Some a
                      /\ In (a, n) [("Rock Band", 2); ("Pop Artist", 1)]))
  /\ (truthy (genre new_jazz_song) = false -> truthy (artist new_jazz_song) = false ->
      PersonalizationService._score_track new_jazz_song
        (mkUserPreferences
           [("Rock", 2); ("Pop", 1)] [("Rock Band", 2); ("Pop Artist", 1)]
           [("Jazz", 1)] [("Jazz Artist", 1)] 3 1) = 0).
Proof.
  apply (X5_score_range test_session "test-user" 3
           [rock_song_1; pop_song_1; rock_song_2] [jazz_song] (fresh_world [])
           (mkWorld [EvAnalyze "test-user" 3;
                     EvExecute (mkQuery "test-user" LIKE);
                     EvExecute (mkQuery "test-user" DISLIKE);
                     EvLog INFO] [])
           (mkUserPreferences
              [("Rock", 2); ("Pop", 1)] [("Rock Band", 2); ("Pop Artist", 1)]
              [("Jazz", 1)] [("Jazz Artist", 1)] 3 1) new_jazz_song);
    reflexivity.
Defined.

Lemma insert_desc_ext {A} (key key' : A -> Z) x l :
  (forall y, key y = key' y) -> insert_desc key x l = insert_desc key' x l.
Proof.
  intros H. induction l as [|y l IH]; simpl; [reflexivity|].
  now rewrite !H, IH.
Qed.

Lemma sorted_reverse_ext {A} (key key' : A -> Z) l :
  (forall y, key y = key' y) -> sorted_reverse key l = sorted_reverse key' l.
Proof.
  intros H. induction l as [|x l IH]; simpl; [reflexivity|].
  rewrite IH. now apply insert_desc_ext.
Qed.

Lemma frequency_table_Permutation {A} (f : A -> option string)
  (tracks tracks' : list A) table table' :
  Permutation tracks tracks' ->
  frequency_table f tracks table -> frequency_table f tracks' table' ->
  Permutation table table' /\ py_dict table = py_dict table'.
Proof.
  intros Hperm Ht Ht'. split.
  - destruct Ht as (Hmem & Hnd & _), Ht' as (Hmem' & Hnd' & _).
    apply Permutation.NoDup_Permutation.
    + eapply List.NoDup_map_inv. exact Hnd.
    + eapply List.NoDup_map_inv. exact Hnd'.
    + intros [g n]. rewrite Hmem, Hmem'.
      now rewrite (carrying_Permutation f g _ _ Hperm).
  - apply map_eq. intros g.
    destruct (String.eqb g EmptyString) eqn:Eg.
    + apply String.eqb_eq in Eg. subst g.
      destruct (py_dict table !! EmptyString) as [n|] eqn:E1.
      { apply py_dict_lookup_Some in E1. apply Ht in E1 as (Hg & _). congruence. }
      destruct (py_dict table' !! EmptyString) as [n|] eqn:E2; [|reflexivity].
      apply py_dict_lookup_Some in E2. apply Ht' in E2 as (Hg & _). congruence.
    + apply String.eqb_neq in Eg.
      rewrite (py_dict_frequency_table f tracks table g Ht Eg).
      rewrite (py_dict_frequency_table f tracks' table' g Ht' Eg).
      now rewrite (carrying_Permutation f g _ _ Hperm).
Qed.

(** X6.  The order in which the store returns a user's rows does not matter
    to the outcome: against two stores whose liked rows and whose disliked
    rows are permutations of each other, the profiles hold the same entries
    and totals (the tables are permutations of each other), every track gets
    the same score, and [personalize_tracks] returns the same list. *)
Theorem X6_row_order_irrelevant
  (session session' : AsyncSession) (user : User) (min_likes : Z)
  (liked liked' disliked disliked' : list TrackCache)
  (tracks : list Track) (w : World) :
  session_rows session (mkQuery (user_pk user) LIKE) = Returns liked ->
  session_rows session (mkQuery (user_pk user) DISLIKE) = Returns disliked ->
  session_rows session' (mkQuery (user_pk user) LIKE) = Returns liked' ->
  session_rows session' (mkQuery (user_pk user) DISLIKE) = Returns disliked' ->
  Permutation liked liked' -> Permutation disliked disliked' ->
  fst (PersonalizationService.personalize_tracks session tracks user min_likes w)
  = fst (PersonalizationService.personalize_tracks session' tracks user min_likes w)
  /\ (fst (PreferenceAnalyzer.analyze_preferences session (user_pk user) min_likes w)
      = Returns None
      <-> fst (PreferenceAnalyzer.analyze_preferences session' (user_pk user) min_likes w)
          = Returns None)
  /\ (forall p p',
        fst (PreferenceAnalyzer.analyze_preferences session (user_pk user) min_likes w)
          = Returns (Some p) ->
        fst (PreferenceAnalyzer.analyze_preferences session' (user_pk user) min_likes w)
          = Returns (Some p') ->
        Permutation (liked_genres p) (liked_genres p')
        /\ Permutation (liked_artists p) (liked_artists p')
        /\ Permutation (disliked_genres p) (disliked_genres p')
        /\ Permutation (disliked_artists p) (disliked_artists p')
        /\ total_likes p = total_likes p'
        /\ total_dislikes p = total_dislikes p'
        /\ forall t, PersonalizationService._score_track t p
                     = PersonalizationService._score_track t p').
Proof.
  intros Hl Hd Hl' Hd' Pl Pd.
  pose proof (Permutation_length Pl) as Ll.
  pose proof (Permutation_length Pd) as Ld.
  destruct (frequency_table_Permutation tc_primary_genre liked liked' _ _ Pl
              (most_common_Counter_frequency_table _ liked)
              (most_common_Counter_frequency_table _ liked')) as [Plg Dlg].
  destruct (frequency_table_Permutation tc_artist liked liked' _ _ Pl
              (most_common_Counter_frequency_table _ liked)
              (most_common_Counter_frequency_table _ liked')) as [Pla Dla].
  destruct (frequency_table_Permutation tc_primary_genre disliked disliked' _ _ Pd
              (most_common_Counter_frequency_table _ disliked)
              (most_common_Counter_frequency_table _ disliked')) as [Pdg Ddg].
  destruct (frequency_table_Permutation tc_artist disliked disliked' _ _ Pd
              (most_common_Counter_frequency_table _ disliked)
              (most_common_Counter_frequency_table _ disliked')) as [Pda Dda].
  assert (Hscore : forall t n1 n2 n3 n4,
    PersonalizationService._score_track t
      (mkUserPreferences
         (PreferenceAnalyzer._count_genres liked)
         (PreferenceAnalyzer._count_artists liked)
         (PreferenceAnalyzer._count_genres disliked)
         (PreferenceAnalyzer._count_artists disliked) n1 n2)
    = PersonalizationService._score_track t
        (mkUserPreferences
           (PreferenceAnalyzer._count_genres liked')
           (PreferenceAnalyzer._count_artists liked')
           (PreferenceAnalyzer._count_genres disliked')
           (PreferenceAnalyzer._count_artists disliked') n3 n4)).
  { intros t n1 n2 n3 n4. unfold PersonalizationService._score_track. simpl.
    unfold PreferenceAnalyzer._count_genres, PreferenceAnalyzer._count_artists.
    now rewrite Dlg, Dla, Ddg, Dda. }
  destruct (personalize_tracks_result session tracks user min_likes w) as (w1 & H1).
  destruct (personalize_tracks_result session' tracks user min_likes w) as (w2 & H2).
  rewrite H1, H2. clear H1 H2.
  rewrite (analyze_preferences_reads_ok _ _ _ _ _ w Hl Hd).
  rewrite (analyze_preferences_reads_ok _ _ _ _ _ w Hl' Hd').
  simpl. rewrite <- Ll, <- Ld.
  destruct (Z.of_nat (length liked) <? min_likes).
  - split; [reflexivity|]. split; [tauto|]. intros p p' Hp. discriminate.
  - split; [|split].
    + f_equal. apply sorted_reverse_ext. intros t. apply Hscore.
    + split; discriminate.
    + intros p p' [= <-] [= <-]. simpl.
      split; [exact Plg|]. split; [exact Pla|]. split; [exact Pdg|].
      split; [exact Pda|]. split; [reflexivity|]. split; [reflexivity|].
      intros t. apply Hscore.
Qed.

Lemma X6_row_order_irrelevant_witness :
  fst (PersonalizationService.personalize_tracks test_session
         candidate_tracks test_user 3 (fresh_world []))
  = fst (PersonalizationService.personalize_tracks
           (mkSession (fun q =>
              match q_status q with
              | LIKE => Returns [rock_song_2; rock_song_1; pop_song_1]
              | DISLIKE => Returns [jazz_song]
              end))
           candidate_tracks test_user 3 (fresh_world []))
  /\ (fst (PreferenceAnalyzer.analyze_preferences test_session
             (user_pk test_user) 3 (fresh_world [])) = Returns None
      <-> fst (PreferenceAnalyzer.analyze_preferences
                 (mkSession (fun q =>
                    match q_status q with
                    | LIKE => Returns [rock_song_2; rock_song_1; pop_song_1]
                    | DISLIKE => Returns [jazz_song]
                    end))
                 (user_pk test_user) 3 (fresh_world [])) = Returns None)
  /\ (forall p p',
        fst (PreferenceAnalyzer.analyze_preferences test_session
               (user_pk test_user) 3 (fresh_world [])) = Returns (Some p) ->
        fst (PreferenceAnalyzer.analyze_preferences
               (mkSession (fun q =>
                  match q_status q with
                  | LIKE => Returns [rock_song_2; rock_song_1; pop_song_1]
                  | DISLIKE => Returns [jazz_song]
                  end))
               (user_pk test_user) 3 (fresh_world [])) = Returns (Some p') ->
        Permutation (liked_genres p) (liked_genres p')
        /\ Permutation (liked_artists p) (liked_artists p')
        /\ Permutation (disliked_genres p) (disliked_genres p')
        /\ Permutation (disliked_artists p) (disliked_artists p')
        /\ total_likes p = total_likes p'
        /\ total_dislikes p = total_dislikes p'
        /\ forall t, PersonalizationService._score_track t p
                     = PersonalizationService._score_track t p').
Proof.
  apply (X6_row_order_irrelevant test_session _ test_user 3
           [rock_song_1; pop_song_1; rock_song_2]
           [rock_song_2; rock_song_1; pop_song_1]
           [jazz_song] [jazz_song] candidate_tracks (fresh_world []));
    try reflexivity.
  - apply Permutation_sym.
    exact (Permutation_cons_append [rock_song_1; pop_song_1] rock_song_2).
Defined.

(** X7.  One analysis reads the store at most twice, both times for the
    given user: the liked rows first and, unless that read failed, the
    disliked rows; it enters the trace once and takes no random draw. *)
Theorem X7_analyzer_reads
  (session : AsyncSession) (user_id : string) (min_likes : Z) (w : World) :
  exists r w',
    PreferenceAnalyzer.analyze_preferences session user_id min_likes w
      = (Returns r, w')
    /\ store_reads (trace w')
       = store_reads (trace w)
         ++ match session_rows session (mkQuery user_id LIKE) with
            | Returns _ => [mkQuery user_id LIKE; mkQuery user_id DISLIKE]
            | Raises _ => [mkQuery user_id LIKE]
            end
    /\ analyzer_entries (trace w')
       = analyzer_entries (trace w) ++ [(user_id, min_likes)]
    /\ rng w' = rng w.
Proof.
  unfold PreferenceAnalyzer.analyze_preferences,
    PreferenceAnalyzer.analyze_preferences_with. run.
  destruct (session_rows session (mkQuery user_id LIKE)) as [liked|e1];
    [destruct (session_rows session (mkQuery user_id DISLIKE)) as [disliked|e2];
     [destruct (Z.of_nat (length liked) <? min_likes)|]|];
    eexists _, _; (split; [reflexivity|]); simpl;
    unfold analyzer_entries, store_reads; rewrite !flat_map_app; simpl;
    rewrite ?app_nil_r, <- ?app_assoc; repeat split.
Qed.

Lemma descending_app_le {A} (key : A -> Z) l1 l2 x y :
  descending key (l1 ++ l2) -> In x l1 -> In y l2 -> key y <= key x.
Proof.
  unfold descending. induction l1 as [|a l1 IH]; simpl; intros Hs Hx Hy; [tauto|].
  apply StronglySorted_inv in Hs as [Hs Ha].
  destruct Hx as [->|Hx]; [|now apply IH].
  rewrite List.Forall_forall in Ha. apply Ha, in_or_app. now right.
Qed.

(** The first [limit] keys of a frequency table: distinct, as many as the
    table allows, and each carried by at least as many tracks as any value
    of the table left out. *)
Lemma frequency_table_top {A} (f : A -> option string) tracks table limit :
  frequency_table f tracks table ->
  List.NoDup (map fst (take limit table))
  /\ length (map fst (take limit table)) = Nat.min limit (length table)
  /\ (forall g g' n',
        In g (map fst (take limit table)) ->
        In (g', n') table -> ~ In g' (map fst (take limit table)) ->
        carrying f g' tracks <= carrying f g tracks)
  /\ (forall g, In g (map fst (take limit table)) ->
        g <> EmptyString /\ 0 < carrying f g tracks).
Proof.
  intros (Hmem & Hnd & Hdesc & _).
  rewrite <- (take_drop limit table) in Hnd, Hdesc.
  split; [|split; [|split]].
  - rewrite map_app in Hnd. now apply List.NoDup_app_remove_r in Hnd.
  - now rewrite length_map, length_take.
  - intros g g' n' Hg Hin' Hout.
    apply in_map_iff in Hg as ([g0 n] & Hfst & Hin). simpl in Hfst. subst g0.
    assert (Hdrop : In (g', n') (drop limit table)).
    { rewrite <- (take_drop limit table) in Hin'.
      apply in_app_or in Hin' as [Hin'|Hin']; [|exact Hin'].
      exfalso. apply Hout. apply in_map_iff. now exists (g', n'). }
    pose proof (descending_app_le snd _ _ _ _ Hdesc Hin Hdrop) as Hle.
    simpl in Hle.
    assert (Hn : In (g, n) table).
    { rewrite <- (take_drop limit table). apply in_or_app. now left. }
    apply Hmem in Hn as (_ & _ & ->). apply Hmem in Hin' as (_ & _ & ->).
    exact Hle.
  - intros g Hg.
    apply in_map_iff in Hg as ([g0 n] & Hfst & Hin). simpl in Hfst. subst g0.
    assert (Hn : In (g, n) table).
    { rewrite <- (take_drop limit table). apply in_or_app. now left. }
    apply Hmem in Hn as (Hne & Hpos & ->). auto.
Qed.

(** X8.  For a profile the analyzer returns, [get_top_genres] and
    [get_top_artists] list distinct non-empty values, [limit] of them or all
    the table has when it has fewer, and every value they list is carried by
    at least as many liked rows as any liked value they leave out. *)
Theorem X8_top_values_dominate
  (session : AsyncSession) (user_id : string) (min_likes : Z)
  (liked disliked : list TrackCache) (w w' : World) (p : UserPreferences)
  (limit : nat) :
  session_rows session (mkQuery user_id LIKE) = Returns liked ->
  session_rows session (mkQuery user_id DISLIKE) = Returns disliked ->
  PreferenceAnalyzer.analyze_preferences session user_id min_likes w
    = (Returns (Some p), w') ->
  (List.NoDup (get_top_genres p limit)
   /\ length (get_top_genres p limit) = Nat.min limit (length (liked_genres p))
   /\ (forall g g' n',
         In g (get_top_genres p limit) ->
         In (g', n') (liked_genres p) -> ~ In g' (get_top_genres p limit) ->
         carrying tc_primary_genre g' liked <= carrying tc_primary_genre g liked)
   /\ (forall g, In g (get_top_genres p limit) ->
         g <> EmptyString /\ 0 < carrying tc_primary_genre g liked))
  /\ (List.NoDup (get_top_artists p limit)
      /\ length (get_top_artists p limit) = Nat.min limit (length (liked_artists p))
      /\ (forall a a' n',
            In a (get_top_artists p limit) ->
            In (a', n') (liked_artists p) -> ~ In a' (get_top_artists p limit) ->
            carrying tc_artist a' liked <= carrying tc_artist a liked)
      /\ (forall a, In a (get_top_artists p limit) ->
            a <> EmptyString /\ 0 < carrying tc_artist a liked)).
Proof.
  intros Hl Hd Hrun.
  rewrite (analyze_preferences_reads_ok _ _ _ _ _ _ Hl Hd) in Hrun.
  destruct (Z.of_nat (length liked) <? min_likes); [discriminate|].
  inversion Hrun; subst; clear Hrun.
  unfold get_top_genres, get_top_artists. simpl. split.
  - apply frequency_table_top, most_common_Counter_frequency_table.
  - apply frequency_table_top, most_common_Counter_frequency_table.
Qed.

Lemma X8_top_values_dominate_witness :
  (List.NoDup (get_top_genres
                 (mkUserPreferences
                    [("Rock", 2); ("Pop", 1)] [("Rock Band", 2); ("Pop Artist", 1)]
                    [("Jazz", 1)] [("Jazz Artist", 1)] 3 1) 1)
   /\ length (get_top_genres
                (mkUserPreferences
                   [("Rock", 2); ("Pop", 1)] [("Rock Band", 2); ("Pop Artist", 1)]
                   [("Jazz", 1)] [("Jazz Artist", 1)] 3 1) 1)
      = Nat.min 1 (length [("Rock", 2); ("Pop", 1)])
   /\ (forall g g' n',
         In g ["Rock"] -> In (g', n') [("Rock", 2); ("Pop", 1)] -> ~ In g' ["Rock"] ->
         carrying tc_primary_genre g' [rock_song_1; pop_song_1; rock_song_2]
         <= carrying tc_primary_genre g [rock_song_1; pop_song_1; rock_song_2])
   /\ (forall g, In g ["Rock"] ->
         g <> EmptyString
         /\ 0 < carrying tc_primary_genre g [rock_song_1; pop_song_1; rock_song_2]))
  /\ (List.NoDup ["Rock Band"]
      /\ length ["Rock Band"] = Nat.min 1 (length [("Rock Band", 2); ("Pop Artist", 1)])
      /\ (forall a a' n',
            In a ["Rock Band"] ->
            In (a', n') [("Rock Band", 2); ("Pop Artist", 1)] -> ~ In a' ["Rock Band"] ->
            carrying tc_artist a' [rock_song_1; pop_song_1; rock_song_2]
            <= carrying tc_artist a [rock_song_1; pop_song_1; rock_song_2])
      /\ (forall a, In a ["Rock Band"] ->
            a <> EmptyString
            /\ 0 < carrying tc_artist a [rock_song_1; pop_song_1; rock_song_2])).
Proof.
  apply (X8_top_values_dominate test_session "test-user" 3
           [rock_song_1; pop_song_1; rock_song_2] [jazz_song] (fresh_world [])
           (mkWorld [EvAnalyze "test-user" 3;
                     EvExecute (mkQuery "test-user" LIKE);
                     EvExecute (mkQuery "test-user" DISLIKE);
                     EvLog INFO] [])
           (mkUserPreferences
              [("Rock", 2); ("Pop", 1)] [("Rock Band", 2); ("Pop Artist", 1)]
              [("Jazz", 1)] [("Jazz Artist", 1)] 3 1) 1);
    reflexivity.
Defined.

(** * Further properties of the preference search strategy *)

Lemma shapes_exclusive p params :
  (genre_shaped p params -> artist_shaped p params -> False)
  /\ (genre_shaped p params -> fallback_shaped params -> False)
  /\ (artist_shaped p params -> fallback_shaped params -> False).
Proof.
  repeat split; intros H1 H2;
    try apply genre_shaped_lookup in H1 as [_ H1];
    try apply artist_shaped_lookup in H1 as [_ H1];
    try apply artist_shaped_lookup in H2 as [_ H2];
    try apply fallback_shaped_lookup in H2 as [_ H2]; congruence.
Qed.

(** X9.  On an instance with a store handle and a user id, the profile held
    after a [generate_params] call decides the parameters together with the
    draw: none gives fallback parameters; otherwise a top-3 liked genre is
    sent exactly when the draw is below the threshold and there is a liked
    genre, a top-3 liked artist exactly when the genre was not sent and there
    is a liked artist, and fallback parameters exactly when the genre was not
    sent and there is no liked artist - so a profile with liked genres but
    no liked artist falls back on the draws at or above the threshold. *)
Theorem X9_generate_params_cases
  (self : UserPreferenceSearchStrategy.t) (w : World) :
  UserPreferenceSearchStrategy.session self <> None ->
  truthy (UserPreferenceSearchStrategy.user_id self) = true ->
  exists params self' w',
    UserPreferenceSearchStrategy.generate_params self w
      = (Returns (params, self'), w')
    /\ (UserPreferenceSearchStrategy._preferences self' = None ->
        fallback_shaped params)
    /\ (forall p,
        UserPreferenceSearchStrategy._preferences self' = Some p ->
        (genre_shaped p params
         <-> next_random w < float_0_7 /\ liked_genres p <> [])
        /\ (artist_shaped p params
            <-> (float_0_7 <= next_random w \/ liked_genres p = [])
                /\ liked_artists p <> [])
        /\ (fallback_shaped params
            <-> (float_0_7 <= next_random w \/ liked_genres p = [])
                /\ liked_artists p = [])).
Proof.
  intros Hs Hu.
  destruct (generate_params_identified self w Hs Hu)
    as (self1 & w1 & Heq & Hs1 & Hu1 & Hl1 & Hrng & _).
  assert (Hs1' : UserPreferenceSearchStrategy.session self1 <> None)
    by (rewrite Hs1; exact Hs).
  assert (Hu1' : truthy (UserPreferenceSearchStrategy.user_id self1) = true)
    by (rewrite Hu1; exact Hu).
  destruct (generate_params_with_cached PreferenceAnalyzer.analyze_preferences
              self1 w1 Hs1' Hu1' Hl1)
    as (params & w' & Hrun & _ & _ & Hnone & Hsome).
  assert (Hnext : next_random w1 = next_random w)
    by (unfold next_random; now rewrite Hrng).
  rewrite Hnext in Hsome.
  exists params, self1, w'. rewrite Heq. split; [exact Hrun|].
  split; [exact Hnone|]. intros p Hp.
  destruct (Hsome p Hp) as (Hgen & Hart & Hfb).
  destruct (shapes_exclusive p params) as (Hga & Hgf & Haf).
  assert (Hgd : liked_genres p = [] \/ liked_genres p <> [])
    by (destruct (liked_genres p); [left|right]; congruence).
  assert (Had : liked_artists p = [] \/ liked_artists p <> [])
    by (destruct (liked_artists p); [left|right]; congruence).
  destruct (Z.lt_ge_cases (next_random w) float_0_7) as [Hlt|Hge],
    Hgd as [Hg|Hg], Had as [Ha|Ha];
    try (pose proof (Hgen Hlt Hg) as Hshape);
    try (pose proof (Hart (or_introl Hge) Ha) as Hshape);
    try (pose proof (Hart (or_intror Hg) Ha) as Hshape);
    try (pose proof (Hfb (or_introl Hge) Ha) as Hshape);
    try (pose proof (Hfb (or_intror Hg) Ha) as Hshape);
    (split; [|split]); split;
    try (intros; exact Hshape);
    try (intros Hx; exfalso; eauto; fail);
    try (intros [[?|?] ?]; exfalso; (lia || congruence));
    try (intros [? ?]; exfalso; (lia || congruence));
    try (intros _; split; [auto|assumption]; fail);
    try (intros _; split; assumption).
Qed.

Lemma X9_generate_params_cases_witness :
  exists params self' w',
    UserPreferenceSearchStrategy.generate_params
      (UserPreferenceSearchStrategy.__init__ (Some genres_only_session) (Some "u"))
      (fresh_world [float_0_7; 0])
      = (Returns (params, self'), w')
    /\ (UserPreferenceSearchStrategy._preferences self' = None ->
        fallback_shaped params)
    /\ (forall p,
        UserPreferenceSearchStrategy._preferences self' = Some p ->
        (genre_shaped p params
         <-> next_random (fresh_world [float_0_7; 0]) < float_0_7
             /\ liked_genres p <> [])
        /\ (artist_shaped p params
            <-> (float_0_7 <= next_random (fresh_world [float_0_7; 0])
                 \/ liked_genres p = [])
                /\ liked_artists p <> [])
        /\ (fallback_shaped params
            <-> (float_0_7 <= next_random (fresh_world [float_0_7; 0])
                 \/ liked_genres p = [])
                /\ liked_artists p = [])).
Proof.
  apply (X9_generate_params_cases
           (UserPreferenceSearchStrategy.__init__ (Some genres_only_session) (Some "u"))
           (fresh_world [float_0_7; 0])).
  - discriminate.
  - reflexivity.
Defined.

Lemma random_choice_draws {A} (seq : list A) w :
  seq <> [] -> rng (snd (random_choice seq w)) = drop 1 (rng w).
Proof.
  intros Hne. destruct seq as [|x0 seq0]; [congruence|].
  unfold random_choice, bind, draw, ret. cbv beta iota.
  destruct (rng w) as [|r rs] eqn:E; simpl; rewrite ?E; reflexivity.
Qed.

Lemma _fallback_params_draws w :
  rng (snd (UserPreferenceSearchStrategy._fallback_params w)) = drop 1 (rng w).
Proof.
  unfold UserPreferenceSearchStrategy._fallback_params, bind.
  pose proof (random_choice_draws default_terms w) as Hd.
  unfold default_terms in Hd.
  destruct (random_choice _ w) as [[term|e] w1]; simpl in *; apply Hd; discriminate.
Qed.

Section MoreStrategyFacts.
Import UserPreferenceSearchStrategy.
Variable analyze : AsyncSession -> string -> Z -> M (option UserPreferences).

Lemma generate_params_with_anonymous_draws self w :
  session self = None \/ truthy (user_id self) = false ->
  rng (snd (generate_params_with analyze self w)) = drop 1 (rng w).
Proof.
  intros Hg. apply guard_anonymous in Hg.
  unfold generate_params_with. rewrite Hg.
  unfold bind at 1. unfold log, emit at 1. cbv beta iota.
  pose proof (_fallback_params_draws (mkWorld (trace w ++ [EvLog WARNING]) (rng w)))
    as Hd.
  unfold bind.
  destruct (_fallback_params _) as [[params|e] w1]; simpl in *; exact Hd.
Qed.

Lemma invoke_n_with_anonymous n self w :
  session self = None \/ truthy (user_id self) = false ->
  exists ps w',
    invoke_n_with analyze n self w = (Returns (ps, self), w')
    /\ length ps = n
    /\ List.Forall fallback_shaped ps
    /\ analyzer_entries (trace w') = analyzer_entries (trace w)
    /\ store_reads (trace w') = store_reads (trace w)
    /\ rng w' = drop n (rng w).
Proof.
  intros Hg. revert w. induction n as [|n IH]; intros w.
  - exists [], w. unfold invoke_n_with, ret. repeat split; auto.
  - destruct (generate_params_with_anonymous analyze self w Hg)
      as (params & w1 & Hrun & Hshape & Hae & Hsr).
    pose proof (generate_params_with_anonymous_draws self w Hg) as Hd.
    rewrite Hrun in Hd. simpl in Hd.
    destruct (IH w1) as (ps & w' & Hrest & Hlen & Hall & Hae' & Hsr' & Hrng).
    exists (params :: ps), w'. simpl. unfold bind. rewrite Hrun. simpl.
    rewrite Hrest. unfold ret. simpl.
    split; [reflexivity|]. split; [congruence|]. split; [now constructor|].
    split; [congruence|]. split; [congruence|].
    rewrite Hrng, Hd. destruct (rng w); [now rewrite !drop_nil|reflexivity].
Qed.

Lemma invoke_n_with_cached_Forall (P : gmap string string -> Prop) n self w :
  session self <> None -> truthy (user_id self) = true ->
  _preferences_loaded self = true ->
  (forall w0 params w1,
     generate_params_with analyze self w0 = (Returns (params, self), w1) ->
     P params) ->
  exists ps w',
    invoke_n_with analyze n self w = (Returns (ps, self), w')
    /\ length ps = n /\ List.Forall P ps.
Proof.
  intros Hs Hu Hl HP. revert w. induction n as [|n IH]; intros w.
  - exists [], w. unfold invoke_n_with, ret. repeat split; auto.
  - destruct (generate_params_with_cached analyze self w Hs Hu Hl)
      as (params & w1 & Hrun & _).
    destruct (IH w1) as (ps & w' & Hrest & Hlen & Hall).
    exists (params :: ps), w'. simpl. unfold bind. rewrite Hrun. simpl.
    rewrite Hrest. unfold ret. simpl.
    split; [reflexivity|]. split; [congruence|].
    constructor; [eapply HP; exact Hrun|exact Hall].
Qed.

End MoreStrategyFacts.

(** X10.  On an instance without a store handle or without a user id, any
    number of [generate_params] calls return fallback parameters, leave the
    instance as it is, never enter the analyzer, never read the store, and
    take exactly one random draw each. *)
Theorem X10_anonymous_calls
  (self : UserPreferenceSearchStrategy.t) (n : nat) (w : World) :
  UserPreferenceSearchStrategy.session self = None
  \/ truthy (UserPreferenceSearchStrategy.user_id self) = false ->
  exists ps w',
    UserPreferenceSearchStrategy.invoke_n n self w = (Returns (ps, self), w')
    /\ length ps = n
    /\ List.Forall fallback_shaped ps
    /\ analyzer_entries (trace w') = analyzer_entries (trace w)
    /\ store_reads (trace w') = store_reads (trace w)
    /\ rng w' = drop n (rng w).
Proof. apply invoke_n_with_anonymous. Qed.

Lemma X10_anonymous_calls_witness :
  exists ps w',
    UserPreferenceSearchStrategy.invoke_n 2
      (UserPreferenceSearchStrategy.__init__ (Some test_session) (Some EmptyString))
      (fresh_world [3; 4; 5])
    = (Returns (ps, UserPreferenceSearchStrategy.__init__
                      (Some test_session) (Some EmptyString)), w')
    /\ length ps = 2%nat
    /\ List.Forall fallback_shaped ps
    /\ analyzer_entries (trace w') = analyzer_entries (trace (fresh_world [3; 4; 5]))
    /\ store_reads (trace w') = store_reads (trace (fresh_world [3; 4; 5]))
    /\ rng w' = drop 2 (rng (fresh_world [3; 4; 5])).
Proof.
  apply (X10_anonymous_calls
           (UserPreferenceSearchStrategy.__init__ (Some test_session) (Some EmptyString))
           2 (fresh_world [3; 4; 5])).
  right. reflexivity.
Defined.

Lemma In_take {B} (x : B) n l : In x (take n l) -> In x l.
Proof.
  intros H. rewrite <- (take_drop n l). apply in_or_app. now left.
Qed.

Lemma fallback_shaped_usable params : fallback_shaped params -> usable_params params.
Proof.
  intros (term & Hin & ->). unfold usable_params.
  split; [|split; [|split]].
  - exists term. split; [reflexivity|].
    repeat (destruct Hin as [<-|Hin]; [discriminate|]). destruct Hin.
  - reflexivity.
  - left. reflexivity.
  - rewrite dom_insert_L, dom_singleton_L. intros x.
    rewrite !elem_of_union, !elem_of_singleton. tauto.
Qed.

Lemma genre_shaped_usable p params :
  (forall g n, In (g, n) (liked_genres p) -> g <> EmptyString) ->
  genre_shaped p params -> usable_params params.
Proof.
  intros Hkeys (g & Hin & ->). unfold usable_params.
  split; [|split; [|split]].
  - exists g. split; [reflexivity|].
    unfold get_top_genres in Hin. apply in_map_iff in Hin as ([g0 n] & <- & Hin).
    apply In_take in Hin. exact (Hkeys _ _ Hin).
  - reflexivity.
  - right. left. reflexivity.
  - rewrite !dom_insert_L, dom_singleton_L. intros x.
    rewrite !elem_of_union, !elem_of_singleton. tauto.
Qed.

Lemma artist_shaped_usable p params :
  (forall a n, In (a, n) (liked_artists p) -> a <> EmptyString) ->
  artist_shaped p params -> usable_params params.
Proof.
  intros Hkeys (a & Hin & ->). unfold usable_params.
  split; [|split; [|split]].
  - exists a. split; [reflexivity|].
    unfold get_top_artists in Hin. apply in_map_iff in Hin as ([a0 n] & <- & Hin).
    apply In_take in Hin. exact (Hkeys _ _ Hin).
  - reflexivity.
  - right. right. reflexivity.
  - rewrite !dom_insert_L, dom_singleton_L. intros x.
    rewrite !elem_of_union, !elem_of_singleton. tauto.
Qed.

(** The keys of the liked tables of any profile the analyzer returns are
    non-empty, whatever the store does. *)
Lemma analyze_preferences_keys session user_id min_likes w p w' :
  PreferenceAnalyzer.analyze_preferences session user_id min_likes w
    = (Returns (Some p), w') ->
  forall g n,
    In (g, n) (liked_genres p) \/ In (g, n) (liked_artists p) ->
    g <> EmptyString.
Proof.
  intros Hrun g n Hin.
  destruct (analyze_preferences_entry session user_id min_likes w)
    as (r & w1 & Ha & _ & _ & Hlike & Hdislike).
  rewrite Ha in Hrun. inversion Hrun; subst r w1. clear Hrun.
  destruct (session_rows session (mkQuery user_id LIKE)) as [liked|e1] eqn:El;
    [|now specialize (Hlike e1 eq_refl)].
  destruct (session_rows session (mkQuery user_id DISLIKE)) as [disliked|e2] eqn:Ed;
    [|now specialize (Hdislike e2 eq_refl)].
  rewrite (analyze_preferences_reads_ok _ _ _ _ _ _ El Ed) in Ha.
  destruct (Z.of_nat (length liked) <? min_likes); [discriminate|].
  inversion Ha; subst; simpl in Hin.
  destruct Hin as [Hin|Hin];
    eapply frequency_table_entry; try exact Hin;
    apply most_common_Counter_frequency_table.
Qed.

Lemma generate_params_cached_usable self w params w' :
  UserPreferenceSearchStrategy.session self <> None ->
  truthy (UserPreferenceSearchStrategy.user_id self) = true ->
  UserPreferenceSearchStrategy._preferences_loaded self = true ->
  (forall p, UserPreferenceSearchStrategy._preferences self = Some p ->
     forall g n, In (g, n) (liked_genres p) \/ In (g, n) (liked_artists p) ->
                 g <> EmptyString) ->
  UserPreferenceSearchStrategy.generate_params_with
    PreferenceAnalyzer.analyze_preferences self w = (Returns (params, self), w') ->
  usable_params params.
Proof.
  intros Hs Hu Hl Hkeys Hrun.
  destruct (generate_params_with_cached PreferenceAnalyzer.analyze_preferences
              self w Hs Hu Hl) as (params' & w'' & Hrun' & _ & _ & Hnone & Hsome).
  rewrite Hrun in Hrun'. inversion Hrun'; subst params' w''. clear Hrun'.
  destruct (UserPreferenceSearchStrategy._preferences self) as [p|] eqn:Ep;
    [|now apply fallback_shaped_usable, Hnone].
  destruct (Hsome p eq_refl) as (Hgen & Hart & Hfb).
  assert (Hgd : liked_genres p = [] \/ liked_genres p <> [])
    by (destruct (liked_genres p); [left|right]; congruence).
  assert (Had : liked_artists p = [] \/ liked_artists p <> [])
    by (destruct (liked_artists p); [left|right]; congruence).
  destruct (Z.lt_ge_cases (next_random w) float_0_7) as [Hlt|Hge],
    Hgd as [Hg|Hg], Had as [Ha|Ha];
    first
      [ apply fallback_shaped_usable; apply Hfb; auto; fail
      | apply (genre_shaped_usable p);
          [intros g n Hin; apply (Hkeys p eq_refl g n); auto
          |apply Hgen; assumption]
      | apply (artist_shaped_usable p);
          [intros g n Hin; apply (Hkeys p eq_refl g n); auto
          |apply Hart; auto] ].
Qed.

(** X11.  Whatever the arguments an instance is built with and whatever the
    store holds or does, every call on it returns parameters with a
    non-empty term, the entity "song", no key besides [term], [entity] and
    [attribute], and as attribute nothing, "genreIndex" or "artistTerm". *)
Theorem X11_params_always_usable
  (session : option AsyncSession) (user_id : option string)
  (n : nat) (w : World) :
  exists ps self' w',
    UserPreferenceSearchStrategy.invoke_n n
      (UserPreferenceSearchStrategy.__init__ session user_id) w
    = (Returns (ps, self'), w')
    /\ length ps = n
    /\ List.Forall usable_params ps.
Proof.
  set (self0 := UserPreferenceSearchStrategy.__init__ session user_id).
  destruct session as [sess|]; [destruct (truthy user_id) eqn:Eu|].
  - destruct n as [|n].
    { exists [], self0, w. repeat split; constructor. }
    destruct (truthy_Some _ Eu) as (uid & -> & Hne).
    destruct (analyze_preferences_entry sess uid 3 w)
      as (r & wA & Ha & _).
    set (self1 := UserPreferenceSearchStrategy.mk (Some sess) (Some uid) r true).
    assert (Hfirst :
      UserPreferenceSearchStrategy.generate_params_with
        PreferenceAnalyzer.analyze_preferences self0 w
      = UserPreferenceSearchStrategy.generate_params_with
          PreferenceAnalyzer.analyze_preferences self1 wA).
    { rewrite (generate_params_with_first _ self0 sess uid w
                 eq_refl eq_refl Hne eq_refl).
      rewrite Ha. reflexivity. }
    assert (Hs1 : UserPreferenceSearchStrategy.session self1 <> None)
      by discriminate.
    assert (Hkeys : forall p,
      UserPreferenceSearchStrategy._preferences self1 = Some p ->
      forall g k, In (g, k) (liked_genres p) \/ In (g, k) (liked_artists p) ->
                  g <> EmptyString).
    { intros p Hp. simpl in Hp. subst r.
      exact (analyze_preferences_keys sess uid 3 w p wA Ha). }
    destruct (generate_params_with_cached PreferenceAnalyzer.analyze_preferences
                self1 wA Hs1 Eu eq_refl) as (params1 & w1 & Hrun & _).
    destruct (invoke_n_with_cached_Forall PreferenceAnalyzer.analyze_preferences
                usable_params n self1 w1 Hs1 Eu eq_refl)
      as (rest & w' & Hrest & Hlen & Hall).
    { intros w0 params w2 Hrun0.
      exact (generate_params_cached_usable self1 w0 params w2
               Hs1 Eu eq_refl Hkeys Hrun0). }
    exists (params1 :: rest), self1, w'.
    split.
    { unfold UserPreferenceSearchStrategy.invoke_n. simpl. unfold bind at 1.
      rewrite Hfirst, Hrun. simpl. unfold bind.
      unfold UserPreferenceSearchStrategy.invoke_n in Hrest.
      rewrite Hrest. reflexivity. }
    split; [simpl; congruence|].
    constructor; [|exact Hall].
    exact (generate_params_cached_usable self1 wA params1 w1
             Hs1 Eu eq_refl Hkeys Hrun).
  - destruct (invoke_n_with_anonymous PreferenceAnalyzer.analyze_preferences
                n self0 w (or_intror Eu))
      as (ps & w' & Hrun & Hlen & Hall & _).
    exists ps, self0, w'. split; [exact Hrun|]. split; [exact Hlen|].
    eapply List.Forall_impl; [|exact Hall]. apply fallback_shaped_usable.
  - destruct (invoke_n_with_anonymous PreferenceAnalyzer.analyze_preferences
                n self0 w (or_introl eq_refl))
      as (ps & w' & Hrun & Hlen & Hall & _).
    exists ps, self0, w'. split; [exact Hrun|]. split; [exact Hlen|].
    eapply List.Forall_impl; [|exact Hall]. apply fallback_shaped_usable.
Qed.

(** * Further properties of the strategy registry *)

Lemma find_first {B} (f : B -> bool) l x :
  List.find f l = Some x
  <-> exists before after,
        l = before ++ x :: after
        /\ List.Forall (fun y => f y = false) before /\ f x = true.
Proof.
  induction l as [|y l IH]; simpl.
  - split; [discriminate|]. intros (before & after & H & _).
    destruct before; discriminate.
  - destruct (f y) eqn:E.
    + split.
      * intros [= <-]. exists [], l. repeat split; auto.
      * intros (before & after & H & Hall & Hx).
        destruct before as [|b before]; simpl in H; inversion H; subst; auto.
        apply List.Forall_inv in Hall. congruence.
    + rewrite IH. split.
      * intros (before & after & -> & Hall & Hx).
        exists (y :: before), after. repeat split; auto.
      * intros (before & after & H & Hall & Hx).
        destruct before as [|b before]; simpl in H; inversion H; subst.
        -- congruence.
        -- exists before, after. repeat split; auto.
           now apply List.Forall_inv_tail in Hall.
Qed.

(** X12.  For a name other than the two special ones, [get_strategy]
    returns a strategy exactly when the module loads, holds a qualifying
    class, and the first such class in the module's namespace constructs
    without arguments; the strategy is an instance of that first class, even
    if further qualifying classes follow, and the keyword arguments given do
    not reach it: the call behaves the same with any keyword arguments. *)
Theorem X12_dynamic_discovery
  (import_module : search_strategies.Importer)
  (strategy_name : string) (kwargs : search_strategies.Kwargs) :
  strategy_name <> "chart_keyword" ->
  strategy_name <> "user_preference_search" ->
  (forall s,
     search_strategies.get_strategy import_module strategy_name kwargs = Returns s
     <-> exists before obj after,
           import_module ("app.services.search_strategies." +:+ strategy_name)
             = Returns (before ++ obj :: after)
           /\ List.Forall (fun o => search_strategies.qualifies o = false) before
           /\ search_strategies.qualifies obj = true
           /\ search_strategies.obj_call obj = None
           /\ s = search_strategies.Discovered (search_strategies.obj_name obj))
  /\ (forall kwargs',
        search_strategies.get_strategy import_module strategy_name kwargs'
        = search_strategies.get_strategy import_module strategy_name kwargs).
Proof.
  intros Hc Hu. apply String.eqb_neq in Hc, Hu.
  unfold search_strategies.get_strategy. rewrite Hc, Hu.
  split; [|reflexivity].
  intros s.
  destruct (import_module _) as [objs|e] eqn:Ei.
  - destruct (List.find search_strategies.qualifies objs) as [obj|] eqn:Ef.
    + pose proof (proj1 (find_first _ _ _) Ef) as (before & after & -> & Hall & Hq).
      destruct (search_strategies.obj_call obj) as [e|] eqn:Ec.
      * split.
        -- destruct (is_ImportError_or_AttributeError e); discriminate.
        -- intros (before' & obj' & after' & [= Heq] & Hall' & Hq' & Hc' & _).
           assert (Hf : List.find search_strategies.qualifies
                          (before' ++ obj' :: after') = Some obj').
           { apply find_first. eauto. }
           rewrite <- Heq, Ef in Hf. congruence.
      * split.
        -- intros [= <-]. exists before, obj, after. auto.
        -- intros (before' & obj' & after' & [= Heq] & Hall' & Hq' & Hc' & ->).
           assert (Hf : List.find search_strategies.qualifies
                          (before' ++ obj' :: after') = Some obj').
           { apply find_first. eauto. }
           rewrite <- Heq, Ef in Hf. congruence.
    + split; [discriminate|].
      intros (before' & obj' & after' & [= Heq] & Hall' & Hq' & _).
      assert (Hf : List.find search_strategies.qualifies
                     (before' ++ obj' :: after') = Some obj').
      { apply find_first. eauto. }
      rewrite <- Heq, Ef in Hf. discriminate.
  - split.
    + destruct (is_ImportError_or_AttributeError e); discriminate.
    + intros (before' & obj' & after' & Heq & _). discriminate.
Qed.

Lemma X12_dynamic_discovery_witness :
  (forall s,
     search_strategies.get_strategy no_modules "lyrics_search" no_kwargs = Returns s
     <-> exists before obj after,
           no_modules ("app.services.search_strategies." +:+ "lyrics_search")
             = Returns (before ++ obj :: after)
           /\ List.Forall (fun o => search_strategies.qualifies o = false) before
           /\ search_strategies.qualifies obj = true
           /\ search_strategies.obj_call obj = None
           /\ s = search_strategies.Discovered (search_strategies.obj_name obj))
  /\ (forall kwargs',
        search_strategies.get_strategy no_modules "lyrics_search" kwargs'
        = search_strategies.get_strategy no_modules "lyrics_search" no_kwargs).
Proof.
  apply (X12_dynamic_discovery no_modules "lyrics_search" no_kwargs);
    discriminate.
Defined.

Lemma list_strategies_filter iter_modules :
  list_strategies iter_modules
  = map fst (List.filter
               (fun entry => negb entry.2 && negb (String.eqb entry.1 "base"))
               iter_modules).
Proof.
  unfold list_strategies.
  induction iter_modules as [|entry l IH] using rev_ind; [reflexivity|].
  rewrite foldl_snoc, IH, List.filter_app, map_app. simpl.
  destruct (negb entry.2 && negb (String.eqb entry.1 "base"));
    simpl; now rewrite ?app_nil_r.
Qed.

(** X13.  [list_strategies] lists exactly the names of the entries of the
    package directory that are modules, not packages, and are not named
    "base"; it keeps the order of the directory listing, and lists no name
    twice when the directory does not. *)
Theorem X13_list_strategies (iter_modules more : list (string * bool)) :
  (forall name,
     In name (list_strategies iter_modules)
     <-> In (name, false) iter_modules /\ name <> "base")
  /\ list_strategies (iter_modules ++ more)
     = list_strategies iter_modules ++ list_strategies more
  /\ (List.NoDup (map fst iter_modules) ->
      List.NoDup (list_strategies iter_modules)).
Proof.
  rewrite !list_strategies_filter. split; [|split].
  - intros name. rewrite in_map_iff. split.
    + intros ([n is_pkg] & <- & Hin). apply filter_In in Hin as [Hin Hf].
      simpl in *. apply andb_prop in Hf as [Hp Hb].
      destruct is_pkg; [discriminate|]. split; [exact Hin|].
      apply String.eqb_neq. now destruct (String.eqb n "base").
    + intros [Hin Hne]. exists (name, false). split; [reflexivity|].
      apply filter_In. split; [exact Hin|]. simpl.
      apply String.eqb_neq in Hne. now rewrite Hne.
  - now rewrite List.filter_app, map_app.
  - intros Hnd. induction iter_modules as [|entry l IH]; simpl; [constructor|].
    simpl in Hnd. apply List.NoDup_cons_iff in Hnd as [Hout Hnd].
    destruct (negb entry.2 && negb (String.eqb entry.1 "base")); simpl;
      [|now apply IH].
    constructor; [|now apply IH].
    intros Hin. apply Hout. apply in_map_iff in Hin as (e & He & Hin).
    apply filter_In in Hin as [Hin _]. apply in_map_iff. now exists e.
Qed.

(** * Properties of the authentication dependencies *)

Section DepsFacts.
Variable UUIDt : Type.
Variable UUID : string -> option UUIDt.
Variable decode_access_token : string -> option (gmap string string).
Variable get_by_id : AsyncSession -> UUIDt -> Outcome (option User).

Local Abbreviation _get_user_from_token :=
  (deps._get_user_from_token UUIDt UUID decode_access_token get_by_id).
Local Abbreviation get_current_user :=
  (deps.get_current_user UUIDt UUID decode_access_token get_by_id).
Local Abbreviation get_current_active_user :=
  (deps.get_current_active_user UUIDt UUID decode_access_token get_by_id).
Local Abbreviation get_optional_user :=
  (deps.get_optional_user UUIDt UUID decode_access_token get_by_id).

Lemma _get_user_from_token_rejections token session h :
  _get_user_from_token token session = HTTPError h ->
  status_code h = 401
  /\ headers h = Some [("WWW-Authenticate", "Bearer")]
  /\ In (detail h)
       ["Could not validate credentials"; "Invalid token payload";
        "Invalid token subject"; "User not found"].
Proof.
  unfold deps._get_user_from_token.
  destruct (decode_access_token token) as [payload|];
    [destruct (payload !! "sub") as [sub|];
     [destruct (UUID sub) as [user_uuid|];
      [destruct (get_by_id session user_uuid) as [[found|]|e0]|]|]|];
    intros [= <-]; simpl; repeat split; tauto.
Qed.

(** X14.  Every rejection by [_get_user_from_token] is a 401 carrying the
    header [WWW-Authenticate: Bearer]; the user it returns is the one the
    store holds under the UUID in the token's [sub] claim; and the store is
    read only for a token that decodes and has a well-formed [sub], so an
    error other than an [HTTPException] can only come from that read. *)
Theorem X14_token_resolution (token : string) (session : AsyncSession) :
  (forall h,
     _get_user_from_token token session = HTTPError h ->
     status_code h = 401
     /\ headers h = Some [("WWW-Authenticate", "Bearer")]
     /\ In (detail h)
          ["Could not validate credentials"; "Invalid token payload";
           "Invalid token subject"; "User not found"])
  /\ (forall user,
        _get_user_from_token token session = Done user
        <-> exists payload sub user_uuid,
              decode_access_token token = Some payload
              /\ payload !! "sub" = Some sub
              /\ UUID sub = Some user_uuid
              /\ get_by_id session user_uuid = Returns (Some user))
  /\ (forall e,
        _get_user_from_token token session = OtherError e
        <-> exists payload sub user_uuid,
              decode_access_token token = Some payload
              /\ payload !! "sub" = Some sub
              /\ UUID sub = Some user_uuid
              /\ get_by_id session user_uuid = Raises e).
Proof.
  split; [intros h; apply _get_user_from_token_rejections|].
  unfold deps._get_user_from_token.
  destruct (decode_access_token token) as [payload|] eqn:Ed.
  2:{ split; intros x; (split; [discriminate|]);
        intros (? & ? & ? & ? & _); discriminate. }
  destruct (payload !! "sub") as [sub|] eqn:Es.
  2:{ split; intros x; (split; [discriminate|]);
        intros (? & ? & ? & [= <-] & ? & _); congruence. }
  destruct (UUID sub) as [user_uuid|] eqn:Eu.
  2:{ split; intros x; (split; [discriminate|]);
        intros (? & ? & ? & [= <-] & Hs & Hu & _); congruence. }
  assert (Hinv : forall r,
    (exists payload0 sub0 user_uuid0,
       Some payload = Some payload0 /\ payload0 !! "sub" = Some sub0
       /\ UUID sub0 = Some user_uuid0 /\ get_by_id session user_uuid0 = r)
    <-> get_by_id session user_uuid = r).
  { intros r. split.
    - intros (? & ? & ? & [= <-] & Hs & Hu & Hg).
      rewrite Es in Hs. injection Hs as <-. rewrite Eu in Hu.
      now injection Hu as <-.
    - intros Hg. eauto 8. }
  split; intros x; rewrite Hinv;
    destruct (get_by_id session user_uuid) as [[found|]|e0];
    split; congruence.
Qed.

(** X15.  [get_optional_user] never raises an [HTTPException]: it returns
    the user exactly when [get_current_user] returns that user, returns no
    user exactly when [get_current_user] rejects the request, and lets
    through exactly the other errors [get_current_user] lets through. *)
Theorem X15_optional_user (token : option string) (session : AsyncSession) :
  (forall h, get_optional_user token session <> HTTPError h)
  /\ (forall user,
        get_optional_user token session = Done (Some user)
        <-> get_current_user token session = Done user)
  /\ (get_optional_user token session = Done None
      <-> exists h, get_current_user token session = HTTPError h)
  /\ (forall e,
        get_optional_user token session = OtherError e
        <-> get_current_user token session = OtherError e).
Proof.
  unfold deps.get_optional_user, deps.get_current_user.
  destruct (truthy token); simpl.
  - destruct (_get_user_from_token (default EmptyString token) session)
      as [user|h|e].
    + repeat split; try discriminate; try congruence.
      intros [h Hh]. discriminate.
    + repeat split; try discriminate; try congruence. eauto.
    + repeat split; try discriminate; try congruence.
      intros [h Hh]. discriminate.
  - repeat split; try discriminate; try congruence. eauto.
Qed.

(** X16.  [get_current_active_user] accepts every request
    [get_current_user] accepts, with the same user; a non-empty bearer token
    takes precedence over the [access_token] query parameter, which is used
    only when the bearer token is missing or empty; and the request is
    rejected as "Not authenticated" exactly when both are missing or
    empty. *)
Theorem X16_active_user
  (query_params : gmap string string) (token : option string)
  (session : AsyncSession) :
  (forall user,
     get_current_user token session = Done user ->
     get_current_active_user query_params token session = Done user)
  /\ (truthy token = true ->
      get_current_active_user query_params token session
      = get_current_user token session)
  /\ (truthy token = false ->
      get_current_active_user query_params token session
      = get_current_user (query_params !! "access_token") session)
  /\ (get_current_active_user query_params token session
        = HTTPError (deps.unauthorized "Not authenticated")
      <-> truthy token = false
          /\ truthy (query_params !! "access_token") = false).
Proof.
  assert (Hnot : forall t,
    _get_user_from_token t session
    <> HTTPError (deps.unauthorized "Not authenticated")).
  { intros t H. apply _get_user_from_token_rejections in H as (_ & _ & Hd).
    simpl in Hd. repeat (destruct Hd as [Hd|Hd]; [discriminate|]). exact Hd. }
  unfold deps.get_current_active_user, deps.get_current_user.
  destruct (truthy token) eqn:Et; simpl.
  - rewrite Et. simpl.
    split; [auto|]. split; [auto|]. split; [discriminate|].
    split; [intros H0; now apply Hnot in H0|intros [? _]; discriminate].
  - split; [discriminate|]. split; [discriminate|]. split; [auto|].
    destruct (truthy (query_params !! "access_token")); simpl.
    + split; [intros H0; now apply Hnot in H0|intros [_ ?]; discriminate].
    + split; auto.
Qed.

End DepsFacts.

(** * Properties of the request handling in main.py *)

(** ** Text functions *)

Lemma lstrip_decomp s :
  exists ws, s = ws ++ lstrip s /\ List.Forall (fun c => isspace c = true) ws.
Proof.
  induction s as [|c s (ws & Hs & Hws)]; simpl.
  - exists []. split; [reflexivity|constructor].
  - destruct (isspace c) eqn:E.
    + exists (c :: ws). split; [simpl; congruence|now constructor].
    + exists []. split; [reflexivity|constructor].
Qed.

Lemma lstrip_head s c : head (lstrip s) = Some c -> isspace c = false.
Proof.
  induction s as [|c0 s IH]; simpl; [discriminate|].
  destruct (isspace c0) eqn:E; [exact IH|]. simpl. congruence.
Qed.

Lemma lstrip_fixed s :
  (forall c, head s = Some c -> isspace c = false) -> lstrip s = s.
Proof.
  destruct s as [|c s]; simpl; [reflexivity|].
  intros H. now rewrite (H c eq_refl).
Qed.

Lemma last_rev_head {B} (l : list B) : last (rev l) = head l.
Proof. destruct l as [|x l]; [reflexivity|]. simpl. apply last_snoc. Qed.

Lemma head_rev_last {B} (l : list B) : head (rev l) = last l.
Proof. rewrite <- (rev_involutive l) at 2. now rewrite last_rev_head. Qed.

Lemma rstrip_decomp s :
  exists ws, s = rstrip s ++ ws /\ List.Forall (fun c => isspace c = true) ws.
Proof.
  unfold rstrip. destruct (lstrip_decomp (rev s)) as (ws & Hs & Hws).
  exists (rev ws). split.
  - rewrite <- rev_app_distr, <- Hs. now rewrite rev_involutive.
  - now apply List.Forall_rev.
Qed.

Lemma rstrip_last s c : last (rstrip s) = Some c -> isspace c = false.
Proof. unfold rstrip. rewrite last_rev_head. apply lstrip_head. Qed.

Lemma rstrip_fixed s :
  (forall c, last s = Some c -> isspace c = false) -> rstrip s = s.
Proof.
  intros H. unfold rstrip. rewrite lstrip_fixed; [apply rev_involutive|].
  intros c. rewrite head_rev_last. apply H.
Qed.

(** A stripped text neither starts nor ends with whitespace, and is a part
    of the text it was stripped from. *)
Lemma strip_ends s :
  (forall c, head (strip s) = Some c -> isspace c = false)
  /\ (forall c, last (strip s) = Some c -> isspace c = false)
  /\ (forall c, In c (strip s) -> In c s).
Proof.
  unfold strip.
  destruct (rstrip_decomp (lstrip s)) as (ws & Hr & _).
  destruct (lstrip_decomp s) as (ws' & Hl & _).
  split; [|split].
  - intros c Hc. apply (lstrip_head s).
    rewrite Hr. destruct (rstrip (lstrip s)); [discriminate|exact Hc].
  - apply rstrip_last.
  - intros c Hin. rewrite Hl. apply in_or_app. right.
    rewrite Hr. apply in_or_app. now left.
Qed.

Lemma strip_fixed s :
  (forall c, head s = Some c -> isspace c = false) ->
  (forall c, last s = Some c -> isspace c = false) ->
  strip s = s.
Proof.
  intros Hh Hl. unfold strip. rewrite (lstrip_fixed s Hh). now apply rstrip_fixed.
Qed.

Lemma strip_idempotent s : strip (strip s) = strip s.
Proof. destruct (strip_ends s) as (Hh & Hl & _). now apply strip_fixed. Qed.

Lemma split_nonempty sep s : split sep s <> [].
Proof.
  destruct s as [|c s]; simpl; [discriminate|].
  destruct (c =? sep)%N; [discriminate|].
  destruct (split sep s); discriminate.
Qed.

Lemma split_pieces sep s :
  List.Forall (fun piece => ~ In sep piece) (split sep s).
Proof.
  induction s as [|c s IH]; simpl.
  - constructor; [tauto|constructor].
  - destruct (c =? sep)%N eqn:E.
    + constructor; [tauto|exact IH].
    + apply N.eqb_neq in E.
      destruct (split sep s) as [|piece pieces].
      * constructor; [|constructor]. intros [?|[]]. congruence.
      * apply List.Forall_cons_iff in IH as [Hp Hps]. constructor; [|exact Hps].
        intros [?|?]; [congruence|tauto].
Qed.

Lemma join_cons sep piece pieces :
  pieces <> [] -> join sep (piece :: pieces) = piece ++ sep :: join sep pieces.
Proof. destruct pieces; [congruence|reflexivity]. Qed.

(** Joining what [split] gave restores the text. *)
Lemma join_split sep s : join sep (split sep s) = s.
Proof.
  induction s as [|c s IH]; simpl; [reflexivity|].
  destruct (c =? sep)%N eqn:E.
  - apply N.eqb_eq in E. subst c.
    rewrite join_cons by apply split_nonempty. simpl. now rewrite IH.
  - pose proof (split_nonempty sep s) as Hne.
    destruct (split sep s) as [|piece pieces]; [congruence|].
    destruct pieces as [|p ps]; simpl in *; now rewrite <- IH.
Qed.

Lemma split_sep_free sep piece :
  ~ In sep piece -> split sep piece = [piece].
Proof.
  induction piece as [|c piece IH]; simpl; intros H; [reflexivity|].
  destruct (c =? sep)%N eqn:E.
  - apply N.eqb_eq in E. tauto.
  - rewrite IH by tauto. reflexivity.
Qed.

Lemma split_app_sep sep piece rest :
  ~ In sep piece ->
  split sep (piece ++ sep :: rest) = piece :: split sep rest.
Proof.
  induction piece as [|c piece IH]; simpl; intros H.
  - now rewrite N.eqb_refl.
  - destruct (c =? sep)%N eqn:E.
    + apply N.eqb_eq in E. tauto.
    + rewrite IH by tauto. reflexivity.
Qed.

(** Splitting what [join] gave restores the pieces, when no piece holds
    the separator. *)
Lemma split_join sep pieces :
  pieces <> [] -> List.Forall (fun piece => ~ In sep piece) pieces ->
  split sep (join sep pieces) = pieces.
Proof.
  induction pieces as [|piece pieces IH]; [congruence|].
  intros _ Hall. apply List.Forall_cons_iff in Hall as [Hp Hps].
  destruct pieces as [|q pieces].
  - simpl. now apply split_sep_free.
  - rewrite join_cons by discriminate.
    rewrite split_app_sep by exact Hp. f_equal. apply IH; [discriminate|exact Hps].
Qed.

Lemma split_length sep s :
  length (split sep s) = S (length (List.filter (fun c => (c =? sep)%N) s)).
Proof.
  induction s as [|c s IH]; simpl; [reflexivity|].
  destruct (c =? sep)%N; simpl; [now rewrite IH|].
  pose proof (split_nonempty sep s).
  destruct (split sep s); [congruence|]. simpl in *. exact IH.
Qed.

Lemma filter_map_strip (pieces : list (list N)) :
  map strip (List.filter (fun id_str => negb (Nat.eqb (length (strip id_str)) 0)) pieces)
  = List.filter (fun id => negb (Nat.eqb (length id) 0)) (map strip pieces).
Proof.
  induction pieces as [|piece pieces IH]; simpl; [reflexivity|].
  destruct (negb (Nat.eqb (length (strip piece)) 0)); simpl; now rewrite IH.
Qed.

Lemma exclude_ids_origins s :
  main.exclude_ids (Some s)
  = List.filter (fun id => negb (Nat.eqb (length id) 0)) (main.origins s).
Proof.
  unfold main.exclude_ids, main.origins.
  destruct s as [|c s]; [reflexivity|]. apply filter_map_strip.
Qed.

Lemma nonempty_length {B} (l : list B) :
  negb (Nat.eqb (length l) 0) = true <-> l <> [].
Proof. destruct l; simpl; split; congruence. Qed.

Lemma exclude_ids_pieces (excludeIds : option (list N)) :
  (forall id,
     In id (main.exclude_ids excludeIds)
     <-> exists s piece,
           excludeIds = Some s /\ In piece (split comma s)
           /\ id = strip piece /\ id <> [])
  /\ List.Forall
       (fun id =>
          id <> []
          /\ (forall c, head id = Some c -> isspace c = false)
          /\ (forall c, last id = Some c -> isspace c = false)
          /\ ~ In comma id)
       (main.exclude_ids excludeIds)
  /\ (excludeIds = None
      \/ (exists s, excludeIds = Some s
                    /\ forall c, In c s -> isspace c = true \/ c = comma) ->
      main.exclude_ids excludeIds = []).
Proof.
  assert (Hmem : forall id,
    In id (main.exclude_ids excludeIds)
    <-> exists s piece,
          excludeIds = Some s /\ In piece (split comma s)
          /\ id = strip piece /\ id <> []).
  { intros id. destruct excludeIds as [s|].
    - rewrite exclude_ids_origins. unfold main.origins.
      rewrite filter_In, in_map_iff, nonempty_length. split.
      + intros [(piece & <- & Hin) Hne]. eauto 8.
      + intros (s' & piece & [= <-] & Hin & -> & Hne). eauto.
    - simpl. split; [tauto|]. intros (? & ? & ? & _). discriminate. }
  split; [exact Hmem|]. split.
  - apply List.Forall_forall. intros id Hin.
    apply Hmem in Hin as (s & piece & -> & Hin & -> & Hne).
    destruct (strip_ends piece) as (Hh & Hl & Hsub).
    split; [exact Hne|]. split; [exact Hh|]. split; [exact Hl|].
    intros Hc. apply Hsub in Hc.
    pose proof (split_pieces comma s) as Hall.
    rewrite List.Forall_forall in Hall. exact (Hall piece Hin Hc).
  - intros [->|(s & -> & Hblank)]; [reflexivity|].
    assert (Hnone : forall id, ~ In id (main.exclude_ids (Some s)));
      [|destruct (main.exclude_ids (Some s)) as [|id ids]; [reflexivity|];
        exfalso; apply (Hnone id); now left].
    intros id Hin.
    apply Hmem in Hin as (s' & piece & [= <-] & Hin & -> & Hne).
    destruct (strip_ends piece) as (Hh & _ & Hsub).
    destruct (strip piece) as [|c rest] eqn:Es; [congruence|].
    pose proof (Hh c eq_refl) as Hc.
    assert (Hcp : In c piece) by (apply Hsub; now left).
    assert (Hcs : In c s).
    { rewrite <- (join_split comma s).
      clear -Hin Hcp. induction (split comma s) as [|p ps IH]; [destruct Hin|].
      destruct ps as [|q ps].
      - destruct Hin as [->|[]]. exact Hcp.
      - rewrite join_cons by discriminate. apply in_or_app.
        destruct Hin as [->|Hin]; [now left|].
        right. right. now apply IH. }
    destruct (Hblank c Hcs) as [Hsp| ->]; [congruence|].
    pose proof (split_pieces comma s) as Hall.
    rewrite List.Forall_forall in Hall. exact (Hall piece Hin Hcp).
Qed.

(** X17.  The ids [get_track_suggestions] excludes are exactly the
    comma-separated pieces of [excludeIds], stripped of surrounding
    whitespace, that are not blank; so every id is non-empty, neither starts
    nor ends with whitespace and holds no comma, and a missing parameter or
    one made of whitespace and commas only excludes nothing. *)
Theorem X17_exclude_ids_clean (excludeIds : option (list N)) :
  (forall id,
     In id (main.exclude_ids excludeIds)
     <-> exists s piece,
           excludeIds = Some s /\ In piece (split comma s)
           /\ id = strip piece /\ id <> [])
  /\ List.Forall
       (fun id =>
          id <> []
          /\ (forall c, head id = Some c -> isspace c = false)
          /\ (forall c, last id = Some c -> isspace c = false)
          /\ ~ In comma id)
       (main.exclude_ids excludeIds)
  /\ (excludeIds = None
      \/ (exists s, excludeIds = Some s
                    /\ forall c, In c s -> isspace c = true \/ c = comma) ->
      main.exclude_ids excludeIds = []).
Proof. exact (exclude_ids_pieces excludeIds). Qed.

(** X18.  Sending back the ids a request excluded, joined by commas,
    excludes the same ids; more generally a list of ids that are non-empty,
    free of surrounding whitespace and of commas is read back unchanged
    from its comma-joined form. *)
Theorem X18_exclude_ids_round_trip :
  (forall ids,
     List.Forall
       (fun id =>
          id <> []
          /\ (forall c, head id = Some c -> isspace c = false)
          /\ (forall c, last id = Some c -> isspace c = false)
          /\ ~ In comma id) ids ->
     main.exclude_ids (Some (join comma ids)) = ids)
  /\ (forall excludeIds,
        main.exclude_ids (Some (join comma (main.exclude_ids excludeIds)))
        = main.exclude_ids excludeIds).
Proof.
  assert (Hclean : forall ids,
    List.Forall
      (fun id =>
         id <> []
         /\ (forall c, head id = Some c -> isspace c = false)
         /\ (forall c, last id = Some c -> isspace c = false)
         /\ ~ In comma id) ids ->
    main.exclude_ids (Some (join comma ids)) = ids).
  { intros ids Hall. rewrite exclude_ids_origins. unfold main.origins.
    destruct ids as [|id ids]; [reflexivity|].
    rewrite split_join; [|discriminate|].
    2:{ eapply List.Forall_impl; [|exact Hall]. simpl. tauto. }
    assert (Hmap : map strip (id :: ids) = id :: ids).
    { clear -Hall. induction Hall as [|x l (_ & Hh & Hl & _) _ IH];
        [reflexivity|]. simpl. rewrite IH. f_equal. now apply strip_fixed. }
    rewrite Hmap. clear Hmap.
    induction Hall as [|x l (Hne & _) _ IH]; [reflexivity|].
    simpl. apply nonempty_length in Hne. rewrite Hne. now f_equal. }
  split; [exact Hclean|].
  intros excludeIds. apply Hclean.
  apply (proj1 (proj2 (exclude_ids_pieces excludeIds))).
Qed.

(** X19.  The allowed origins are the comma-separated pieces of [ORIGINS],
    each stripped: one more than there are commas, so never none, also for
    an empty [ORIGINS]; none of them starts or ends with whitespace or holds
    a comma; and the ids a request excludes are read the same way, with the
    blank entries dropped. *)
Theorem X19_origins (origins_str : list N) :
  length (main.origins origins_str)
  = S (length (List.filter (fun c => (c =? comma)%N) origins_str))
  /\ List.Forall
       (fun origin =>
          (forall c, head origin = Some c -> isspace c = false)
          /\ (forall c, last origin = Some c -> isspace c = false)
          /\ ~ In comma origin)
       (main.origins origins_str)
  /\ main.exclude_ids (Some origins_str)
     = List.filter (fun id => negb (Nat.eqb (length id) 0))
         (main.origins origins_str).
Proof.
  split; [|split].
  - unfold main.origins. rewrite length_map. apply split_length.
  - unfold main.origins. apply List.Forall_forall. intros origin Hin.
    apply in_map_iff in Hin as (piece & <- & Hin).
    destruct (strip_ends piece) as (Hh & Hl & Hsub).
    split; [exact Hh|]. split; [exact Hl|].
    intros Hc. apply Hsub in Hc.
    pose proof (split_pieces comma origins_str) as Hall.
    rewrite List.Forall_forall in Hall. exact (Hall piece Hin Hc).
  - apply exclude_ids_origins.
Qed.

(** X20.  The limit a request is served with is at least 1 and at most the
    larger of 1 and the configured maximum; it is the requested limit, or
    the default when none is requested, whenever that lies between 1 and the
    maximum; it is 1 when the configured maximum is below 1; and serving
    with an already validated limit changes nothing. *)
Theorem X20_validated_limit (limit : option Z) (default_limit max_limit : Z) :
  1 <= main.validated_limit limit default_limit max_limit <= Z.max 1 max_limit
  /\ (forall l, limit = Some l -> 1 <= l <= max_limit ->
        main.validated_limit limit default_limit max_limit = l)
  /\ (limit = None -> 1 <= default_limit <= max_limit ->
      main.validated_limit limit default_limit max_limit = default_limit)
  /\ (max_limit < 1 -> main.validated_limit limit default_limit max_limit = 1)
  /\ main.validated_limit
       (Some (main.validated_limit limit default_limit max_limit))
       default_limit max_limit
     = main.validated_limit limit default_limit max_limit.
Proof.
  unfold main.validated_limit.
  destruct limit as [l|]; repeat split; intros; try discriminate;
    repeat match goal with H : Some _ = Some _ |- _ => injection H as <- end;
    lia.
Qed.

(** * The suggestions route *)

Section RouteFacts.
Variable Meta : Type.
Variable check_rate_limit : M (bool * Q).
Variable default_limit : Z.
Variable max_limit : Z.
Variable get_suggestions : Z -> list (list N) -> M (main.SuggestionsResponse Meta).

(** With any personalization plugged in, what the route does once the
    request may pass and the suggestions service has answered. *)
Lemma get_track_suggestions_with_answer
  (personalize_tracks : AsyncSession -> list Track -> User -> Z -> M (list Track))
  limit excludeIds user session w retry_after w0 response w1 :
  check_rate_limit w = (Returns (true, retry_after), w0) ->
  get_suggestions (main.validated_limit limit default_limit max_limit)
                  (main.exclude_ids excludeIds) w0 = (Returns response, w1) ->
  exists response' w',
    main.get_track_suggestions_with Meta check_rate_limit default_limit max_limit
      get_suggestions personalize_tracks limit excludeIds user session w
    = (Done response', w')
    /\ main.meta Meta response' = main.meta Meta response
    /\ (user = None -> response' = response /\ w' = w1)
    /\ (forall u out w2,
        user = Some u ->
        personalize_tracks session (main.data Meta response) u 3 w1
          = (Returns out, w2) ->
        main.data Meta response' = out)
    /\ (forall u e w2,
        user = Some u ->
        personalize_tracks session (main.data Meta response) u 3 w1
          = (Raises e, w2) ->
        response' = response).
Proof.
  intros Hc Hg. unfold main.get_track_suggestions_with. rewrite Hc. simpl.
  unfold bind at 1. rewrite Hg.
  destruct user as [u|].
  - unfold try_except, bind at 1.
    destruct (personalize_tracks session (main.data Meta response) u 3 w1)
      as [[out|e] w2] eqn:Ep; run; eexists _, _; (split; [reflexivity|]);
      simpl; repeat split; intros; try discriminate; try congruence.
  - unfold ret. eexists _, _. split; [reflexivity|].
    repeat split; intros; discriminate.
Qed.

(** X21.  The route replies 429 "Rate limit exceeded", announcing a retry
    after the whole seconds of the waiting time plus one, exactly when the
    rate limiter refuses, and then does not ask for suggestions; it replies
    500 "Internal server error" when the suggestions service raises, whatever
    it raises; and once that service has answered the route always replies,
    with the service's response apart from [data]: a failure of the
    personalization leaves the response as the service gave it. *)
Theorem X21_route_outcomes
  (personalize_tracks : AsyncSession -> list Track -> User -> Z -> M (list Track))
  (limit : option Z) (excludeIds : option (list N))
  (user : option User) (session : AsyncSession) (w : World) :
  (forall retry_after w0,
     check_rate_limit w = (Returns (false, retry_after), w0) ->
     main.get_track_suggestions_with Meta check_rate_limit default_limit max_limit
       get_suggestions personalize_tracks limit excludeIds user session w
     = (HTTPError
          (mkHTTP 429 "Rate limit exceeded"
             (Some [("Retry-After",
                     main.str_of_int (main.int_of retry_after + 1))])),
        w0))
  /\ (forall retry_after w0 e w1,
        check_rate_limit w = (Returns (true, retry_after), w0) ->
        get_suggestions (main.validated_limit limit default_limit max_limit)
                        (main.exclude_ids excludeIds) w0 = (Raises e, w1) ->
        main.get_track_suggestions_with Meta check_rate_limit default_limit max_limit
          get_suggestions personalize_tracks limit excludeIds user session w
        = (HTTPError (mkHTTP 500 "Internal server error" None),
           mkWorld (trace w1 ++ [EvLog ERROR]) (rng w1)))
  /\ (forall retry_after w0 response w1,
        check_rate_limit w = (Returns (true, retry_after), w0) ->
        get_suggestions (main.validated_limit limit default_limit max_limit)
                        (main.exclude_ids excludeIds) w0 = (Returns response, w1) ->
        exists response' w',
          main.get_track_suggestions_with Meta check_rate_limit default_limit
            max_limit get_suggestions personalize_tracks
            limit excludeIds user session w
          = (Done response', w')
          /\ main.meta Meta response' = main.meta Meta response
          /\ (user = None -> response' = response /\ w' = w1)
          /\ (forall u e w2,
              user = Some u ->
              personalize_tracks session (main.data Meta response) u 3 w1
                = (Raises e, w2) ->
              response' = response))
  /\ (forall h w',
        main.get_track_suggestions_with Meta check_rate_limit default_limit max_limit
          get_suggestions personalize_tracks limit excludeIds user session w
        = (HTTPError h, w') ->
        (status_code h = 429 /\ exists retry_after w0,
            check_rate_limit w = (Returns (false, retry_after), w0))
        \/ (status_code h = 500 /\ exists retry_after w0 e w1,
              check_rate_limit w = (Returns (true, retry_after), w0)
              /\ get_suggestions (main.validated_limit limit default_limit max_limit)
                   (main.exclude_ids excludeIds) w0 = (Raises e, w1))).
Proof.
  split; [|split; [|split]].
  - intros retry_after w0 Hc. unfold main.get_track_suggestions_with.
    now rewrite Hc.
  - intros retry_after w0 e w1 Hc Hg. unfold main.get_track_suggestions_with.
    rewrite Hc. simpl. unfold bind at 1. now rewrite Hg.
  - intros retry_after w0 response w1 Hc Hg.
    destruct (get_track_suggestions_with_answer personalize_tracks
                limit excludeIds user session w retry_after w0 response w1 Hc Hg)
      as (response' & w' & Hrun & Hmeta & Hanon & _ & Hfail).
    exists response', w'. auto.
  - intros h w' Hrun.
    destruct (check_rate_limit w) as [[[[|] retry_after]|e] w0] eqn:Hc.
    + destruct (get_suggestions
                  (main.validated_limit limit default_limit max_limit)
                  (main.exclude_ids excludeIds) w0) as [[response|e] w1] eqn:Hg.
      * destruct (get_track_suggestions_with_answer personalize_tracks
                    limit excludeIds user session w retry_after w0 response w1 Hc Hg)
          as (response' & w'' & Hrun' & _).
        rewrite Hrun' in Hrun. discriminate.
      * right. unfold main.get_track_suggestions_with in Hrun.
        rewrite Hc in Hrun. simpl in Hrun. unfold bind at 1 in Hrun.
        rewrite Hg in Hrun. inversion Hrun; subst. simpl. eauto 8.
    + left. unfold main.get_track_suggestions_with in Hrun.
      rewrite Hc in Hrun. simpl in Hrun. inversion Hrun; subst. simpl. eauto.
    + unfold main.get_track_suggestions_with in Hrun.
      rewrite Hc in Hrun. discriminate.
Qed.

(** X22.  Once the request may pass and the suggestions service has
    answered, the route replies with the service's response in which [data]
    is the list the personalization service returns for it with the default
    threshold 3: a permutation of the tracks the service gave, the same list
    when the store fails or the user has fewer than three likes.  For a
    caller without a user the response is the service's own and the store
    is not touched. *)
Theorem X22_route_personalizes
  (limit : option Z) (excludeIds : option (list N))
  (user : option User) (session : AsyncSession) (w w0 w1 : World)
  (retry_after : Q) (response : main.SuggestionsResponse Meta) :
  check_rate_limit w = (Returns (true, retry_after), w0) ->
  get_suggestions (main.validated_limit limit default_limit max_limit)
                  (main.exclude_ids excludeIds) w0 = (Returns response, w1) ->
  exists response' w',
    main.get_track_suggestions Meta check_rate_limit default_limit max_limit
      get_suggestions limit excludeIds user session w
    = (Done response', w')
    /\ main.meta Meta response' = main.meta Meta response
    /\ Permutation (main.data Meta response) (main.data Meta response')
    /\ (user = None -> response' = response /\ w' = w1)
    /\ (forall u,
        user = Some u ->
        Returns (main.data Meta response')
        = fst (PersonalizationService.personalize_tracks session
                 (main.data Meta response) u 3 w1))
    /\ (forall u,
        user = Some u ->
        fst (PreferenceAnalyzer.analyze_preferences session (user_pk u) 3 w1)
          = Returns None ->
        main.data Meta response' = main.data Meta response).
Proof.
  intros Hc Hg.
  destruct (get_track_suggestions_with_answer
              PersonalizationService.personalize_tracks
              limit excludeIds user session w retry_after w0 response w1 Hc Hg)
    as (response' & w' & Hrun & Hmeta & Hanon & Hok & _).
  exists response', w'. split; [exact Hrun|]. split; [exact Hmeta|].
  destruct user as [u|].
  - destruct (personalize_tracks_result session (main.data Meta response) u 3 w1)
      as (w2 & Hp).
    pose proof (Hok u _ w2 eq_refl Hp) as Hdata.
    destruct (personalize_tracks_with_perm
                (PreferenceAnalyzer.analyze_preferences session)
                (fun t q => ret (PersonalizationService._score_track t q))
                (main.data Meta response) u 3 w1) as (out & w3 & Hrun' & Hperm).
    unfold PersonalizationService.personalize_tracks in Hp.
    rewrite Hrun' in Hp. inversion Hp as [[Hout Hw]].
    split; [rewrite Hdata, <- Hout; exact Hperm|].
    split; [discriminate|]. split.
    + intros u' [= <-]. unfold PersonalizationService.personalize_tracks.
      rewrite Hrun'. simpl. now rewrite Hdata, <- Hout.
    + intros u' [= <-] Hnone. rewrite Hdata, Hnone. reflexivity.
  - destruct (Hanon eq_refl) as [-> ->].
    split; [reflexivity|]. split; [auto|]. split; discriminate.
Qed.

End RouteFacts.

Lemma X22_route_personalizes_witness :
  exists response' w',
    main.get_track_suggestions unit (ret (true, 0%Q)) 10 50
      (fun _ _ => ret (main.mkResponse unit candidate_tracks tt))
      None (Some [50; 48; 48; 51]%N) (Some test_user) test_session (fresh_world [])
    = (Done response', w')
    /\ main.meta unit response' = tt
    /\ Permutation candidate_tracks (main.data unit response')
    /\ (Some test_user = None ->
        response' = main.mkResponse unit candidate_tracks tt
        /\ w' = fresh_world [])
    /\ (forall u,
        Some test_user = Some u ->
        Returns (main.data unit response')
        = fst (PersonalizationService.personalize_tracks test_session
                 candidate_tracks u 3 (fresh_world [])))
    /\ (forall u,
        Some test_user = Some u ->
        fst (PreferenceAnalyzer.analyze_preferences test_session (user_pk u) 3
               (fresh_world [])) = Returns None ->
        main.data unit response' = candidate_tracks).
Proof.
  apply (X22_route_personalizes unit (ret (true, 0%Q)) 10 50
           (fun _ _ => ret (main.mkResponse unit candidate_tracks tt))
           None (Some [50; 48; 48; 51])%N (Some test_user) test_session
           (fresh_world []) (fresh_world []) (fresh_world []) 0%Q
           (main.mkResponse unit candidate_tracks tt));
    reflexivity.
Defined.
